(** * TSP analysis pipeline: label canonicalisation, statistics, route figures,
      report tables and exports

    A shallow embedding of [analysis/utils.py] and [analysis/generate_report.py].

    Conventions of the embedding.
    - Python [str] is [string]; labels are taken to be ASCII, so the regex
      class [\d] is the ten characters 0..9.
    - Python scalars read from JSON (node coordinates and costs) are exact
      rationals [Q]; the operator [/] raises [ZeroDivisionError] on a zero
      divisor, as it does for Python ints and floats alike.
    - numpy/pandas float64 values are [float64]: a finite rational, the two
      infinities or NaN.  Finite arithmetic is exact (rounding, overflow and
      the sign of zero are not modelled); division by zero follows IEEE 754.
    - A Python [dict] is an association list in insertion order.
    - A pandas DataFrame lives in a store and is handled through its
      location, so that [df.copy()] and in-place column assignment differ.
    - What the code prints is kept as events: diagnostics as lines of text,
      tables of numbers as data.  The markdown report is real text.
    - Files that exist are taken to decode to the shapes of the data
      contract; timestamps are parameters. *)

From Stdlib Require Import List String Ascii Bool Arith ZArith QArith Lia Lqa.
From Stdlib Require Import Permutation DecimalString Qabs.
Import ListNotations.

Open Scope string_scope.

(* ====================================================================== *)
(** * Part I: the model *)
(* ====================================================================== *)

(** ** Regular-expression substitution, specialised to the two patterns
       the code uses *)

Module Regex.

(** The class [\d]. *)
Definition is_digit (c : ascii) : bool :=
  (48 <=? nat_of_ascii c)%nat && (nat_of_ascii c <=? 57)%nat.

Definition newline : ascii := ascii_of_nat 10.

(** [$] without [re.MULTILINE]: the end of the string, or the position just
    before a newline that is the last character. *)
Definition at_eos (s : string) : bool :=
  match s with
  | EmptyString => true
  | String c EmptyString => Ascii.eqb c newline
  | _ => false
  end.

(** Removes a literal prefix. *)
Fixpoint strip_prefix (p s : string) : option string :=
  match p, s with
  | EmptyString, _ => Some s
  | String a p', String b s' =>
      if Ascii.eqb a b then strip_prefix p' s' else None
  | String _ _, EmptyString => None
  end.

(** [\d+$] at the head of [s], greedy with backtracking: after one digit the
    matcher first tries to take more digits and only then tries [$].
    The result is the number of characters matched. *)
Fixpoint match_digits_eos (s : string) : option nat :=
  match s with
  | String c r =>
      if is_digit c then
        match match_digits_eos r with
        | Some n => Some (S n)
        | None => if at_eos r then Some 1%nat else None
        end
      else None
  | EmptyString => None
  end.

(** [\d*] at the head of [s], greedy: the length of the digit run. *)
Fixpoint match_digits (s : string) : nat :=
  match s with
  | String c r => if is_digit c then S (match_digits r) else 0%nat
  | EmptyString => 0%nat
  end.

(** [_start\d+$] at the head of [s]: the length of the match. *)
Definition match_start_eos (s : string) : option nat :=
  match strip_prefix "_start" s with
  | Some r => option_map (Nat.add 6) (match_digits_eos r)
  | None => None
  end.

(** [_start\d+] at the head of [s]: the length of the match. *)
Definition match_start (s : string) : option nat :=
  match strip_prefix "_start" s with
  | Some r =>
      match match_digits r with
      | O => None
      | S n => Some (6 + S n)%nat
      end
  | None => None
  end.

(** [re.sub(pattern, '', s)]: scan from the left; where the pattern matches,
    drop the match and resume after it, otherwise keep the character.
    [skip] counts the characters of the current match still to drop. *)
Fixpoint sub_empty (m : string -> option nat) (skip : nat) (s : string)
  : string :=
  match s with
  | EmptyString => EmptyString
  | String c r =>
      match skip with
      | S k => sub_empty m k r
      | O =>
          match m s with
          | Some (S k) => sub_empty m k r
          | _ => String c (sub_empty m 0 r)
          end
      end
  end.

End Regex.

(** ** NameCanonicalizer *)

(** [generate_report.py], "Clean algorithm names":
    [.str.replace(r'_start\d+$', '', regex=True)]. *)
Definition canonicalize (label : string) : string :=
  Regex.sub_empty Regex.match_start_eos 0 label.

(** [utils.py], the [base_algorithm] column:
    [.str.replace(r'_start\d+', '', regex=True)]. *)
Definition base_algorithm (label : string) : string :=
  Regex.sub_empty Regex.match_start 0 label.

(** A label that ends in a multi-start suffix as Python's [$] reads "end":
    [label = stem ++ "_start" ++ digits ++ tail], one digit at least, and
    [tail] empty or a single newline. *)
Fixpoint all_digits (s : string) : bool :=
  match s with
  | EmptyString => true
  | String c r => Regex.is_digit c && all_digits r
  end.

Definition start_suffix (label stem tail : string) : Prop :=
  exists digits,
    label = stem ++ "_start" ++ digits ++ tail /\
    digits <> "" /\ all_digits digits = true /\
    (tail = "" \/ tail = String Regex.newline "").

(** Whether a string holds an underscore (used to locate a match). *)
Fixpoint has_underscore (s : string) : bool :=
  match s with
  | EmptyString => false
  | String c r => Ascii.eqb c "_" || has_underscore r
  end.

(** ** numpy float64 *)

Inductive float64 : Type :=
| Fin (q : Q)
| PInf
| NInf
| NaN.

Definition Qpos_b (q : Q) : bool := negb (Qle_bool q 0).

(** The sign rule shared by products and quotients with an infinity. *)
Definition signed_inf (positive : bool) : float64 :=
  if positive then PInf else NInf.

Definition fneg (a : float64) : float64 :=
  match a with
  | Fin x => Fin (- x)
  | PInf => NInf
  | NInf => PInf
  | NaN => NaN
  end.

Definition fadd (a b : float64) : float64 :=
  match a, b with
  | NaN, _ | _, NaN => NaN
  | Fin x, Fin y => Fin (x + y)
  | PInf, NInf | NInf, PInf => NaN
  | PInf, _ | _, PInf => PInf
  | NInf, _ | _, NInf => NInf
  end.

Definition fsub (a b : float64) : float64 := fadd a (fneg b).

Definition fmul (a b : float64) : float64 :=
  match a, b with
  | NaN, _ | _, NaN => NaN
  | Fin x, Fin y => Fin (x * y)
  | Fin x, PInf | PInf, Fin x =>
      if Qeq_bool x 0 then NaN else signed_inf (Qpos_b x)
  | Fin x, NInf | NInf, Fin x =>
      if Qeq_bool x 0 then NaN else signed_inf (negb (Qpos_b x))
  | PInf, PInf | NInf, NInf => PInf
  | PInf, NInf | NInf, PInf => NInf
  end.

(** IEEE 754 division: a zero divisor gives NaN for 0/0 and an infinity
    otherwise; nothing is raised (the module silences numpy's warnings with
    [warnings.filterwarnings('ignore')]). *)
Definition fdiv (a b : float64) : float64 :=
  match a, b with
  | NaN, _ | _, NaN => NaN
  | Fin x, Fin y =>
      if Qeq_bool y 0
      then if Qeq_bool x 0 then NaN else signed_inf (Qpos_b x)
      else Fin (x / y)
  | Fin _, (PInf | NInf) => Fin 0
  | PInf, Fin y => signed_inf (Qle_bool 0 y)
  | NInf, Fin y => signed_inf (negb (Qle_bool 0 y))
  | (PInf | NInf), (PInf | NInf) => NaN
  end.


(** The order pandas sorts by: ascending, NaN last. *)
Definition fleb (a b : float64) : bool :=
  match a, b with
  | _, NaN => true
  | NaN, _ => false
  | NInf, _ => true
  | _, NInf => false
  | _, PInf => true
  | PInf, _ => false
  | Fin x, Fin y => Qle_bool x y
  end.

(** The square root, rounded down to a multiple of [1/(den * 2^26)]. *)
Definition Qsqrt (q : Q) : Q :=
  Z.sqrt (Qnum q * Z.pos (Qden q) * 2 ^ 52) # (Qden q * 67108864).

(** ** Series statistics (pandas, over finite samples) *)

Definition Qsum (xs : list Q) : Q := fold_right Qplus 0 xs.

Definition Qlen (xs : list Q) : Q := inject_Z (Z.of_nat (List.length xs)).

(** [Series.mean()]: NaN for an empty series. *)
Definition mean (xs : list Q) : float64 :=
  match xs with
  | [] => NaN
  | _ => Fin (Qsum xs / Qlen xs)
  end.

(** The sum of squared deviations from [m]. *)
Definition sum_sq_dev (m : Q) (xs : list Q) : Q :=
  Qsum (map (fun x => (x - m) * (x - m)) xs).

(** [Series.std()], the sample standard deviation (ddof = 1): NaN when the
    series has fewer than two values. *)
Definition std (xs : list Q) : float64 :=
  match xs with
  | [] | [_] => NaN
  | _ =>
      let m := Qsum xs / Qlen xs in
      Fin (Qsqrt (sum_sq_dev m xs / (Qlen xs - 1)))
  end.

Definition Qmin (a b : Q) : Q := if Qle_bool a b then a else b.
Definition Qmax (a b : Q) : Q := if Qle_bool a b then b else a.

(** [Series.min()] and [Series.max()]: NaN for an empty series. *)
Definition smin (xs : list Q) : float64 :=
  match xs with
  | [] => NaN
  | x :: r => Fin (fold_left Qmin r x)
  end.

Definition smax (xs : list Q) : float64 :=
  match xs with
  | [] => NaN
  | x :: r => Fin (fold_left Qmax r x)
  end.

(** The coefficient of variation as both call sites write it:
    [std() / mean() * 100].  The sum, the mean and the deviation are exact
    rationals here; binary64 rounds them, so on series where a rounded sum
    or product differs from the exact one (values that underflow, sums past
    2^53) the value below is that of the exact computation, not numpy's. *)
Definition cv_percent (xs : list Q) : float64 :=
  fmul (fdiv (std xs) (mean xs)) (Fin 100).



(** ** Python values: exceptions, numbers as text, dictionaries *)

Inductive exn : Type :=
| ZeroDivisionError
| IndexError
| KeyError (key : string)
| ValueError (msg : string).

Inductive result (A : Type) : Type :=
| Ok (a : A)
| Raise (e : exn).

Arguments Ok {A} a.
Arguments Raise {A} e.

Definition result_bind {A B} (r : result A) (k : A -> result B) : result B :=
  match r with
  | Ok a => k a
  | Raise e => Raise e
  end.

(** [[f(x) for x in xs]] where [f] may raise: the first exception wins. *)
Fixpoint result_map {A B} (f : A -> result B) (xs : list A) : result (list B) :=
  match xs with
  | [] => Ok []
  | x :: r =>
      result_bind (f x) (fun b =>
      result_bind (result_map f r) (fun bs => Ok (b :: bs)))
  end.

(** [str(n)] for an int. *)
Definition str_of_Z (n : Z) : string := NilZero.string_of_int (Z.to_int n).

Definition str_of_nat (n : nat) : string := str_of_Z (Z.of_nat n).

(** [sep.join(parts)]. *)
Definition join (sep : string) (parts : list string) : string :=
  String.concat sep parts.

(** Python's true division of scalars. *)
Definition py_div (a b : Q) : result Q :=
  if Qeq_bool b 0 then Raise ZeroDivisionError else Ok (a / b).

(** [max(...)] and [min(...)] over a generator: [ValueError] when empty. *)
Definition py_max (xs : list Q) : result Q :=
  match xs with
  | [] => Raise (ValueError "max() arg is an empty sequence")
  | x :: r => Ok (fold_left (fun best v => if Qle_bool v best then best else v) r x)
  end.

Definition py_min (xs : list Q) : result Q :=
  match xs with
  | [] => Raise (ValueError "min() arg is an empty sequence")
  | x :: r => Ok (fold_left (fun best v => if Qle_bool best v then best else v) r x)
  end.

(** A [dict]: keys in insertion order, one entry per key. *)
Module Dict.
Section WithKey.

Context {K V : Type} (eqb : K -> K -> bool).

Definition t : Type := list (K * V).

Fixpoint get (d : t) (k : K) : option V :=
  match d with
  | [] => None
  | (k', v) :: r => if eqb k' k then Some v else get r k
  end.

(** [d[k] = v]: an existing key keeps its place. *)
Fixpoint set (d : t) (k : K) (v : V) : t :=
  match d with
  | [] => [(k, v)]
  | (k', v') :: r => if eqb k' k then (k', v) :: r else (k', v') :: set r k v
  end.

Definition mem (d : t) (k : K) : bool :=
  match get d k with Some _ => true | None => false end.

Definition keys (d : t) : list K := map fst d.
Definition values (d : t) : list V := map snd d.

(** [{key(x): val(x) for x in xs}]: a later duplicate overwrites. *)
Definition of_list {A} (key : A -> K) (val : A -> V) (xs : list A) : t :=
  fold_left (fun d x => set d (key x) (val x)) xs [].

End WithKey.
End Dict.

(** [Series.unique()]: distinct values in order of first appearance. *)
Fixpoint unique (xs : list string) : list string :=
  match xs with
  | [] => []
  | x :: r => x :: filter (fun y => negb (String.eqb x y)) (unique r)
  end.

(** [sorted(names)] for strings: ascending by code point. *)
Fixpoint insert_sorted (x : string) (l : list string) : list string :=
  match l with
  | [] => [x]
  | y :: r => if String.leb x y then x :: l else y :: insert_sorted x r
  end.

Definition sorted (l : list string) : list string :=
  fold_right insert_sorted [] l.

(** ** Data model (the JSON contract of section 6 of the specification) *)

(** One executed run, an entry of ["results"]. *)
Module Run.
Record t : Type := make {
  algorithm : string;
  objective_value : Q;
  path_length : Q;
  node_costs : Q;
  computation_time_ms : Q
}.
End Run.

Module Node.
Record t : Type := make {
  id : Z;
  x : Q;
  y : Q;
  cost : Q
}.
End Node.

(** A best solution, a value of ["best_solutions"]. *)
Module Sol.
Record t : Type := make {
  route : list Z;
  selected_nodes : list Z;
  objective_value : Q;
  path_length : Q;
  node_costs : Q;
  is_validated : bool;
  validation_report : string
}.
End Sol.

Record VizData : Type := {
  nodes : list Node.t;
  best_solutions : Dict.t (K := string) (V := Sol.t)
}.

Record AlgorithmStatistics : Type := {
  total_runs : nat;
  min_objective : Q;
  max_objective : Q;
  avg_objective : Q;
  best_solution_validated : bool
}.

Record SummaryData : Type := {
  algorithm_statistics : Dict.t (K := string) (V := AlgorithmStatistics)
}.

(** A DataFrame of run records: the rows in order, and the column
    [base_algorithm] once some function has assigned it.  A frame built from
    no record has no column at all. *)
Record DataFrame : Type := {
  records : list Run.t;
  base_algorithm_column : option (list string)
}.

(** A DataFrame object is known by its location in the store. *)
Definition loc : Type := nat.

(** The value of [data[instance_name]]. *)
Record instance_data : Type := {
  df : loc;
  viz_data : option VizData;
  summary_data : option SummaryData
}.

(** The files under [results/], each read as what [json.load] gives when
    the path exists. *)
Record FileSystem : Type := {
  results_at : string -> option (list Run.t);
  visualization_at : string -> option VizData;
  summary_at : string -> option SummaryData
}.

Definition RESULTS_PATH : string := "results".

(** [a / b] on paths, as the text of the path: the two parts with a slash
    between them.  pathlib also drops empty and [.] parts and restarts at an
    absolute part, so two different texts can name one file; the paths are
    used as the text that is printed and linked, and no property below
    concludes that two paths name different files. *)
Definition path_join (a b : string) : string := a ++ "/" ++ b.

(** ** The interpreter state: the store of DataFrames, what was printed and
       what was written to disk *)

(** A ranking row of [create_performance_ranking]. *)
Record RankingRow : Type := {
  Instance : string;
  Algorithm : string;
  Mean_Objective : float64;
  Std_Objective : float64;
  Best_Objective : float64;
  Worst_Objective : float64;
  Mean_Time_ms : float64;
  Success_Rate : Q;
  Runs : nat
}.

(** The [metadata] object of an exported best-solutions file. *)
Record ExportMetadata : Type := {
  total_nodes : nat;
  required_nodes : nat;
  algorithms_count : nat
}.

(** The entry of [stats_summary] for one algorithm. *)
Record StatsEntry : Type := {
  stat_count : nat;
  stat_mean : float64;
  stat_std : float64;
  stat_min : float64;
  stat_max : float64;
  stat_cv_percent : float64
}.

(** What matplotlib was asked to draw. *)
Inductive artist : Type :=
| Scatter (x y : Q) (colour : option Q) (s : Q) (zorder : Z)
| Text (x y : Q) (label : string)
| Polyline (xs ys : list Q) (zorder : Z)
| Arrow (xytext xy : Q * Q) (zorder : Z).

(** What a written file holds. *)
Inductive file_content : Type :=
| BestSolutionsJson (instance algorithm_folder export_timestamp : string)
    (exported_nodes : list Node.t)
    (exported_solutions : Dict.t (K := string) (V := Sol.t))
    (metadata : ExportMetadata)
| StatisticsJson (instance algorithm_folder export_timestamp : string)
    (statistics : Dict.t (K := string) (V := StatsEntry))
| RawDataCsv (frame : DataFrame)
| PlotImage (title : string)
| SolutionFigure (suptitle : string) (objective path costs : Q)
    (validated : bool) (artists : list artist).

(** What [print] showed: plain lines, and tables kept as data. *)
Inductive event : Type :=
| Line (text : string)
| Loaded (count : nat) (instance_name algorithm_folder : string)
| Algorithms (names : list string)
| PerformanceRanking (instance : string) (ranking : list (nat * RankingRow))
| BestVsWorst (best worst : string) (best_mean worst_mean improvement : float64)
| CoefficientOfVariation (algo : string) (cv : float64)
| BestAlgorithm (algo : string) (best_mean : float64)
| Improvement (algo : string) (improvement : float64)
| Figure (titles : list string).

Record world : Type := {
  store : list DataFrame;
  stdout : list event;
  written : list (string * file_content)
}.

Definition M (A : Type) : Type := world -> result A * world.

Definition ret {A} (a : A) : M A := fun w => (Ok a, w).

Definition raise {A} (e : exn) : M A := fun w => (Raise e, w).

Definition bind {A B} (m : M A) (k : A -> M B) : M B :=
  fun w =>
    match m w with
    | (Ok a, w') => k a w'
    | (Raise e, w') => (Raise e, w')
    end.

Notation "x <- m ;; k" := (bind m (fun x => k))
  (at level 61, m at next level, right associativity).
Notation "m ;;; k" := (bind m (fun _ => k))
  (at level 61, right associativity).

Definition lift {A} (r : result A) : M A := fun w => (r, w).

Definition print (e : event) : M unit :=
  fun w => (Ok tt, {| store := store w; stdout := stdout w ++ [e];
                      written := written w |}).

(** [with open(path, 'w') as f: ...dump(content, f)]. *)
Definition write_file (path : string) (content : file_content) : M unit :=
  fun w => (Ok tt, {| store := store w; stdout := stdout w;
                      written := written w ++ [(path, content)] |}).

(** [for x in xs: body(x)]; an exception ends the loop. *)
Fixpoint for_each {A} (xs : list A) (body : A -> M unit) : M unit :=
  match xs with
  | [] => ret tt
  | x :: r => body x ;;; for_each r body
  end.

(** A loop that collects one value per element. *)
Fixpoint map_m {A B} (f : A -> M B) (xs : list A) : M (list B) :=
  match xs with
  | [] => ret []
  | x :: r => b <- f x ;; bs <- map_m f r ;; ret (b :: bs)
  end.

(** A loop that threads an accumulator (a local the body reassigns). *)
Fixpoint fold_m {A S} (f : S -> A -> M S) (xs : list A) (s : S) : M S :=
  match xs with
  | [] => ret s
  | x :: r => s' <- f s x ;; fold_m f r s'
  end.

(** ** DataFrame operations *)

Definition empty_frame : DataFrame :=
  {| records := []; base_algorithm_column := None |}.

Fixpoint list_update {A} (l : list A) (i : nat) (a : A) : list A :=
  match l, i with
  | [], _ => []
  | _ :: r, O => a :: r
  | h :: r, S j => h :: list_update r j a
  end.

(** A new DataFrame object. *)
Definition alloc (frame : DataFrame) : M loc :=
  fun w => (Ok (List.length (store w)),
            {| store := store w ++ [frame]; stdout := stdout w;
               written := written w |}).

Definition df_read (l : loc) : M DataFrame :=
  fun w => (Ok (nth l (store w) empty_frame), w).

Definition df_update (l : loc) (f : DataFrame -> DataFrame) : M unit :=
  fun w => (Ok tt,
            {| store := list_update (store w) l (f (nth l (store w) empty_frame));
               stdout := stdout w; written := written w |}).

(** [pd.DataFrame(results_data['results'])]. *)
Definition DataFrame_new (rs : list Run.t) : M loc :=
  alloc {| records := rs; base_algorithm_column := None |}.

(** [df.copy()]. *)
Definition df_copy (l : loc) : M loc :=
  frame <- df_read l ;; alloc frame.

(** [df['algorithm']]: [KeyError] on a frame without columns. *)
Definition df_algorithm (l : loc) : M (list string) :=
  frame <- df_read l ;;
  match records frame with
  | [] => raise (KeyError "algorithm")
  | rs => ret (map Run.algorithm rs)
  end.

Definition with_algorithm (r : Run.t) (a : string) : Run.t :=
  Run.make a (Run.objective_value r) (Run.path_length r) (Run.node_costs r)
    (Run.computation_time_ms r).

(** [df['algorithm'] = column], in place. *)
Definition df_set_algorithm (l : loc) (column : list string) : M unit :=
  df_update l (fun frame =>
    {| records := map (fun ra => with_algorithm (fst ra) (snd ra))
                      (combine (records frame) column);
       base_algorithm_column := base_algorithm_column frame |}).

(** [df['base_algorithm'] = column], in place. *)
Definition df_set_base_algorithm (l : loc) (column : list string) : M unit :=
  df_update l (fun frame =>
    {| records := records frame; base_algorithm_column := Some column |}).

(** The column [base_algorithm] of a frame that has it. *)
Definition base_algorithm_of (frame : DataFrame) : list string :=
  match base_algorithm_column frame with
  | Some column => column
  | None => []
  end.

(** [df[df[column] == key]]: the rows whose [column] value is [key]. *)
Definition select (column : list string) (key : string) (rows : list Run.t)
  : list Run.t :=
  map snd (filter (fun cr => String.eqb (fst cr) key) (combine column rows)).

(** The idiom of the analysis helpers of [utils.py]:
    [df_plot = df.copy()] and then
    [df_plot['base_algorithm'] = df_plot['algorithm'].str.replace(r'_start\d+', '', regex=True)]. *)
Definition copy_with_base_algorithm (df : loc) : M loc :=
  df_plot <- df_copy df ;;
  column <- df_algorithm df_plot ;;
  df_set_base_algorithm df_plot (map base_algorithm column) ;;;
  ret df_plot.

(** The idiom of the table builders of [generate_report.py]:
    [df = instance_data['df'].copy()] and then
    [df['algorithm'] = df['algorithm'].str.replace(r'_start\d+$', '', regex=True)]. *)
Definition copy_with_clean_algorithm (df : loc) : M loc :=
  df <- df_copy df ;;
  column <- df_algorithm df ;;
  df_set_algorithm df (map canonicalize column) ;;;
  ret df.

(** The same assignment without the copy, as [export_statistics_summary] and
    [_create_and_save_performance_plot] write it:
    [df = instance_data['df']] and then [df['base_algorithm'] = ...]. *)
Definition add_base_algorithm (df : loc) : M unit :=
  column <- df_algorithm df ;;
  df_set_base_algorithm df (map base_algorithm column).

(** ** Sorting a frame by one float64 column *)

(** [rows.take(indexer)]. *)
Definition take {A} (rows : list A) (indexer : list nat) : list A :=
  flat_map (fun i => match nth_error rows i with
                     | Some r => [r]
                     | None => []
                     end) indexer.

(** [sort_values(column)]: pandas asks numpy for [argsort] of the key
    column alone and takes the rows in that order.  Which of two equal keys
    comes first is the sorting routine's business ([kind='quicksort'] is not
    stable), so [argsort] is a parameter of the model. *)
Definition sort_values {A} (argsort : list float64 -> list nat)
    (key : A -> float64) (rows : list A) : list A :=
  take rows (argsort (map key rows)).

Fixpoint ascending (keys : list float64) : bool :=
  match keys with
  | a :: (b :: _) as r => fleb a b && ascending r
  | _ => true
  end.

(** [indexer] is an argsort of [keys]: every position once, keys ascending. *)
Definition sorts (indexer : list nat) (keys : list float64) : bool :=
  (List.length indexer =? List.length keys)%nat
  && forallb (fun i => existsb (Nat.eqb i) indexer) (seq 0 (List.length keys))
  && ascending (take keys indexer).

(** One routine that meets [sorts]: a stable argsort, by insertion, which
    keeps equal keys in the order of the data. *)
Fixpoint insert_index (keys : list float64) (i : nat) (sorted_part : list nat)
  : list nat :=
  match sorted_part with
  | [] => [i]
  | j :: r =>
      if fleb (nth j keys NaN) (nth i keys NaN)
      then j :: insert_index keys i r
      else i :: sorted_part
  end.

Definition stable_argsort (keys : list float64) : list nat :=
  fold_left (fun acc i => insert_index keys i acc) (seq 0 (List.length keys)) [].

(** [round(2)] of numpy: to the nearest hundredth, ties to even. *)
Definition round_half_even (q : Q) : Z :=
  let n := Qnum q in
  let d := Z.pos (Qden q) in
  let fl := (n / d)%Z in
  let twice_rest := (2 * (n mod d))%Z in
  if (twice_rest <? d)%Z then fl
  else if (d <? twice_rest)%Z then (fl + 1)%Z
  else if Z.even fl then fl else (fl + 1)%Z.

Definition fround2 (v : float64) : float64 :=
  match v with
  | Fin q => Fin (round_half_even (q * 100) # 100)
  | _ => v
  end.

(** ** Formatting floats: [f"{v:.2f}"] and [f"{v:.0f}"] *)

Fixpoint pad_zeros (width : nat) (s : string) : string :=
  match (width - String.length s)%nat with
  | O => s
  | S _ =>
      match width with
      | O => s
      | S w => String "0" (pad_zeros w s)
      end
  end.

Definition format_fixed (digits : nat) (v : float64) : string :=
  match v with
  | NaN => "nan"
  | PInf => "inf"
  | NInf => "-inf"
  | Fin q =>
      let scale := (10 ^ Z.of_nat digits)%Z in
      let scaled := round_half_even (Qabs q * inject_Z scale) in
      let sign := if Qpos_b (- q) then "-" else "" in
      let whole := str_of_Z (scaled / scale) in
      match digits with
      | O => sign ++ whole
      | _ => sign ++ whole ++ "." ++ pad_zeros digits (str_of_Z (scaled mod scale))
      end
  end.

(** ** [utils.py] *)

Module utils.

(** *** Data loading *)

Definition results_path (instance_name algorithm_folder : string) : string :=
  path_join (path_join RESULTS_PATH algorithm_folder)
    (instance_name ++ "_" ++ algorithm_folder ++ "_results.json").

Definition viz_path (instance_name algorithm_folder : string) : string :=
  path_join (path_join RESULTS_PATH algorithm_folder)
    (instance_name ++ "_visualization.json").

Definition summary_path (instance_name algorithm_folder : string) : string :=
  path_join (path_join RESULTS_PATH algorithm_folder)
    (instance_name ++ "_summary.json").

(** The triple [(df, viz_data, summary_data)], or [(None, None, None)]. *)
Definition load_algorithm_results (fs : FileSystem)
    (instance_name algorithm_folder : string)
  : M (option loc * option VizData * option SummaryData) :=
  match results_at fs (results_path instance_name algorithm_folder) with
  | None =>
      print (Line ("Results file not found: "
                   ++ results_path instance_name algorithm_folder)) ;;;
      ret (None, None, None)
  | Some results_data =>
      let viz_data := visualization_at fs (viz_path instance_name algorithm_folder) in
      let summary_data := summary_at fs (summary_path instance_name algorithm_folder) in
      df <- DataFrame_new results_data ;;
      print (Loaded (List.length results_data) instance_name algorithm_folder) ;;;
      match results_data with
      | [] => ret tt
      | _ =>
          print (Algorithms
                   (sorted (unique (map base_algorithm
                                        (map Run.algorithm results_data)))))
      end ;;;
      ret (Some df, viz_data, summary_data)
  end.

(** An instance whose run records are on disk. *)
Definition present (fs : FileSystem) (algorithm_folder instance : string) : Prop :=
  results_at fs (results_path instance algorithm_folder) <> None.

Definition default_instances : list string := ["TSPA"; "TSPB"].

Definition data : Type := Dict.t (K := string) (V := instance_data).

Definition load_all_algorithm_results (fs : FileSystem)
    (algorithm_folder : string) (instances : option (list string)) : M data :=
  let instances :=
    match instances with
    | None => default_instances
    | Some l => l
    end in
  fold_m (fun all_data instance =>
            loaded <- load_algorithm_results fs instance algorithm_folder ;;
            match loaded with
            | (Some df, viz_data, summary_data) =>
                ret (Dict.set String.eqb all_data instance
                       {| df := df; viz_data := viz_data;
                          summary_data := summary_data |})
            | (None, _, _) => ret all_data
            end)
         instances [].

(** *** Drawing a best solution *)

(** [50 + 200 * (cost - min_cost) / (max_cost - min_cost)]. *)
Definition marker_size (min_cost max_cost cost : Q) : result Q :=
  result_bind (py_div (200 * (cost - min_cost)) (max_cost - min_cost))
    (fun scaled => Ok (50 + scaled)).

(** [d[key]] on a dict keyed by node id. *)
Definition lookup {V} (d : Dict.t (K := Z) (V := V)) (key : Z) : result V :=
  match Dict.get Z.eqb d key with
  | Some v => Ok v
  | None => Raise (KeyError (str_of_Z key))
  end.

(** [xs[i]]. *)
Definition index {A} (xs : list A) (i : nat) : result A :=
  match nth_error xs i with
  | Some a => Ok a
  | None => Raise IndexError
  end.

(** The arrow of one edge: from 30% to 70% of the way. *)
Definition edge_arrow (p1 p2 : Q * Q) : artist :=
  let '(x1, y1) := p1 in
  let '(x2, y2) := p2 in
  let dx := x2 - x1 in
  let dy := y2 - y1 in
  Arrow (x1 + (3 # 10) * dx, y1 + (3 # 10) * dy)
        (x1 + (7 # 10) * dx, y1 + (7 # 10) * dy) 4.

(** The arrow drawn for position [i] of the closed route. *)
Definition arrow_at (route_coords : list (Q * Q)) (i : nat) : result artist :=
  result_bind (index route_coords i) (fun p1 =>
  result_bind (index route_coords (i + 1)) (fun p2 =>
  Ok (edge_arrow p1 p2))).

(** [route_coords]: the coordinates along the route, the first one again at
    the end. *)
Definition closed_route_coords (node_coords : Dict.t (K := Z) (V := Q * Q))
    (route : list Z) : result (list (Q * Q)) :=
  result_bind (result_map (lookup node_coords) route) (fun route_coords =>
  result_bind (index route_coords 0) (fun first =>
  Ok (route_coords ++ [first])%list)).

(** The body shared by [plot_best_solutions] and
    [TSPReportGenerator._create_solution_plot]: every node in light gray,
    the selected nodes coloured by cost, the closed route, one arrow per
    edge. *)
Definition draw_solution (nodes : list Node.t) (solution_data : Sol.t)
  : result (list artist) :=
  let node_coords :=
    Dict.of_list Z.eqb Node.id (fun n => (Node.x n, Node.y n)) nodes in
  let node_costs := Dict.of_list Z.eqb Node.id Node.cost nodes in
  result_bind (py_max (map Node.cost nodes)) (fun max_cost =>
  result_bind (py_min (map Node.cost nodes)) (fun min_cost =>
  result_bind
    (result_map (fun node =>
       result_bind (marker_size min_cost max_cost (Node.cost node)) (fun size =>
       Ok [Scatter (Node.x node) (Node.y node) None size 1;
           Text (Node.x node) (Node.y node - 50) (str_of_Z (Node.id node))]))
     nodes) (fun gray =>
  result_bind
    (result_map (fun node_id =>
       result_bind (lookup node_coords node_id) (fun xy =>
       result_bind (lookup node_costs node_id) (fun cost =>
       result_bind (marker_size min_cost max_cost cost) (fun size =>
       Ok (Scatter (fst xy) (snd xy) (Some cost) size 3)))))
     (Sol.selected_nodes solution_data)) (fun selected =>
  result_bind (closed_route_coords node_coords (Sol.route solution_data))
    (fun route_coords =>
  result_bind
    (result_map (arrow_at route_coords)
       (seq 0 (List.length (Sol.route solution_data)))) (fun arrows =>
  Ok (List.concat gray ++ selected
      ++ [Polyline (map fst route_coords) (map snd route_coords) 2]
      ++ arrows)%list)))))).

(** *** Plots grouped by base algorithm *)

(** [plot_objective_components]: box plots of the two components, per
    instance; the figure is kept as the titles of its axes. *)
Definition plot_objective_components (data : data) : M unit :=
  titles <- map_m (fun item : string * instance_data =>
      let (instance_name, instance_data) := item in
      df_plot <- copy_with_base_algorithm (df instance_data) ;;
      ret [instance_name ++ " - Path Length Component";
           instance_name ++ " - Node Costs Component"]) data ;;
  print (Figure (List.concat titles)).

(** [plot_computation_time]. *)
Definition plot_computation_time (data : data) : M unit :=
  titles <- map_m (fun item : string * instance_data =>
      let (instance_name, instance_data) := item in
      df_plot <- copy_with_base_algorithm (df instance_data) ;;
      ret [instance_name ++ " - Computation Time (ms)";
           instance_name ++ " - Time vs Quality"]) data ;;
  print (Figure (List.concat titles)).

(** *** Statistical analysis *)

(** The ranking row of one base algorithm of one instance. *)
Definition ranking_row (instance_name algorithm : string) (algo_data : list Run.t)
  : RankingRow :=
  {| Instance := instance_name;
     Algorithm := algorithm;
     Mean_Objective := mean (map Run.objective_value algo_data);
     Std_Objective := std (map Run.objective_value algo_data);
     Best_Objective := smin (map Run.objective_value algo_data);
     Worst_Objective := smax (map Run.objective_value algo_data);
     Mean_Time_ms := mean (map Run.computation_time_ms algo_data);
     Success_Rate := 1;
     Runs := List.length algo_data |}.

(** The rows that one instance adds to [ranking_data], from the frame
    [df_analysis]: one per base algorithm, in order of first appearance. *)
Definition ranking_rows (instance_name : string) (df_analysis : DataFrame)
  : list RankingRow :=
  map (fun algorithm =>
         ranking_row instance_name algorithm
           (select (base_algorithm_of df_analysis) algorithm (records df_analysis)))
      (unique (base_algorithm_of df_analysis)).

(** [instance_ranking]: the rows of one instance sorted by [Mean_Objective],
    with the column [Rank] = 1, 2, ... *)
Definition instance_ranking (argsort : list float64 -> list nat)
    (ranking_df : list RankingRow) (instance : string)
  : list (nat * RankingRow) :=
  let rows := filter (fun r => String.eqb (Instance r) instance) ranking_df in
  let sorted_rows := sort_values argsort Mean_Objective rows in
  combine (seq 1 (List.length sorted_rows)) sorted_rows.

(** [((worst_mean - best_mean) / worst_mean) * 100], and the same with any
    other mean in the place of the worst. *)
Definition improvement_percent (mean_val best_mean : float64) : float64 :=
  fmul (fdiv (fsub mean_val best_mean) mean_val) (Fin 100).

(** What [create_performance_ranking] prints for one instance.  The text
    shows the ranking rounded to two decimals; the model keeps the rows. *)
Definition print_instance_ranking (argsort : list float64 -> list nat)
    (ranking_df : list RankingRow) (instance : string) : M unit :=
  let ranking := instance_ranking argsort ranking_df instance in
  print (PerformanceRanking instance ranking) ;;;
  best <- lift (index ranking 0) ;;
  worst <- lift (index ranking (List.length ranking - 1)) ;;
  let best_mean := Mean_Objective (snd best) in
  let worst_mean := Mean_Objective (snd worst) in
  print (BestVsWorst (Algorithm (snd best)) (Algorithm (snd worst))
           best_mean worst_mean (improvement_percent worst_mean best_mean)).

Definition create_performance_ranking (argsort : list float64 -> list nat)
    (data : data) : M (list RankingRow) :=
  ranking_data <- map_m (fun item : string * instance_data =>
      let (instance_name, instance_data) := item in
      df_analysis <- copy_with_base_algorithm (df instance_data) ;;
      frame <- df_read df_analysis ;;
      ret (ranking_rows instance_name frame)) data ;;
  let ranking_df := List.concat ranking_data in
  match ranking_df with
  | [] => raise (KeyError "Instance")
  | _ =>
      for_each (unique (map Instance ranking_df))
        (print_instance_ranking argsort ranking_df) ;;;
      ret ranking_df
  end.

(** [groupby('base_algorithm')['objective_value']]: the groups in ascending
    order of their key, each with its values. *)
Definition groupby_objective (df_analysis : DataFrame) : list (string * list Q) :=
  map (fun algorithm =>
         (algorithm,
          map Run.objective_value
            (select (base_algorithm_of df_analysis) algorithm (records df_analysis))))
      (sorted (unique (base_algorithm_of df_analysis))).

(** [algo_means]: the group means sorted ascending. *)
Definition algo_means (argsort : list float64 -> list nat)
    (df_analysis : DataFrame) : list (string * float64) :=
  sort_values argsort snd
    (map (fun g => (fst g, mean (snd g))) (groupby_objective df_analysis)).

(** The section "Performance Improvement Analysis": the pairs
    [(algo, improvement)] of [algo_means.iloc[1:]]. *)
Definition improvement_over_best (ranking : list (string * float64))
  : list (string * float64) :=
  match ranking with
  | [] => []
  | (_, best_mean) :: others =>
      map (fun am => (fst am, improvement_percent (snd am) best_mean)) others
  end.

(** [perform_statistical_analysis]; the table of descriptive statistics
    printed first (count, mean, std, min, max, quartiles) is left out. *)
Definition perform_statistical_analysis (argsort : list float64 -> list nat)
    (data : data) : M unit :=
  for_each data (fun item : string * instance_data =>
    let (instance_name, instance_data) := item in
    print (Line ("STATISTICAL ANALYSIS - " ++ instance_name)) ;;;
    df_analysis <- copy_with_base_algorithm (df instance_data) ;;
    frame <- df_read df_analysis ;;
    for_each (groupby_objective frame) (fun g =>
      print (CoefficientOfVariation (fst g) (fround2 (cv_percent (snd g))))) ;;;
    let ranking := algo_means argsort frame in
    best <- lift (index ranking 0) ;;
    print (BestAlgorithm (fst best) (snd best)) ;;;
    for_each (improvement_over_best ranking) (fun ai =>
      print (Improvement (fst ai) (snd ai)))).

(** *** VisualizationExporter *)

Module VisualizationExporter.

Record t : Type := {
  algorithm_folder : string;
  results_base_path : string
}.

Definition output_dir (self : t) : string :=
  path_join (results_base_path self) (algorithm_folder self).

(** [timestamp] stands for [datetime.now().strftime(...)]. *)
Definition export_best_solutions_data (self : t) (timestamp : string)
    (data : data) (filename_suffix : string) : M unit :=
  for_each data (fun item : string * instance_data =>
    let (instance_name, instance_data) := item in
    match viz_data instance_data with
    | None => print (Line ("No visualization data available for " ++ instance_name))
    | Some viz_data =>
        first <- lift (index (Dict.values (best_solutions viz_data)) 0) ;;
        let export_data :=
          BestSolutionsJson instance_name (algorithm_folder self) timestamp
            (nodes viz_data) (best_solutions viz_data)
            {| total_nodes := List.length (nodes viz_data);
               required_nodes := List.length (Sol.selected_nodes first);
               algorithms_count := List.length (best_solutions viz_data) |} in
        let export_path :=
          path_join (output_dir self)
            (instance_name ++ "_best_solutions" ++ filename_suffix ++ "_"
             ++ timestamp ++ ".json") in
        write_file export_path export_data ;;;
        print (Line ("Exported best solutions for " ++ instance_name ++ " to: "
                     ++ export_path))
    end).

(** The entry of [stats_summary] for the objective values of one
    algorithm (the quartiles are left out). *)
Definition stats_entry (algo_data : list Q) : StatsEntry :=
  {| stat_count := List.length algo_data;
     stat_mean := mean algo_data;
     stat_std := std algo_data;
     stat_min := smin algo_data;
     stat_max := smax algo_data;
     stat_cv_percent := cv_percent algo_data |}.

Definition stats_summary (frame : DataFrame)
  : Dict.t (K := string) (V := StatsEntry) :=
  fold_left (fun summary algorithm =>
               Dict.set String.eqb summary algorithm
                 (stats_entry
                    (map Run.objective_value
                       (select (base_algorithm_of frame) algorithm (records frame)))))
            (unique (base_algorithm_of frame)) [].

Definition export_statistics_summary (self : t) (timestamp : string)
    (data : data) (filename_suffix : string) : M unit :=
  for_each data (fun item : string * instance_data =>
    let (instance_name, instance_data) := item in
    let df := df instance_data in
    add_base_algorithm df ;;;
    frame <- df_read df ;;
    let json_path :=
      path_join (output_dir self)
        (instance_name ++ "_statistics" ++ filename_suffix ++ "_"
         ++ timestamp ++ ".json") in
    write_file json_path
      (StatisticsJson instance_name (algorithm_folder self) timestamp
         (stats_summary frame)) ;;;
    let csv_path :=
      path_join (output_dir self)
        (instance_name ++ "_raw_data" ++ filename_suffix ++ "_"
         ++ timestamp ++ ".csv") in
    write_file csv_path (RawDataCsv frame) ;;;
    print (Line ("Exported statistics for " ++ instance_name ++ " to:")) ;;;
    print (Line ("  JSON: " ++ json_path)) ;;;
    print (Line ("  CSV: " ++ csv_path))).

Definition _create_and_save_performance_plot (self : t)
    (instance_name : string) (instance_data : instance_data)
    (plots_dir filename_suffix timestamp save_format : string) : M unit :=
  let df := df instance_data in
  add_base_algorithm df ;;;
  let plot_path :=
    path_join plots_dir
      (instance_name ++ "_performance" ++ filename_suffix ++ "_" ++ timestamp
       ++ "." ++ save_format) in
  write_file plot_path (PlotImage (instance_name ++ " - Objective Value Distribution")) ;;;
  print (Line ("Saved performance plot: " ++ plot_path)).

End VisualizationExporter.

End utils.

(** ** [generate_report.py] *)

Module generate_report.

Definition nl : string := String Regex.newline "".

(** An entry of [self.visualizations[instance_name]]. *)
Record visualization : Type := {
  viz_algorithm : string;
  viz_filename : string;
  viz_solution_data : Sol.t
}.

(** [s.replace(old, new)] for single characters. *)
Fixpoint replace_char (old new : ascii) (s : string) : string :=
  match s with
  | EmptyString => EmptyString
  | String c r =>
      String (if Ascii.eqb c old then new else c) (replace_char old new r)
  end.

(** The cell of a comparison table:
    [f"{mean:.2f} ({min_val:.2f} - {max_val:.2f})"], the bounds with
    [digits] decimals. *)
Definition stats_cell (digits : nat) (algo_data : list Q) : string :=
  format_fixed 2 (mean algo_data) ++ " ("
  ++ format_fixed digits (smin algo_data) ++ " - "
  ++ format_fixed digits (smax algo_data) ++ ")".

(** [algorithm_stats]: algorithm -> instance -> cell. *)
Definition algorithm_stats : Type :=
  Dict.t (K := string) (V := Dict.t (K := string) (V := string)).

(** [algorithm_stats[algorithm]], the empty dict when there is none. *)
Definition stats_of (stats : algorithm_stats) (algorithm : string)
  : Dict.t (K := string) (V := string) :=
  match Dict.get String.eqb stats algorithm with
  | Some cells => cells
  | None => []
  end.

(** The loop "Group by algorithm" over one instance's frame [df]. *)
Definition collect_stats (field : Run.t -> Q) (digits : nat)
    (instance_name : string) (df : DataFrame) (stats : algorithm_stats)
  : algorithm_stats :=
  let column := map Run.algorithm (records df) in
  fold_left (fun stats algorithm =>
               let algo_data := map field (select column algorithm (records df)) in
               Dict.set String.eqb stats algorithm
                 (Dict.set String.eqb (stats_of stats algorithm) instance_name
                    (stats_cell digits algo_data)))
            (unique column) stats.

(** The lists [row] of the loop "Build table". *)
Definition table_rows (instances : list string) (stats : algorithm_stats)
  : list (list string) :=
  map (fun algorithm =>
         algorithm ::
         map (fun instance =>
                match Dict.get String.eqb (stats_of stats algorithm) instance with
                | Some cell => cell
                | None => "N/A"
                end) instances)
      (sorted (Dict.keys stats)).

Definition table_lines (instances : list string) (rows : list (list string))
  : list string :=
  ("| Algorithm | " ++ join " | " instances ++ " |")
  :: ("|" ++ join "|" (repeat "---" (List.length instances + 1)) ++ "|")
  :: map (fun row => "| " ++ join " | " row ++ " |") rows.

Module TSPReportGenerator.

Record t : Type := {
  algorithm_folder : string;
  instances : list string;
  output_dir : string;
  algorithm_data : utils.data;
  visualizations : Dict.t (K := string) (V := list visualization)
}.

Definition images_dir (self : t) : string := path_join (output_dir self) "images".

(** [instances or ['TSPA', 'TSPB']]. *)
Definition instances_or_default (instances : option (list string)) : list string :=
  match instances with
  | None | Some [] => ["TSPA"; "TSPB"]
  | Some l => l
  end.

(** [__init__], with the output directory already chosen (creating the
    directories is not modelled). *)
Definition __init__ (fs : FileSystem) (algorithm_folder : string)
    (instances : option (list string)) (output_dir : string) : M t :=
  let instances := instances_or_default instances in
  algorithm_data <-
    utils.load_all_algorithm_results fs algorithm_folder (Some instances) ;;
  match algorithm_data with
  | [] => raise (ValueError ("No data found for algorithm folder: "
                             ++ algorithm_folder))
  | _ =>
      ret {| algorithm_folder := algorithm_folder;
             instances := instances;
             output_dir := output_dir;
             algorithm_data := algorithm_data;
             visualizations := [] |}
  end.

Definition _create_solution_plot (self : t) (instance_name algorithm : string)
    (solution_data : Sol.t) (viz_data : VizData) : M t :=
  artists <- lift (utils.draw_solution (nodes viz_data) solution_data) ;;
  let safe_algorithm_name := replace_char " " "_" (replace_char "/" "_" algorithm) in
  let filename := instance_name ++ "_" ++ safe_algorithm_name ++ ".png" in
  write_file (path_join (images_dir self) filename)
    (SolutionFigure (instance_name ++ " - " ++ algorithm)
       (Sol.objective_value solution_data) (Sol.path_length solution_data)
       (Sol.node_costs solution_data) (Sol.is_validated solution_data)
       artists) ;;;
  let entries :=
    match Dict.get String.eqb (visualizations self) instance_name with
    | Some l => l
    | None => []
    end in
  ret {| algorithm_folder := algorithm_folder self;
         instances := instances self;
         output_dir := output_dir self;
         algorithm_data := algorithm_data self;
         visualizations :=
           Dict.set String.eqb (visualizations self) instance_name
             (entries ++ [{| viz_algorithm := algorithm;
                             viz_filename := filename;
                             viz_solution_data := solution_data |}])%list |}.

Definition generate_visualizations (self : t) : M t :=
  print (Line "Generating visualizations...") ;;;
  self <- fold_m (fun self (item : string * instance_data) =>
      let (instance_name, instance_data) := item in
      match viz_data instance_data with
      | None =>
          print (Line ("  No visualization data available for " ++ instance_name)) ;;;
          ret self
      | Some viz_data =>
          print (Line ("  Creating visualizations for " ++ instance_name ++ "...")) ;;;
          fold_m (fun self (entry : string * Sol.t) =>
                    _create_solution_plot self instance_name (fst entry)
                      (snd entry) viz_data)
                 (best_solutions viz_data) self
      end) (algorithm_data self) self ;;
  print (Line ("Visualizations saved to " ++ images_dir self)) ;;;
  ret self.

(** [_generate_objective_table] and [_generate_time_table] differ in the
    column they read and in the decimals of the bounds. *)
Definition generate_table (field : Run.t -> Q) (digits : nat) (self : t)
  : M string :=
  stats <- fold_m (fun stats (item : string * instance_data) =>
      let (instance_name, instance_data) := item in
      df <- copy_with_clean_algorithm (df instance_data) ;;
      frame <- df_read df ;;
      ret (collect_stats field digits instance_name frame stats))
    (algorithm_data self) [] ;;
  ret (join nl (table_lines (instances self)
                  (table_rows (instances self) stats))).

Definition _generate_objective_table : t -> M string :=
  generate_table Run.objective_value 2.

Definition _generate_time_table : t -> M string :=
  generate_table Run.computation_time_ms 0.

(** The loop over [self.instances] of the section "2D Visualization of Best
    Solution". *)
Definition visualization_sections (self : t) : list string :=
  flat_map (fun instance_name =>
    match Dict.get String.eqb (visualizations self) instance_name with
    | None => []
    | Some entries =>
        ("### Instance: " ++ instance_name ++ nl)
        :: flat_map (fun viz =>
             ["#### " ++ viz_algorithm viz ++ nl;
              "![" ++ viz_algorithm viz ++ "](images/" ++ viz_filename viz ++ ")" ++ nl;
              "**Node Order (Route):**";
              join ", " (map str_of_Z (Sol.route (viz_solution_data viz))) ++ nl])
           entries
    end) (instances self).

(** [generate_markdown_report], with the title already chosen. *)
Definition generate_markdown_report (self : t) (authors : list string)
    (title : string) : M string :=
  objective_table <- _generate_objective_table self ;;
  time_table <- _generate_time_table self ;;
  ret (join nl (List.concat
    [ ["# " ++ title ++ nl];
      match authors with
      | [] => []
      | _ => List.concat [["## Authors"];
                          map (fun author => "- " ++ author) authors; [""]]
      end;
      ["## Implemented Algorithms" ++ nl; "### Pseudocode" ++ nl; "```";
       "# TODO: Add algorithm pseudocode here"; "```" ++ nl; "---" ++ nl;
       "## Experiment Results" ++ nl;
       "### Objective function" ++ nl; objective_table; nl ++ "---" ++ nl;
       "### Computation Times (ms)" ++ nl; time_table; "";
       "## 2D Visualization of Best Solution" ++ nl];
      visualization_sections self;
      ["---" ++ nl; "## Conclusions" ++ nl; "### Key Findings" ++ nl;
       "<!-- TODO: Add analysis of results -->" ++ nl; nl;
       "### Performance Comparison" ++ nl;
       "<!-- TODO: Compare algorithms -->" ++ nl; nl;
       "### Observations" ++ nl;
       "<!-- TODO: Add observations -->" ++ nl] ])).

End TSPReportGenerator.

End generate_report.

(** ** Reading a drawing *)

(** The dictionaries [node_coords] and [node_costs] of the drawing code. *)
Definition node_coords_of (nodes : list Node.t) : Dict.t (K := Z) (V := Q * Q) :=
  Dict.of_list Z.eqb Node.id (fun n => (Node.x n, Node.y n)) nodes.

Definition node_costs_of (nodes : list Node.t) : Dict.t (K := Z) (V := Q) :=
  Dict.of_list Z.eqb Node.id Node.cost nodes.

(** The edges of a path: each point with its successor. *)
Definition edges (path : list (Q * Q)) : list ((Q * Q) * (Q * Q)) :=
  combine path (tl path).

Definition is_arrow (a : artist) : bool :=
  match a with Arrow _ _ _ => true | _ => false end.

Definition is_polyline (a : artist) : bool :=
  match a with Polyline _ _ _ => true | _ => false end.

(** ** Sample data: the scenarios of section 8 of the specification *)

Module Sample.

(** Nodes 3, 7, 9 and 4 with costs 1, 5, 10 and 2. *)
Definition node_list : list Node.t :=
  [Node.make 3 0 0 1; Node.make 7 10 0 5; Node.make 9 10 10 10;
   Node.make 4 0 10 2].

(** The trace with [route = [3, 7, 9]]. *)
Definition trace : Sol.t :=
  Sol.make [3; 7; 9]%Z [3; 7; 9]%Z 50 34 16 true "".

Definition viz : VizData :=
  {| nodes := node_list; best_solutions := [("greedy", trace)] |}.

(** The three run records of the end-to-end scenario. *)
Definition runs : list Run.t :=
  [Run.make "greedy_start1" 100 80 20 5;
   Run.make "greedy_start2" 90 70 20 6;
   Run.make "regret" 110 90 20 7].

(** A results directory that holds [TSPA] only. *)
Definition fs : FileSystem :=
  {| results_at := fun path =>
       if String.eqb path "results/greedy/TSPA_greedy_results.json"
       then Some runs else None;
     visualization_at := fun path =>
       if String.eqb path "results/greedy/TSPA_visualization.json"
       then Some viz else None;
     summary_at := fun _ => None |}.

(** A results directory with nothing in it. *)
Definition no_files : FileSystem :=
  {| results_at := fun _ => None;
     visualization_at := fun _ => None;
     summary_at := fun _ => None |}.

Definition start : world := {| store := []; stdout := []; written := [] |}.

(** Two algorithms with the same objective samples (9 and 11), listed in
    either order: equal means, equal standard deviations. *)
Definition tie_runs_zeta_first : list Run.t :=
  [Run.make "zeta" 9 5 4 1; Run.make "zeta" 11 7 4 1;
   Run.make "alpha" 9 5 4 1; Run.make "alpha" 11 7 4 1].

Definition tie_runs_alpha_first : list Run.t :=
  [Run.make "alpha" 9 5 4 1; Run.make "alpha" 11 7 4 1;
   Run.make "zeta" 9 5 4 1; Run.make "zeta" 11 7 4 1].

(** The frame [df_analysis] made from run records. *)
Definition analysis_frame (runs : list Run.t) : DataFrame :=
  {| records := runs;
     base_algorithm_column := Some (map base_algorithm (map Run.algorithm runs)) |}.

(** Equal means, different spreads: [wide] (8, 10, 12) comes first in the
    data, [narrow] (9, 10, 11) second. *)
Definition spread_runs : list Run.t :=
  [Run.make "wide" 8 4 4 1; Run.make "wide" 10 6 4 1; Run.make "wide" 12 8 4 1;
   Run.make "narrow" 9 5 4 1; Run.make "narrow" 10 6 4 1;
   Run.make "narrow" 11 7 4 1].

(** The exporter and the report generator at work on [TSPA] alone, after
    loading: one frame in the store, [TSPB] requested but absent. *)
Definition exporter : utils.VisualizationExporter.t :=
  {| utils.VisualizationExporter.algorithm_folder := "greedy";
     utils.VisualizationExporter.results_base_path := "results" |}.

Definition loaded : world :=
  {| store := [{| records := runs; base_algorithm_column := None |}];
     stdout := []; written := [] |}.

Definition dataset : utils.data :=
  [("TSPA", {| df := 0%nat; viz_data := Some viz; summary_data := None |})].

Definition generator : generate_report.TSPReportGenerator.t :=
  {| generate_report.TSPReportGenerator.algorithm_folder := "greedy";
     generate_report.TSPReportGenerator.instances := ["TSPA"; "TSPB"];
     generate_report.TSPReportGenerator.output_dir := "Lab1";
     generate_report.TSPReportGenerator.algorithm_data := dataset;
     generate_report.TSPReportGenerator.visualizations := [] |}.

(** An instance whose visualization payload lists no best solution. *)
Definition dataset_without_solutions : utils.data :=
  [("TSPA", {| df := 0%nat;
               viz_data := Some {| nodes := node_list; best_solutions := [] |};
               summary_data := None |})].

End Sample.

(** ** The tie-breaking rule of the specification (section 4.3, [rank]) *)

Definition feqb (a b : float64) : bool := fleb a b && fleb b a.
Definition fltb (a b : float64) : bool := fleb a b && negb (fleb b a).

(** Following the specification's words: [r1] may stand immediately before
    [r2] when its mean is lower, or the means are equal and its standard
    deviation is lower, or both are equal and its name is not greater. *)
Definition spec_precedes (r1 r2 : RankingRow) : bool :=
  fltb (Mean_Objective r1) (Mean_Objective r2)
  || (feqb (Mean_Objective r1) (Mean_Objective r2)
      && (fltb (Std_Objective r1) (Std_Objective r2)
          || (feqb (Std_Objective r1) (Std_Objective r2)
              && String.leb (Algorithm r1) (Algorithm r2)))).

Fixpoint spec_ordered (rows : list RankingRow) : bool :=
  match rows with
  | r1 :: (r2 :: _) as rest => spec_precedes r1 r2 && spec_ordered rest
  | _ => true
  end.

(** ** What a comparison table should hold (section 4.5 of the
       specification) *)

(** The frame a table builder works on: the labels canonicalised. *)
Definition clean_frame (frame : DataFrame) : DataFrame :=
  {| records := map (fun ra => with_algorithm (fst ra) (snd ra))
                    (combine (records frame)
                       (map canonicalize (map Run.algorithm (records frame))));
     base_algorithm_column := base_algorithm_column frame |}.

(** The canonical algorithm names that occur in a frame. *)
Definition labels (frame : DataFrame) : list string :=
  map Run.algorithm (records (clean_frame frame)).

(** The frames the loaded instances hold in the store. *)
Definition frames_of (data : utils.data) (s : list DataFrame)
  : list (string * DataFrame) :=
  map (fun item : string * instance_data =>
         (fst item, nth (df (snd item)) s empty_frame)) data.

(** Data was received for [algorithm] on [instance]. *)
Definition received (frames : list (string * DataFrame))
    (algorithm instance : string) : Prop :=
  exists frame, In (instance, frame) frames /\ In algorithm (labels frame).

(** Following the specification's words: the cell of [algorithm] under
    [instance] is the statistics of that pair's runs, and the literal
    ["N/A"] when the pair has none. *)
Definition expected_cell (field : Run.t -> Q) (digits : nat)
    (frames : list (string * DataFrame)) (algorithm instance : string) : string :=
  match Dict.get String.eqb frames instance with
  | Some frame =>
      if existsb (String.eqb algorithm) (labels frame)
      then generate_report.stats_cell digits
             (map field (select (labels frame) algorithm
                           (records (clean_frame frame))))
      else "N/A"
  | None => "N/A"
  end.

(** The statistics a table builder has collected after its first loop. *)
Definition table_stats (field : Run.t -> Q) (digits : nat)
    (frames : list (string * DataFrame)) : generate_report.algorithm_stats :=
  fold_left (fun stats nf =>
               generate_report.collect_stats field digits (fst nf)
                 (clean_frame (snd nf)) stats)
            frames [].

(** ** What the best-solutions export should write *)

(** The file for one instance with visualization data, given the first of
    its best solutions. *)
Definition best_solutions_export (self : utils.VisualizationExporter.t)
    (timestamp filename_suffix instance_name : string) (viz : VizData)
    (first : Sol.t) : string * file_content :=
  (path_join (utils.VisualizationExporter.output_dir self)
     (instance_name ++ "_best_solutions" ++ filename_suffix ++ "_"
      ++ timestamp ++ ".json"),
   BestSolutionsJson instance_name
     (utils.VisualizationExporter.algorithm_folder self) timestamp
     (nodes viz) (best_solutions viz)
     {| total_nodes := List.length (nodes viz);
        required_nodes := List.length (Sol.selected_nodes first);
        algorithms_count := List.length (best_solutions viz) |}).

(** One file per instance that has visualization data, in order. *)
Definition best_solutions_exports (self : utils.VisualizationExporter.t)
    (timestamp filename_suffix : string) (data : utils.data)
  : list (string * file_content) :=
  flat_map (fun item : string * instance_data =>
              match viz_data (snd item) with
              | Some viz =>
                  match Dict.values (best_solutions viz) with
                  | first :: _ =>
                      [best_solutions_export self timestamp filename_suffix
                         (fst item) viz first]
                  | [] => []
                  end
              | None => []
              end) data.

(** The precondition: visualization data always comes with a solution. *)
Definition has_best_solution (item : string * instance_data) : Prop :=
  forall viz, viz_data (snd item) = Some viz -> best_solutions viz <> [].

(** ** Vocabulary for statements about the store and the tables *)

(** The state only grows: nothing stored, printed or written is lost. *)
Definition grows (w w' : world) : Prop :=
  (exists more, store w' = (store w ++ more)%list) /\
  (exists more, stdout w' = (stdout w ++ more)%list) /\
  written w' = written w.

(** A computation keeps the store when it only adds frames at the end. *)
Definition keeps_store {A} (m : M A) : Prop :=
  forall w, exists more, store (snd (m w)) = (store w ++ more)%list.

(** A property [I] of the store that a computation maintains. *)
Definition maintains {A} (I : list DataFrame -> Prop) (m : M A) : Prop :=
  forall w, I (store w) -> I (store (snd (m w))).

(** The frame at [l] has the column [base_algorithm]. *)
Definition has_base_algorithm (l : loc) (s : list DataFrame) : Prop :=
  (l < List.length s)%nat /\
  base_algorithm_column (nth l s empty_frame) <> None.

(** One instance's pass of the loop "Group by algorithm", with any cell
    text [c]. *)
Definition group_step (name : string) (c : string -> string)
    (stats : generate_report.algorithm_stats) (a : string) : generate_report.algorithm_stats :=
  Dict.set String.eqb stats a (Dict.set String.eqb (generate_report.stats_of stats a) name (c a)).

(** The cell the code writes for [a] from the cleaned frame of an
    instance. *)
Definition cell_of (field : Run.t -> Q) (digits : nat) (frame : DataFrame)
    (a : string) : string :=
  generate_report.stats_cell digits
    (map field (select (labels frame) a (records (clean_frame frame)))).

(* ====================================================================== *)
(** * Part I, continued: the rest of the two modules *)
(* ====================================================================== *)

(** ** Labels *)

(** Whether a string begins with a digit. *)
Definition starts_with_digit (s : string) : bool :=
  match s with
  | String c _ => Regex.is_digit c
  | EmptyString => false
  end.


(** ** What the loader leaves in the store *)

(** The entry [e] of the loaded mapping holds what is on disk for
    [instance]: its frame is a frame of the store with the run records of the
    results file and no added column, and the two optional parts are the two
    optional files. *)
Definition loaded_from (fs : FileSystem) (algorithm_folder : string)
    (s : list DataFrame) (instance : string) (e : instance_data) : Prop :=
  exists results_data,
    results_at fs (utils.results_path instance algorithm_folder) = Some results_data /\
    (df e < List.length s)%nat /\
    nth (df e) s empty_frame
    = {| records := results_data; base_algorithm_column := None |} /\
    viz_data e = visualization_at fs (utils.viz_path instance algorithm_folder) /\
    summary_data e = summary_at fs (utils.summary_path instance algorithm_folder).


(** ** The pictures of the report *)

(** A best solution that [_create_solution_plot] can draw: two nodes differ
    in cost, and the selected nodes and the route, which is not empty, name
    nodes of the instance. *)
Definition drawable (nodes : list Node.t) (solution_data : Sol.t) : Prop :=
  (exists a b, In a nodes /\ In b nodes /\ Node.cost a < Node.cost b) /\
  Forall (fun k => In k (map Node.id nodes)) (Sol.selected_nodes solution_data) /\
  Sol.route solution_data <> [] /\
  Forall (fun k => In k (map Node.id nodes)) (Sol.route solution_data).

(** The reference that [_create_solution_plot] stores for one item of
    [best_solutions]. *)
Definition visualization_entry (instance_name : string) (entry : string * Sol.t)
  : generate_report.visualization :=
  {| generate_report.viz_algorithm := fst entry;
     generate_report.viz_filename :=
       instance_name ++ "_"
       ++ generate_report.replace_char " " "_"
            (generate_report.replace_char "/" "_" (fst entry))
       ++ ".png";
     generate_report.viz_solution_data := snd entry |}.

(** [self.visualizations.get(instance_name, [])]. *)
Definition entries_of (self : generate_report.TSPReportGenerator.t)
    (instance_name : string) : list generate_report.visualization :=
  match Dict.get String.eqb
          (generate_report.TSPReportGenerator.visualizations self) instance_name with
  | Some l => l
  | None => []
  end.

(** Every stored reference names an image that was written under
    [self.images_dir]. *)
Definition images_linked (self : generate_report.TSPReportGenerator.t)
    (files : list (string * file_content)) : Prop :=
  forall i entries v,
    Dict.get String.eqb
      (generate_report.TSPReportGenerator.visualizations self) i = Some entries ->
    In v entries ->
    In (path_join (generate_report.TSPReportGenerator.images_dir self)
          (generate_report.viz_filename v))
       (map fst files).

(** The best solutions listed for a loaded instance. *)
Definition solutions_of (inst : instance_data) : list (string * Sol.t) :=
  match viz_data inst with
  | Some viz_data => best_solutions viz_data
  | None => []
  end.


(** ** The frame the analysis helpers work on *)

(** [df_analysis]: the copy of a frame with the column [base_algorithm]
    added. *)
Definition with_base_algorithm (frame : DataFrame) : DataFrame :=
  {| records := records frame;
     base_algorithm_column :=
       Some (map base_algorithm (map Run.algorithm (records frame))) |}.

(** The rows of a ranking that belong to one instance. *)
Definition rows_of (ranking_df : list RankingRow) (instance : string)
  : list RankingRow :=
  filter (fun r => String.eqb (Instance r) instance) ranking_df.


(** ** Sorted names *)

(** Each name is below the next one in code-point order. *)
Fixpoint strictly_ascending (l : list string) : bool :=
  match l with
  | a :: (b :: _) as r => String.ltb a b && strictly_ascending r
  | _ => true
  end.


(** ** [generate_report.py]: from the command line to the report on disk *)

(** The process around the interpreter state: the text files written with
    [open(path, 'w')], and what went to [sys.stderr]. *)
Record session : Type := {
  world_of : world;
  text_files : list (string * string);
  stderr : list exn
}.

Definition R (A : Type) : Type := session -> result A * session.

Definition rret {A} (a : A) : R A := fun s => (Ok a, s).

Definition rbind {A B} (m : R A) (k : A -> R B) : R B :=
  fun s =>
    match m s with
    | (Ok a, s') => k a s'
    | (Raise e, s') => (Raise e, s')
    end.

(** A computation on the interpreter state, run inside the process. *)
Definition run {A} (m : M A) : R A :=
  fun s =>
    let (r, w') := m (world_of s) in
    (r, {| world_of := w'; text_files := text_files s; stderr := stderr s |}).

(** [with open(path, 'w') as f: f.write(content)]; as for [write_file], the
    directory is taken to be there. *)
Definition write_text (path content : string) : R unit :=
  fun s => (Ok tt, {| world_of := world_of s;
                      text_files := (text_files s ++ [(path, content)])%list;
                      stderr := stderr s |}).

Module report_script.

Import generate_report.
Import TSPReportGenerator.

Definition folder_map : Dict.t (K := string) (V := string) :=
  [("greedy", "1"); ("regret", "2"); ("local_search", "3");
   ("candidate_moves", "4")].

(** [_get_lab_number]. *)
Definition _get_lab_number (algorithm_folder : string) : string :=
  match Dict.get String.eqb folder_map algorithm_folder with
  | Some number => number
  | None => "X"
  end.

Definition name_map : Dict.t (K := string) (V := string) :=
  [("greedy", "Greedy"); ("regret", "Regret"); ("local_search", "Local Search");
   ("candidate_moves", "Candidate Moves")].

(** [_get_algorithm_display_name]; [str_title] stands for Python's
    [str.title]. *)
Definition _get_algorithm_display_name (str_title : string -> string)
    (algorithm_folder : string) : string :=
  match Dict.get String.eqb name_map algorithm_folder with
  | Some name => name
  | None => str_title (replace_char "_" " " algorithm_folder)
  end.

(** The output directory of [__init__]: the one given unless it is [None]
    or empty, else [Lab<n>] beside the script. *)
Definition choose_output_dir (analysis_dir algorithm_folder : string)
    (output_dir : option string) : string :=
  match output_dir with
  | None | Some EmptyString =>
      path_join analysis_dir ("Lab" ++ _get_lab_number algorithm_folder)
  | Some dir => dir
  end.

(** [TSPReportGenerator(algorithm_folder, instances, output_dir)]. *)
Definition new (fs : FileSystem) (analysis_dir algorithm_folder : string)
    (instances : option (list string)) (output_dir : option string) : M t :=
  __init__ fs algorithm_folder instances
    (choose_output_dir analysis_dir algorithm_folder output_dir).

(** The title of [generate_markdown_report] when none is given. *)
Definition choose_title (str_title : string -> string) (self : t)
    (title : option string) : string :=
  match title with
  | None => _get_algorithm_display_name str_title (algorithm_folder self)
            ++ " algorithm for TSP Problem"
  | Some title => title
  end.

(** [authors] may be [None]: [if authors:] treats it as the empty list. *)
Definition authors_or_none (authors : option (list string)) : list string :=
  match authors with
  | None => []
  | Some l => l
  end.

(** [save_report]. *)
Definition save_report (self : t) (report_content : string)
    (filename : option string) : R string :=
  let filename :=
    match filename with
    | None => "TSP_" ++ algorithm_folder self ++ "_report.md"
    | Some filename => filename
    end in
  let filepath := path_join (output_dir self) filename in
  rbind (write_text filepath report_content) (fun _ =>
  rbind (run (print (Line (nl ++ "Report saved to: " ++ filepath)))) (fun _ =>
  rret filepath)).

(** [generate]: the pictures, then the report, then the file.  The
    generator is returned with the path, as the call leaves it. *)
Definition generate (str_title : string -> string) (self : t)
    (authors : option (list string)) (title filename : option string)
  : R (t * string) :=
  rbind (run (print (Line ("Generating report for " ++ algorithm_folder self
                           ++ "...")))) (fun _ =>
  rbind (run (print (Line ("Output directory: " ++ output_dir self)))) (fun _ =>
  rbind (run (generate_visualizations self)) (fun self =>
  rbind (run (generate_markdown_report self (authors_or_none authors)
                (choose_title str_title self title))) (fun report_content =>
  rbind (save_report self report_content filename) (fun report_path =>
  rbind (run (print (Line (nl ++ "✓ Report generation complete!")))) (fun _ =>
  rbind (run (print (Line ("  Report: " ++ report_path)))) (fun _ =>
  rbind (run (print (Line ("  Images: " ++ images_dir self)))) (fun _ =>
  rret (self, report_path))))))))).

(** The parsed command line of [main]. *)
Record arguments : Type := {
  arg_algorithm_folder : string;
  arg_authors : option (list string);
  arg_instances : list string;
  arg_output : option string;
  arg_title : option string;
  arg_filename : option string
}.

(** [main] after [parser.parse_args()]: the exit status.  Whatever is
    raised is caught, shown on [sys.stderr] and turned into status 1. *)
Definition main (str_title : string -> string) (fs : FileSystem)
    (analysis_dir : string) (args : arguments) : session -> Z * session :=
  fun s =>
    match rbind (run (new fs analysis_dir (arg_algorithm_folder args)
                        (Some (arg_instances args)) (arg_output args)))
            (fun generator =>
               generate str_title generator (arg_authors args) (arg_title args)
                 (arg_filename args)) s with
    | (Ok _, s') => (0%Z, s')
    | (Raise e, s') =>
        (1%Z, {| world_of := world_of s'; text_files := text_files s';
                 stderr := (stderr s' ++ [e])%list |})
    end.

End report_script.


(** A computation that prints nothing and writes no file, whether it
    returns or raises. *)
Definition silent {A} (m : M A) : Prop :=
  forall w, stdout (snd (m w)) = stdout w /\ written (snd (m w)) = written w.


(** ** Reading a run of [generate] *)

(** The world after the two lines [generate] prints first. *)
Definition announced (self : generate_report.TSPReportGenerator.t) (w : world)
  : world :=
  {| store := store w;
     stdout := (stdout w ++
       [Line ("Generating report for "
              ++ generate_report.TSPReportGenerator.algorithm_folder self ++ "...");
        Line ("Output directory: "
              ++ generate_report.TSPReportGenerator.output_dir self)])%list;
     written := written w |}.

(** The path [save_report] writes to. *)
Definition report_file (self : generate_report.TSPReportGenerator.t)
    (filename : option string) : string :=
  path_join (generate_report.TSPReportGenerator.output_dir self)
    (match filename with
     | None => "TSP_" ++ generate_report.TSPReportGenerator.algorithm_folder self
               ++ "_report.md"
     | Some filename => filename
     end).

(** The world after the lines [save_report] and [generate] print last. *)
Definition reported (self : generate_report.TSPReportGenerator.t)
    (filename : option string) (w : world) : world :=
  {| store := store w;
     stdout := (stdout w ++
       [Line (generate_report.nl ++ "Report saved to: " ++ report_file self filename);
        Line (generate_report.nl ++ "✓ Report generation complete!");
        Line ("  Report: " ++ report_file self filename);
        Line ("  Images: " ++ generate_report.TSPReportGenerator.images_dir self)])%list;
     written := written w |}.


(** ** A sample command line *)

Module SampleRun.

(** [generate_report.py greedy]. *)
Definition args : report_script.arguments :=
  {| report_script.arg_algorithm_folder := "greedy";
     report_script.arg_authors := None;
     report_script.arg_instances := ["TSPA"; "TSPB"];
     report_script.arg_output := None;
     report_script.arg_title := None;
     report_script.arg_filename := None |}.

Definition start : session :=
  {| world_of := Sample.start; text_files := []; stderr := [] |}.

(** The sample results directory with a results file for [TSPB] that lists
    no run. *)
Definition fs_with_empty_tspb : FileSystem :=
  {| results_at := fun path =>
       if String.eqb path "results/greedy/TSPB_greedy_results.json"
       then Some [] else results_at Sample.fs path;
     visualization_at := visualization_at Sample.fs;
     summary_at := summary_at Sample.fs |}.

End SampleRun.


(** ** [utils.py]: what is in the results directory *)

(** [s] without [suffix] at its end, when it ends with it. *)
Fixpoint strip_suffix (suffix s : string) : option string :=
  if String.eqb s suffix then Some EmptyString
  else match s with
       | EmptyString => None
       | String c r => option_map (String c) (strip_suffix suffix r)
       end.

(** [s.replace(old, '')] for a non-empty [old]: every occurrence, found from
    the left, is dropped. *)
Definition remove_all (old s : string) : string :=
  Regex.sub_empty (fun rest => match Regex.strip_prefix old rest with
                               | Some _ => Some (String.length old)
                               | None => None
                               end) 0 s.

Module utils_directory.

(** The entries of a directory, each with [is_dir()]; [None] for a path
    that does not exist. *)
Definition listing : Type := string -> option (list (string * bool)).

(** [get_available_algorithm_folders]. *)
Definition get_available_algorithm_folders (ls : listing) (results_path : string)
  : list string :=
  match ls results_path with
  | None => []
  | Some entries => sorted (map fst (filter snd entries))
  end.

(** The instance name read off one entry of the folder: the entry passes
    the glob [*_results.json], its stem is the name without [.json], which
    always ends with [_results], and every [_<folder>_results] in the stem
    is removed. *)
Definition instance_of_file (algorithm_folder name : string) : list string :=
  match strip_suffix "_results.json" name with
  | Some base =>
      let filename := base ++ "_results" in
      [remove_all ("_" ++ algorithm_folder ++ "_results") filename]
  | None => []
  end.

(** [get_available_instances]: the set of names, sorted. *)
Definition get_available_instances (ls : listing)
    (algorithm_folder results_path : string) : list string :=
  match ls (path_join results_path algorithm_folder) with
  | None => []
  | Some entries =>
      sorted (unique (flat_map (instance_of_file algorithm_folder)
                        (map fst entries)))
  end.

End utils_directory.


(** Whether the character [c] occurs in [s]. *)
Fixpoint contains (c : ascii) (s : string) : bool :=
  match s with
  | EmptyString => false
  | String x r => Ascii.eqb x c || contains c r
  end.

(** [algorithm.replace('/', '_').replace(' ', '_')]. *)
Definition safe_algorithm_name (algorithm : string) : string :=
  generate_report.replace_char " " "_"
    (generate_report.replace_char "/" "_" algorithm).


(** ** [utils.py]: significance tests *)

(** The world with more lines printed. *)
Definition printed (w : world) (es : list event) : world :=
  {| store := store w; stdout := (stdout w ++ es)%list; written := written w |}.

Module utils_statistics.

(** [a < b] on float64: false when either side is NaN. *)
Definition flt (a b : float64) : bool :=
  match a, b with
  | NaN, _ | _, NaN => false
  | _, _ => fleb a b && negb (fleb b a)
  end.

(** ["***" if p < 0.001 else "**" if p < 0.01 else "*" if p < 0.05 else "ns"]. *)
Definition significance (p_value : float64) : string :=
  if flt p_value (Fin (1 # 1000)) then "***"
  else if flt p_value (Fin (1 # 100)) then "**"
  else if flt p_value (Fin (5 # 100)) then "*"
  else "ns".

(** [c * n]. *)
Fixpoint repeat_char (c : ascii) (n : nat) : string :=
  match n with
  | O => EmptyString
  | S k => String c (repeat_char c k)
  end.

(** [enumerate(xs)]. *)
Definition enumerate {A} (xs : list A) : list (nat * A) :=
  combine (seq 0 (List.length xs)) xs.

(** [df_analysis[df_analysis['base_algorithm'] == algo]['objective_value']]. *)
Definition objective_of (frame : DataFrame) (algo : string) : list Q :=
  map Run.objective_value
    (select (base_algorithm_of frame) algo (records frame)).

(** The line of one comparison; [ttest_ind] stands for
    [scipy.stats.ttest_ind], which gives the statistic and the p-value. *)
Definition comparison_line (ttest_ind : list Q -> list Q -> float64 * float64)
    (frame : DataFrame) (algo1 algo2 : string) : event :=
  let (t_stat, p_value) :=
    ttest_ind (objective_of frame algo1) (objective_of frame algo2) in
  Line (algo1 ++ " vs " ++ algo2 ++ ": t=" ++ format_fixed 3 t_stat
        ++ ", p=" ++ format_fixed 6 p_value ++ " " ++ significance p_value).

(** The four lines of the ANOVA test. *)
Definition anova_lines (test : float64 * float64) : list event :=
  let (f_stat, p_value) := test in
  [Line (generate_report.nl ++ "ANOVA Test:");
   Line ("F-statistic: " ++ format_fixed 3 f_stat);
   Line ("p-value: " ++ format_fixed 6 p_value);
   Line ("Significant difference between algorithms: "
         ++ if flt p_value (Fin (5 # 100)) then "Yes" else "No")].

(** [perform_statistical_tests]; [f_oneway] stands for
    [scipy.stats.f_oneway], which rejects some inputs (too few groups) by
    raising. *)
Definition perform_statistical_tests
    (ttest_ind : list Q -> list Q -> float64 * float64)
    (f_oneway : list (list Q) -> result (float64 * float64))
    (data : utils.data) : M unit :=
  for_each data (fun item : string * instance_data =>
    let (instance_name, instance_data) := item in
    print (Line (generate_report.nl ++ repeat_char "=" 60)) ;;;
    print (Line ("STATISTICAL TESTS - " ++ instance_name)) ;;;
    print (Line (repeat_char "=" 60)) ;;;
    df_analysis <- copy_with_base_algorithm (df instance_data) ;;
    frame <- df_read df_analysis ;;
    let algorithms := unique (base_algorithm_of frame) in
    print (Line (generate_report.nl ++ "Pairwise t-tests for objective values:")) ;;;
    print (Line (repeat_char "-" 40)) ;;;
    for_each (enumerate algorithms) (fun ia : nat * string =>
      for_each (enumerate algorithms) (fun jb : nat * string =>
        if (fst ia <? fst jb)%nat
        then print (comparison_line ttest_ind frame (snd ia) (snd jb))
        else ret tt)) ;;;
    test <- lift (f_oneway (map (objective_of frame) algorithms)) ;;
    for_each (anova_lines test) print).

End utils_statistics.

(** The pairs of a list in which the first element stands before the
    second. *)
Fixpoint ordered_pairs {A} (l : list A) : list (A * A) :=
  match l with
  | [] => []
  | a :: r => (map (pair a) r ++ ordered_pairs r)%list
  end.

(** What [perform_statistical_tests] should print for one instance, given
    the frame [df_analysis]. *)
Definition tests_report (ttest_ind : list Q -> list Q -> float64 * float64)
    (f_oneway : list (list Q) -> result (float64 * float64))
    (instance_name : string) (frame : DataFrame) : list event :=
  let algorithms := unique (base_algorithm_of frame) in
  ([Line (generate_report.nl ++ utils_statistics.repeat_char "=" 60);
    Line ("STATISTICAL TESTS - " ++ instance_name);
    Line (utils_statistics.repeat_char "=" 60);
    Line (generate_report.nl ++ "Pairwise t-tests for objective values:");
    Line (utils_statistics.repeat_char "-" 40)]
   ++ map (fun ab => utils_statistics.comparison_line ttest_ind frame (fst ab) (snd ab))
        (ordered_pairs algorithms)
   ++ match f_oneway (map (utils_statistics.objective_of frame) algorithms) with
      | Ok test => utils_statistics.anova_lines test
      | Raise _ => []
      end)%list.


(** The rows [create_performance_ranking] collects from the frames of the
    store: for every instance, the rows of the copy of its frame. *)
Definition ranking_of (data : utils.data) (s : list DataFrame) : list RankingRow :=
  List.concat
    (map (fun item : string * instance_data =>
            utils.ranking_rows (fst item)
              (with_base_algorithm (nth (df (snd item)) s empty_frame)))
         data).


(** ** What the statistics export writes *)

(** The two files [export_statistics_summary] writes for one instance, given
    the frame it leaves behind. *)
Definition statistics_files (self : utils.VisualizationExporter.t)
    (timestamp filename_suffix instance_name : string) (frame : DataFrame)
  : list (string * file_content) :=
  [(path_join (utils.VisualizationExporter.output_dir self)
      (instance_name ++ "_statistics" ++ filename_suffix ++ "_"
       ++ timestamp ++ ".json"),
    StatisticsJson instance_name
      (utils.VisualizationExporter.algorithm_folder self) timestamp
      (utils.VisualizationExporter.stats_summary frame));
   (path_join (utils.VisualizationExporter.output_dir self)
      (instance_name ++ "_raw_data" ++ filename_suffix ++ "_"
       ++ timestamp ++ ".csv"),
    RawDataCsv frame)].

(** ** Reading the assembled report *)

(** Whether the text [needle] occurs in [s]. *)
Fixpoint occurs (needle s : string) : bool :=
  match Regex.strip_prefix needle s with
  | Some _ => true
  | None =>
      match s with
      | EmptyString => false
      | String _ r => occurs needle r
      end
  end.

(** The list [report] of [generate_markdown_report], joined, around the two
    tables it is given. *)
Definition report_text (self : generate_report.TSPReportGenerator.t)
    (authors : list string) (title objective_table time_table : string) : string :=
  let nl := generate_report.nl in
  join nl (List.concat
    [ ["# " ++ title ++ nl];
      match authors with
      | [] => []
      | _ => List.concat [["## Authors"];
                          map (fun author => "- " ++ author) authors; [""]]
      end;
      ["## Implemented Algorithms" ++ nl; "### Pseudocode" ++ nl; "```";
       "# TODO: Add algorithm pseudocode here"; "```" ++ nl; "---" ++ nl;
       "## Experiment Results" ++ nl;
       "### Objective function" ++ nl; objective_table; nl ++ "---" ++ nl;
       "### Computation Times (ms)" ++ nl; time_table; "";
       "## 2D Visualization of Best Solution" ++ nl];
      generate_report.TSPReportGenerator.visualization_sections self;
      ["---" ++ nl; "## Conclusions" ++ nl; "### Key Findings" ++ nl;
       "<!-- TODO: Add analysis of results -->" ++ nl; nl;
       "### Performance Comparison" ++ nl;
       "<!-- TODO: Compare algorithms -->" ++ nl; nl;
       "### Observations" ++ nl;
       "<!-- TODO: Add observations -->" ++ nl] ]).

(** Following the specification's words: a comparison table has one column
    per requested instance and one row per algorithm with statistics, in
    sorted order, and every cell is [expected_cell]. *)
Definition expected_table (field : Run.t -> Q) (digits : nat)
    (instances : list string) (frames : list (string * DataFrame)) : string :=
  join generate_report.nl
    (generate_report.table_lines instances
       (map (fun a => a :: map (expected_cell field digits frames a) instances)
            (sorted (Dict.keys (table_stats field digits frames))))).

(** [instance_name in self.visualizations]. *)
Definition has_figures (self : generate_report.TSPReportGenerator.t)
    (instance_name : string) : bool :=
  Dict.mem String.eqb
    (generate_report.TSPReportGenerator.visualizations self) instance_name.

(** The generator with another list of requested instances. *)
Definition with_instances (self : generate_report.TSPReportGenerator.t)
    (instances : list string) : generate_report.TSPReportGenerator.t :=
  {| generate_report.TSPReportGenerator.algorithm_folder :=
       generate_report.TSPReportGenerator.algorithm_folder self;
     generate_report.TSPReportGenerator.instances := instances;
     generate_report.TSPReportGenerator.output_dir :=
       generate_report.TSPReportGenerator.output_dir self;
     generate_report.TSPReportGenerator.algorithm_data :=
       generate_report.TSPReportGenerator.algorithm_data self;
     generate_report.TSPReportGenerator.visualizations :=
       generate_report.TSPReportGenerator.visualizations self |}.

(** The heading of an instance in the section of the figures. *)
Definition instance_heading (instance_name : string) : string :=
  "### Instance: " ++ instance_name ++ generate_report.nl.

(** The sample generator after [generate_visualizations], with the world
    that call leaves: [TSPA] has its figure, [TSPB] has none. *)
Module SampleReport.

Definition self : generate_report.TSPReportGenerator.t :=
  match generate_report.TSPReportGenerator.generate_visualizations
          Sample.generator Sample.loaded with
  | (Ok self, _) => self
  | (Raise _, _) => Sample.generator
  end.

Definition after : world :=
  snd (generate_report.TSPReportGenerator.generate_visualizations
         Sample.generator Sample.loaded).

End SampleReport.

(* ====================================================================== *)
(** * Part II: the properties *)
(* ====================================================================== *)

(** ** Strings *)

Lemma append_assoc (a b c : string) : (a ++ b) ++ c = a ++ (b ++ c).
Proof. induction a as [|x a IH]; simpl; [reflexivity | now rewrite IH]. Qed.

Lemma append_empty_r (a : string) : a ++ "" = a.
Proof. induction a as [|x a IH]; simpl; [reflexivity | now rewrite IH]. Qed.

Lemma length_append (a b : string) :
  String.length (a ++ b) = (String.length a + String.length b)%nat.
Proof. induction a as [|x a IH]; simpl; [reflexivity | now rewrite IH]. Qed.

(** ** NameCanonicalizer *)

Section Canonicalize.

Import Regex.

Lemma has_underscore_append a b :
  has_underscore (a ++ b) = has_underscore a || has_underscore b.
Proof.
  induction a as [|x a IH]; simpl; [reflexivity|].
  now rewrite IH, orb_assoc.
Qed.

Lemma digit_not_underscore c : is_digit c = true -> Ascii.eqb c "_" = false.
Proof.
  intros Hd. destruct (Ascii.eqb_spec c "_") as [->|]; [discriminate Hd | reflexivity].
Qed.

Lemma all_digits_no_underscore d : all_digits d = true -> has_underscore d = false.
Proof.
  induction d as [|c d IH]; simpl; [reflexivity|].
  intros H. apply andb_true_iff in H as [Hc Hd].
  now rewrite (digit_not_underscore _ Hc), IH.
Qed.

Lemma eos_tail_cases tl : at_eos tl = true <-> tl = "" \/ tl = String newline "".
Proof.
  split.
  - destruct tl as [|c [|c' r]]; simpl; intros H; try discriminate; auto.
    right. apply Ascii.eqb_eq in H. now subst.
  - intros [->| ->]; reflexivity.
Qed.

Lemma eos_tail_no_underscore tl :
  tl = "" \/ tl = String newline "" -> has_underscore tl = false.
Proof. intros [->| ->]; reflexivity. Qed.

Lemma strip_prefix_sound p s r : strip_prefix p s = Some r -> s = p ++ r.
Proof.
  revert s; induction p as [|a p IH]; intros s; simpl.
  - now intros [= ->].
  - destruct s as [|b s]; [discriminate|].
    destruct (Ascii.eqb_spec a b) as [->|]; [|discriminate].
    intros H. now rewrite (IH _ H).
Qed.

Lemma strip_prefix_complete p r : strip_prefix p (p ++ r) = Some r.
Proof.
  induction p as [|a p IH]; simpl; [reflexivity|].
  now rewrite Ascii.eqb_refl.
Qed.

(** What [\d+$] matches: a non-empty digit run that reaches the end. *)
Lemma match_digits_eos_sound s n :
  match_digits_eos s = Some n ->
  exists d tl, s = d ++ tl /\ String.length d = n /\ d <> "" /\
               all_digits d = true /\ (tl = "" \/ tl = String newline "").
Proof.
  revert n; induction s as [|c r IH]; simpl; intros n; [discriminate|].
  destruct (is_digit c) eqn:Hc; [|discriminate].
  destruct (match_digits_eos r) as [k|] eqn:Hr.
  - intros [= <-]. destruct (IH k eq_refl) as (d & tl & -> & Hl & _ & Hd & Ht).
    exists (String c d), tl. simpl. rewrite Hc, Hl. repeat split; auto; discriminate.
  - destruct (at_eos r) eqn:He; [|discriminate]. intros [= <-].
    exists (String c ""), r. simpl. rewrite Hc.
    repeat split; auto; [discriminate | now apply eos_tail_cases].
Qed.

Lemma match_digits_eos_complete d tl :
  d <> "" -> all_digits d = true -> (tl = "" \/ tl = String newline "") ->
  match_digits_eos (d ++ tl) = Some (String.length d).
Proof.
  intros Hne Hd Ht. induction d as [|c d IH]; [congruence|].
  simpl in *. apply andb_true_iff in Hd as [Hc Hd]. rewrite Hc.
  destruct d as [|c' d'].
  - simpl. replace (match_digits_eos tl) with (@None nat)
      by (destruct Ht as [->| ->]; reflexivity).
    now rewrite (proj2 (eos_tail_cases tl) Ht).
  - rewrite IH; [reflexivity | discriminate | exact Hd].
Qed.

Lemma match_start_eos_sound s n :
  match_start_eos s = Some n ->
  exists d tl, s = "_start" ++ d ++ tl /\ n = (6 + String.length d)%nat /\
               d <> "" /\ all_digits d = true /\
               (tl = "" \/ tl = String newline "").
Proof.
  unfold match_start_eos.
  destruct (strip_prefix "_start" s) as [r|] eqn:Hp; [|discriminate].
  apply strip_prefix_sound in Hp.
  destruct (match_digits_eos r) as [k|] eqn:Hr; [|discriminate].
  intros [= <-].
  destruct (match_digits_eos_sound _ _ Hr) as (d & tl & -> & Hl & Hne & Hd & Ht).
  exists d, tl. rewrite Hl. auto.
Qed.

Lemma match_start_eos_complete d tl :
  d <> "" -> all_digits d = true -> (tl = "" \/ tl = String newline "") ->
  match_start_eos ("_start" ++ d ++ tl) = Some (6 + String.length d)%nat.
Proof.
  intros Hne Hd Ht. unfold match_start_eos.
  rewrite strip_prefix_complete, match_digits_eos_complete; auto.
Qed.

(** A match of [_start\d+$] has its only underscore at its first character. *)
Lemma match_start_eos_tail c r n :
  match_start_eos (String c r) = Some n -> has_underscore r = false.
Proof.
  intros H. destruct (match_start_eos_sound _ _ H) as (d & tl & E & _ & _ & Hd & Ht).
  simpl in E. injection E as _ ->.
  change (has_underscore ("start" ++ d ++ tl) = false).
  rewrite !has_underscore_append, (all_digits_no_underscore _ Hd),
    (eos_tail_no_underscore _ Ht). reflexivity.
Qed.

Lemma sub_empty_skip m a b :
  sub_empty m (String.length a) (a ++ b) = sub_empty m 0 b.
Proof. induction a as [|x a IH]; simpl; [reflexivity | exact IH]. Qed.

Lemma sub_empty_at_match m c r k :
  m (String c r) = Some (S k) -> sub_empty m 0 (String c r) = sub_empty m k r.
Proof. intros H. simpl. now rewrite H. Qed.

Lemma sub_empty_no_match m c r :
  m (String c r) = None ->
  sub_empty m 0 (String c r) = String c (sub_empty m 0 r).
Proof. intros H. simpl. now rewrite H. Qed.

Lemma canonicalize_tail tl :
  tl = "" \/ tl = String newline "" -> canonicalize tl = tl.
Proof. intros [->| ->]; reflexivity. Qed.

(** The suffix is removed, whatever stands before it. *)
Lemma canonicalize_strips label stem tail :
  start_suffix label stem tail -> canonicalize label = stem ++ tail.
Proof.
  intros (d & -> & Hne & Hd & Ht). induction stem as [|c p IH].
  - assert (E : "_start" ++ d ++ tail = String "_" (("start" ++ d) ++ tail))
      by reflexivity.
    pose proof (match_start_eos_complete d tail Hne Hd Ht) as Hm.
    unfold canonicalize. change ("" ++ "_start" ++ d ++ tail) with ("_start" ++ d ++ tail).
    rewrite E in Hm |- *.
    rewrite (sub_empty_at_match _ _ _ (String.length ("start" ++ d)) Hm).
    rewrite sub_empty_skip. now apply canonicalize_tail.
  - change (String c p ++ "_start" ++ d ++ tail)
      with (String c (p ++ "_start" ++ d ++ tail)).
    change (String c p ++ tail) with (String c (p ++ tail)).
    destruct (match_start_eos (String c (p ++ "_start" ++ d ++ tail)))
      as [n|] eqn:Hm.
    + apply match_start_eos_tail in Hm.
      rewrite has_underscore_append in Hm. simpl in Hm.
      rewrite orb_true_r in Hm. discriminate.
    + unfold canonicalize in *. now rewrite (sub_empty_no_match _ _ _ Hm), IH.
Qed.

(** Every label is either returned as it is or ends in the suffix. *)
Lemma canonicalize_cases label :
  canonicalize label = label \/ exists stem tail, start_suffix label stem tail.
Proof.
  induction label as [|c r IH]; [now left|].
  unfold canonicalize in *. cbn [sub_empty].
  destruct (match_start_eos (String c r)) as [[|k]|] eqn:Hm.
  - destruct (match_start_eos_sound _ _ Hm) as (? & ? & _ & E & _); discriminate.
  - right. destruct (match_start_eos_sound _ _ Hm) as (d & tl & E & _ & Hne & Hd & Ht).
    exists "", tl, d. now rewrite E.
  - destruct IH as [IH | (stem & tail & d & E & H)].
    + left. now rewrite IH.
    + right. exists (String c stem), tail, d. split; [now rewrite E | exact H].
Qed.

End Canonicalize.

Lemma start_suffix_longer label stem tail :
  start_suffix label stem tail ->
  (String.length (stem ++ tail) < String.length label)%nat.
Proof.
  intros (d & -> & _). rewrite !length_append. simpl. lia.
Qed.

(** C1 (as amended).  The report generator's canonicalisation removes a
    multi-start suffix [_start<digits>] that stands at the end of the label
    (Python's [$]: the very end, or just before one final newline) and
    returns every other label unchanged.  One application removes one
    suffix: applying it twice gives the same as once exactly when the
    canonical form does not itself end in such a suffix.  The three sample
    labels of the specification behave as it says. *)
Theorem canonicalize_strips_one_anchored_suffix (label : string) :
  (forall stem tail,
      start_suffix label stem tail -> canonicalize label = stem ++ tail) /\
  ((forall stem tail, ~ start_suffix label stem tail) ->
      canonicalize label = label) /\
  (canonicalize (canonicalize label) = canonicalize label <->
      forall stem tail, ~ start_suffix (canonicalize label) stem tail) /\
  canonicalize "foo_start3" = "foo" /\
  canonicalize "foo" = "foo" /\
  canonicalize "foo_start3_bar" = "foo_start3_bar".
Proof.
  split; [|split; [|split; [|repeat split]]].
  - intros stem tail. apply canonicalize_strips.
  - intros Hno. destruct (canonicalize_cases label) as [E | (stem & tail & H)];
      [exact E | destruct (Hno _ _ H)].
  - split.
    + intros Hid stem tail H.
      pose proof (start_suffix_longer _ _ _ H) as Hlen.
      rewrite <- (canonicalize_strips _ _ _ H), Hid in Hlen. lia.
    + intros Hno.
      destruct (canonicalize_cases (canonicalize label)) as [E | (stem & tail & H)];
        [exact E | destruct (Hno _ _ H)].
Qed.

(** The theorem at the label of a second start of a two-opt run. *)
Lemma canonicalize_strips_witness :
  canonicalize "two_opt_start12" = "two_opt".
Proof.
  apply (proj1 (canonicalize_strips_one_anchored_suffix "two_opt_start12")
           "two_opt" "").
  exists "12". repeat split; [discriminate | now left].
Defined.

(** C1 fails as stated: on a label that carries two stacked suffixes the
    second application removes what the first one left. *)
Lemma canonicalize_not_idempotent :
  canonicalize (canonicalize "foo_start3_start4")
  <> canonicalize "foo_start3_start4".
Proof. vm_compute. discriminate. Qed.

(** Python's [$] also matches before a final newline. *)
Example canonicalize_before_newline :
  canonicalize ("foo_start3" ++ String Regex.newline "")
  = "foo" ++ String Regex.newline "".
Proof. reflexivity. Qed.

(** The data-frame helpers of [utils.py] use the pattern without [$]:
    every occurrence goes, also one inside the label. *)
Example base_algorithm_strips_inside :
  base_algorithm "foo_start3_bar" = "foo_bar" /\
  base_algorithm "foo_start3" = "foo" /\
  base_algorithm "greedy_start12_start7" = "greedy".
Proof. repeat split. Qed.

(** ** Statistics *)

Section Statistics.







Lemma Qlen_pos xs : xs <> [] -> 0 < Qlen xs.
Proof.
  destruct xs; [congruence|]. intros _. unfold Qlen, Qlt. simpl. lia.
Qed.




End Statistics.




(** ** RouteVisualizer: marker sizes *)

Section MarkerSize.

Import utils.

Lemma py_max_bounds xs m :
  py_max xs = Ok m -> In m xs /\ Forall (fun v => v <= m) xs.
Proof.
  destruct xs as [|x r]; [discriminate|]. simpl. intros [= <-].
  assert (G : forall r x,
    (In (fold_left (fun best v => if Qle_bool v best then best else v) r x) (x :: r)) /\
    x <= fold_left (fun best v => if Qle_bool v best then best else v) r x /\
    Forall (fun v => v <= fold_left (fun best v => if Qle_bool v best then best else v) r x) r).
  { clear. induction r as [|y r IH]; intros x; simpl.
    - repeat split; [now left | apply Qle_refl | constructor].
    - destruct (Qle_bool y x) eqn:E.
      + destruct (IH x) as (Hin & Hle & Hall). apply Qle_bool_iff in E.
        repeat split; [destruct Hin; auto | exact Hle |].
        constructor; [eapply Qle_trans; eauto | exact Hall].
      + destruct (IH y) as (Hin & Hle & Hall).
        assert (x <= y).
        { destruct (Qlt_le_dec y x) as [H|H]; [|exact H].
          apply Qlt_le_weak, Qle_bool_iff in H. congruence. }
        repeat split; [destruct Hin; auto | eapply Qle_trans; eauto |].
        constructor; [exact Hle | exact Hall]. }
  destruct (G r x) as (Hin & Hle & Hall). split; [exact Hin|].
  constructor; assumption.
Qed.

Lemma py_min_bounds xs m :
  py_min xs = Ok m -> In m xs /\ Forall (fun v => m <= v) xs.
Proof.
  destruct xs as [|x r]; [discriminate|]. simpl. intros [= <-].
  assert (G : forall r x,
    (In (fold_left (fun best v => if Qle_bool best v then best else v) r x) (x :: r)) /\
    fold_left (fun best v => if Qle_bool best v then best else v) r x <= x /\
    Forall (fun v => fold_left (fun best v => if Qle_bool best v then best else v) r x <= v) r).
  { clear. induction r as [|y r IH]; intros x; simpl.
    - repeat split; [now left | apply Qle_refl | constructor].
    - destruct (Qle_bool x y) eqn:E.
      + destruct (IH x) as (Hin & Hle & Hall). apply Qle_bool_iff in E.
        repeat split; [destruct Hin; auto | exact Hle |].
        constructor; [eapply Qle_trans; eauto | exact Hall].
      + destruct (IH y) as (Hin & Hle & Hall).
        assert (y <= x).
        { destruct (Qlt_le_dec x y) as [H|H]; [|exact H].
          apply Qlt_le_weak, Qle_bool_iff in H. congruence. }
        repeat split; [destruct Hin; auto | eapply Qle_trans; eauto |].
        constructor; [exact Hle | exact Hall]. }
  destruct (G r x) as (Hin & Hle & Hall). split; [exact Hin|].
  constructor; assumption.
Qed.

Lemma py_max_nonempty xs : xs <> [] -> exists m, py_max xs = Ok m.
Proof. destruct xs; [congruence | eexists; reflexivity]. Qed.

Lemma py_min_nonempty xs : xs <> [] -> exists m, py_min xs = Ok m.
Proof. destruct xs; [congruence | eexists; reflexivity]. Qed.

(** With distinct extremes the size is the linear interpolation. *)
Lemma marker_size_interpolates min_cost max_cost cost :
  ~ max_cost == min_cost ->
  marker_size min_cost max_cost cost
  = Ok (50 + 200 * (cost - min_cost) / (max_cost - min_cost)).
Proof.
  intros Hne. unfold marker_size, py_div.
  destruct (Qeq_bool (max_cost - min_cost) 0) eqn:E; [|reflexivity].
  apply Qeq_bool_iff in E. exfalso. apply Hne. lra.
Qed.

(** With equal extremes the division raises. *)
Lemma marker_size_equal_extremes min_cost max_cost cost :
  max_cost == min_cost ->
  marker_size min_cost max_cost cost = Raise ZeroDivisionError.
Proof.
  intros He. unfold marker_size, py_div.
  replace (Qeq_bool (max_cost - min_cost) 0) with true; [reflexivity|].
  symmetry. apply Qeq_bool_iff. lra.
Qed.

End MarkerSize.

(** C2 (the code departs from it).  When every node of the instance has the
    same cost, [max_cost - min_cost] is zero and the size of the first node
    already raises [ZeroDivisionError]: no figure is drawn, and no size 50
    is produced. *)
Theorem draw_solution_equal_costs_raises
    (nodes : list Node.t) (solution_data : Sol.t) (c : Q) :
  nodes <> [] ->
  Forall (fun node => Node.cost node == c) nodes ->
  utils.draw_solution nodes solution_data = Raise ZeroDivisionError.
Proof.
  intros Hne Hall. unfold utils.draw_solution.
  assert (Hc : map Node.cost nodes <> []) by (destruct nodes; [congruence | discriminate]).
  destruct (py_max_nonempty _ Hc) as [mx Hmx].
  destruct (py_min_nonempty _ Hc) as [mn Hmn].
  rewrite Hmx, Hmn. cbn [result_bind].
  assert (Heq : forall m, In m (map Node.cost nodes) -> m == c).
  { intros m Hin. apply in_map_iff in Hin as (n & <- & Hn).
    rewrite Forall_forall in Hall. now apply Hall. }
  assert (E : mx == mn).
  { rewrite (Heq mx), (Heq mn); [reflexivity | |].
    - now apply py_min_bounds in Hmn.
    - now apply py_max_bounds in Hmx. }
  destruct nodes as [|n r]; [congruence|].
  cbn [result_map result_bind]. rewrite (marker_size_equal_extremes _ _ _ E).
  reflexivity.
Qed.

(** Two depots of cost 5: drawing raises. *)
Lemma draw_solution_equal_costs_witness :
  utils.draw_solution [Node.make 0 0 0 5; Node.make 1 10 0 5]
    (Sol.make [0; 1]%Z [0; 1]%Z 30 20 10 true "")
  = Raise ZeroDivisionError.
Proof.
  apply (draw_solution_equal_costs_raises _ _ 5); [discriminate|].
  repeat constructor.
Defined.

(** The sample of the specification: costs 1, 5 and 10 render at 50,
    50 + 200*4/9 and 250. *)
Example marker_size_sample :
  utils.marker_size 1 10 1 = Ok (50 + 200 * (1 - 1) / (10 - 1)) /\
  utils.marker_size 1 10 5 = Ok (50 + 200 * (5 - 1) / (10 - 1)) /\
  utils.marker_size 1 10 10 = Ok (50 + 200 * (10 - 1) / (10 - 1)) /\
  50 + 200 * (1 - 1) / (10 - 1) == 50 /\
  50 + 200 * (10 - 1) / (10 - 1) == 250.
Proof. repeat split. Qed.

(** ** RouteVisualizer: the closed route and its arrows *)

Section Route.

Import utils.

Lemma result_map_length {A B} (f : A -> result B) xs ys :
  result_map f xs = Ok ys -> List.length ys = List.length xs.
Proof.
  revert ys; induction xs as [|x r IH]; simpl; intros ys.
  - now intros [= <-].
  - destruct (f x); [|discriminate]. simpl.
    destruct (result_map f r); [|discriminate]. simpl.
    intros [= <-]. simpl. now rewrite (IH _ eq_refl).
Qed.

Lemma result_map_ext {A B} (f g : A -> result B) xs :
  (forall x, In x xs -> f x = g x) -> result_map f xs = result_map g xs.
Proof.
  induction xs as [|x r IH]; simpl; intros H; [reflexivity|].
  rewrite (H x) by now left. rewrite IH; [reflexivity|].
  intros y Hy. apply H. now right.
Qed.

Lemma result_map_map {A B C} (g : A -> B) (f : B -> result C) xs :
  result_map f (map g xs) = result_map (fun x => f (g x)) xs.
Proof.
  induction xs as [|x r IH]; simpl; [reflexivity | now rewrite IH].
Qed.

Lemma result_map_total {A B} (f : A -> result B) xs :
  (forall x, In x xs -> exists b, f x = Ok b) ->
  exists ys, result_map f xs = Ok ys.
Proof.
  induction xs as [|x r IH]; simpl; intros H; [now eexists|].
  destruct (H x) as [b Hb]; [now left|]. rewrite Hb. simpl.
  destruct IH as [ys Hys]; [intros y Hy; apply H; now right|].
  rewrite Hys. simpl. now eexists.
Qed.

Lemma arrows_along_path path n :
  List.length path = S n ->
  result_map (arrow_at path) (seq 0 n)
  = Ok (map (fun e => edge_arrow (fst e) (snd e)) (edges path)).
Proof.
  revert path; induction n as [|n IH]; intros path Hlen.
  - destruct path as [|p [|q r]]; try discriminate. reflexivity.
  - destruct path as [|p [|q r]]; try discriminate.
    cbn [seq result_map]. unfold arrow_at at 1. cbn [index nth_error Nat.add result_bind].
    rewrite <- seq_shift, result_map_map.
    rewrite (result_map_ext _ (arrow_at (q :: r))) by reflexivity.
    rewrite (IH (q :: r)) by (simpl in *; lia).
    reflexivity.
Qed.

Lemma edges_closed_length (coords : list (Q * Q)) first :
  List.length (edges (coords ++ [first])) = List.length coords.
Proof.
  unfold edges. rewrite length_combine.
  destruct coords as [|p r]; [reflexivity|].
  cbn [List.app tl]. cbn [List.length]. rewrite !length_app.
  cbn [List.length]. lia.
Qed.

(** An arrow is centred on the midpoint of its edge and points along it. *)
Lemma edge_arrow_midpoint p1 p2 :
  exists tail head,
    edge_arrow p1 p2 = Arrow tail head 4 /\
    (fst tail + fst head) / 2 == (fst p1 + fst p2) / 2 /\
    (snd tail + snd head) / 2 == (snd p1 + snd p2) / 2 /\
    fst head - fst tail == (4 # 10) * (fst p2 - fst p1) /\
    snd head - snd tail == (4 # 10) * (snd p2 - snd p1).
Proof.
  destruct p1 as [x1 y1], p2 as [x2 y2]. eexists _, _.
  split; [reflexivity|]. cbn [fst snd]. repeat split; field.
Qed.

Lemma filter_none {A} (p : A -> bool) l :
  Forall (fun a => p a = false) l -> filter p l = [].
Proof.
  induction 1 as [|a l Ha _ IH]; simpl; [reflexivity | now rewrite Ha].
Qed.

Lemma filter_all {A} (p : A -> bool) l :
  Forall (fun a => p a = true) l -> filter p l = l.
Proof.
  induction 1 as [|a l Ha _ IH]; simpl; [reflexivity | now rewrite Ha, IH].
Qed.

Lemma result_map_Forall {A B} (f : A -> result B) (P : B -> Prop) xs ys :
  (forall x b, f x = Ok b -> P b) ->
  result_map f xs = Ok ys -> Forall P ys.
Proof.
  intros Hf. revert ys; induction xs as [|x r IH]; simpl; intros ys.
  - intros [= <-]. constructor.
  - destruct (f x) eqn:Hx; [|discriminate]. simpl.
    destruct (result_map f r); [|discriminate]. simpl.
    intros [= <-]. constructor; [eapply Hf; eauto | now apply IH].
Qed.

End Route.

Section RouteDrawing.

Import utils.

Lemma closed_route_coords_inv node_coords route rc :
  closed_route_coords node_coords route = Ok rc ->
  exists coords first,
    result_map (lookup node_coords) route = Ok coords /\
    nth_error coords 0 = Some first /\
    rc = (coords ++ [first])%list.
Proof.
  unfold closed_route_coords.
  destruct (result_map (lookup node_coords) route) as [coords|]; [|discriminate].
  cbn [result_bind]. unfold index.
  destruct (nth_error coords 0) as [first|] eqn:E; [|discriminate].
  cbn [result_bind]. intros [= <-]. now exists coords, first.
Qed.

(** If the figure is drawn, its only polyline is the route closed on its
    first node, and its arrows are the edges of that closed path in order. *)
Lemma draw_solution_route nodes solution_data artists :
  draw_solution nodes solution_data = Ok artists ->
  exists coords first,
    result_map (lookup (node_coords_of nodes)) (Sol.route solution_data) = Ok coords /\
    nth_error coords 0 = Some first /\
    filter is_polyline artists =
      [Polyline (map fst (coords ++ [first])) (map snd (coords ++ [first])) 2] /\
    filter is_arrow artists =
      map (fun e => edge_arrow (fst e) (snd e)) (edges (coords ++ [first])) /\
    List.length (filter is_arrow artists) = List.length (Sol.route solution_data).
Proof.
  unfold draw_solution. fold (node_coords_of nodes). fold (node_costs_of nodes).
  destruct (py_max (map Node.cost nodes)) as [mx|]; [|discriminate].
  cbn [result_bind].
  destruct (py_min (map Node.cost nodes)) as [mn|]; [|discriminate].
  cbn [result_bind].
  match goal with |- result_bind ?g _ = _ -> _ => destruct g as [gray|] eqn:Hgray end;
    [|discriminate].
  cbn [result_bind].
  match goal with |- result_bind ?g _ = _ -> _ => destruct g as [selected|] eqn:Hsel end;
    [|discriminate].
  cbn [result_bind].
  destruct (closed_route_coords (node_coords_of nodes) (Sol.route solution_data))
    as [rc|] eqn:Hrc; [|discriminate].
  cbn [result_bind].
  destruct (closed_route_coords_inv _ _ _ Hrc) as (coords & first & Hco & Hfirst & ->).
  pose proof (result_map_length _ _ _ Hco) as Hlen.
  rewrite (arrows_along_path (coords ++ [first]) (List.length (Sol.route solution_data)))
    by (rewrite length_app; simpl; lia).
  cbn [result_bind]. intros [= <-].
  exists coords, first.
  assert (Hg : Forall (fun a => is_arrow a = false /\ is_polyline a = false)
                 (List.concat gray)).
  { apply Forall_concat.
    eapply result_map_Forall; [|exact Hgray].
    intros n b Hb. cbn beta in Hb.
    destruct (marker_size mn mx (Node.cost n)); [|discriminate].
    cbn [result_bind] in Hb. injection Hb as <-. repeat constructor. }
  assert (Hs : Forall (fun a => is_arrow a = false /\ is_polyline a = false) selected).
  { eapply result_map_Forall; [|exact Hsel].
    intros i b Hb. cbn beta in Hb.
    destruct (lookup (node_coords_of nodes) i); [|discriminate].
    cbn [result_bind] in Hb.
    destruct (lookup (node_costs_of nodes) i); [|discriminate].
    cbn [result_bind] in Hb.
    destruct (marker_size mn mx _); [|discriminate].
    cbn [result_bind] in Hb. injection Hb as <-. now split. }
  assert (Ha : Forall (fun a => is_arrow a = true)
                 (map (fun e => edge_arrow (fst e) (snd e)) (edges (coords ++ [first])))).
  { apply Forall_forall. intros a Hin. apply in_map_iff in Hin as ([p1 p2] & <- & _).
    destruct p1, p2. reflexivity. }
  assert (Hp : Forall (fun a => is_polyline a = false)
                 (map (fun e => edge_arrow (fst e) (snd e)) (edges (coords ++ [first])))).
  { apply Forall_forall. intros a Hin. apply in_map_iff in Hin as ([p1 p2] & <- & _).
    destruct p1, p2. reflexivity. }
  split; [exact Hco|]. split; [exact Hfirst|].
  rewrite !filter_app.
  rewrite (filter_none is_polyline (List.concat gray))
    by (eapply Forall_impl; [|exact Hg]; now intros a [_ H]).
  rewrite (filter_none is_polyline selected)
    by (eapply Forall_impl; [|exact Hs]; now intros a [_ H]).
  rewrite (filter_none is_arrow (List.concat gray))
    by (eapply Forall_impl; [|exact Hg]; now intros a [H _]).
  rewrite (filter_none is_arrow selected)
    by (eapply Forall_impl; [|exact Hs]; now intros a [H _]).
  cbn [filter is_polyline is_arrow List.app].
  rewrite (filter_none is_polyline _ Hp), (filter_all is_arrow _ Ha).
  split; [reflexivity|]. split; [reflexivity|].
  rewrite length_map, edges_closed_length. exact Hlen.
Qed.

End RouteDrawing.

(** ** Dictionaries *)

Section DictFacts.

Context {K V : Type} (eqb : K -> K -> bool).
Hypothesis eqb_spec : forall a b, reflect (a = b) (eqb a b).

Lemma dict_get_set (d : Dict.t (K := K) (V := V)) k v k' :
  Dict.get eqb (Dict.set eqb d k v) k'
  = if eqb k k' then Some v else Dict.get eqb d k'.
Proof.
  induction d as [|[a b] d IH]; simpl.
  - reflexivity.
  - destruct (eqb_spec a k) as [->|Hak]; simpl.
    + destruct (eqb_spec k k'); reflexivity.
    + destruct (eqb_spec a k') as [->|Hak'].
      * destruct (eqb_spec k k'); [congruence | reflexivity].
      * exact IH.
Qed.

Lemma dict_get_keys (d : Dict.t (K := K) (V := V)) k :
  Dict.get eqb d k <> None <-> In k (Dict.keys d).
Proof.
  induction d as [|[a b] d IH]; simpl.
  - split; [congruence | contradiction].
  - destruct (eqb_spec a k) as [->|Hak].
    + split; [now left | discriminate].
    + rewrite IH. split; [now right | now intros [|]].
Qed.

Lemma dict_keys_set (d : Dict.t (K := K) (V := V)) k v k' :
  In k' (Dict.keys (Dict.set eqb d k v)) <-> k' = k \/ In k' (Dict.keys d).
Proof.
  rewrite <- !dict_get_keys, dict_get_set.
  destruct (eqb_spec k k') as [->|Hne].
  - split; [now left | discriminate].
  - split; [now right | intros [->|]; [congruence | assumption]].
Qed.

Lemma dict_keys_fold_set {A} (key : A -> K) (val : A -> V) xs
    (d : Dict.t (K := K) (V := V)) k :
  In k (Dict.keys (fold_left (fun d x => Dict.set eqb d (key x) (val x)) xs d))
  <-> In k (Dict.keys d) \/ In k (map key xs).
Proof.
  revert d; induction xs as [|x r IH]; intros d; simpl.
  - tauto.
  - rewrite IH, dict_keys_set. intuition (subst; auto).
Qed.

Lemma dict_keys_of_list {A} (key : A -> K) (val : A -> V) xs k :
  In k (Dict.keys (Dict.of_list eqb key val xs)) <-> In k (map key xs).
Proof.
  unfold Dict.of_list. rewrite dict_keys_fold_set. simpl. tauto.
Qed.

End DictFacts.

Section RouteTotal.

Import utils.

Lemma lookup_known {V} (val : Node.t -> V) nodes k :
  In k (map Node.id nodes) ->
  exists v, lookup (Dict.of_list Z.eqb Node.id val nodes) k = Ok v.
Proof.
  intros Hin. unfold lookup.
  destruct (Dict.get Z.eqb (Dict.of_list Z.eqb Node.id val nodes) k) as [v|] eqn:E.
  - now exists v.
  - exfalso. apply (dict_keys_of_list Z.eqb Z.eqb_spec Node.id val) in Hin.
    apply (dict_get_keys Z.eqb Z.eqb_spec) in Hin. congruence.
Qed.

(** On an instance with two different costs, a solution whose route is not
    empty and names known nodes only is drawn. *)
Lemma draw_solution_returns nodes solution_data :
  (exists a b, In a nodes /\ In b nodes /\ Node.cost a < Node.cost b) ->
  Forall (fun k => In k (map Node.id nodes)) (Sol.selected_nodes solution_data) ->
  Sol.route solution_data <> [] ->
  Forall (fun k => In k (map Node.id nodes)) (Sol.route solution_data) ->
  exists artists, draw_solution nodes solution_data = Ok artists.
Proof.
  intros (a & b & Ha & Hb & Hab) Hsel Hne Hroute.
  unfold draw_solution. fold (node_coords_of nodes). fold (node_costs_of nodes).
  assert (Hc : map Node.cost nodes <> []) by (destruct nodes; [destruct Ha | discriminate]).
  destruct (py_max_nonempty _ Hc) as [mx Hmx].
  destruct (py_min_nonempty _ Hc) as [mn Hmn].
  rewrite Hmx, Hmn. cbn [result_bind].
  assert (Hdiff : ~ mx == mn).
  { apply py_max_bounds in Hmx as [_ Hmx]. apply py_min_bounds in Hmn as [_ Hmn].
    rewrite Forall_forall in Hmx, Hmn.
    pose proof (Hmx _ (in_map Node.cost _ _ Hb)).
    pose proof (Hmn _ (in_map Node.cost _ _ Ha)). lra. }
  match goal with |- exists _, result_bind ?g _ = _ =>
    assert (Hg : exists gray, g = Ok gray) end.
  { apply result_map_total. intros n _.
    rewrite (marker_size_interpolates _ _ _ Hdiff). cbn [result_bind]. now eexists. }
  destruct Hg as [gray ->]. cbn [result_bind].
  match goal with |- exists _, result_bind ?g _ = _ =>
    assert (Hs : exists selected, g = Ok selected) end.
  { apply result_map_total. intros k Hk. rewrite Forall_forall in Hsel.
    destruct (lookup_known (fun n => (Node.x n, Node.y n)) nodes k (Hsel _ Hk)) as [xy Hxy].
    destruct (lookup_known Node.cost nodes k (Hsel _ Hk)) as [c Hcost].
    unfold node_coords_of, node_costs_of. rewrite Hxy, Hcost. cbn [result_bind].
    rewrite (marker_size_interpolates _ _ _ Hdiff). cbn [result_bind]. now eexists. }
  destruct Hs as [selected ->]. cbn [result_bind].
  assert (Hco : exists coords,
             result_map (lookup (node_coords_of nodes)) (Sol.route solution_data)
             = Ok coords).
  { apply result_map_total. intros k Hk. rewrite Forall_forall in Hroute.
    apply lookup_known. now apply Hroute. }
  destruct Hco as [coords Hco].
  pose proof (result_map_length _ _ _ Hco) as Hlen.
  unfold closed_route_coords. rewrite Hco. cbn [result_bind].
  destruct coords as [|first rest].
  { destruct (Sol.route solution_data); [congruence | discriminate]. }
  cbn [index nth_error result_bind].
  rewrite (arrows_along_path ((first :: rest) ++ [first])
             (List.length (Sol.route solution_data)))
    by (rewrite length_app; simpl in *; lia).
  cbn [result_bind]. now eexists.
Qed.

End RouteTotal.

(** C9.  A solution whose route is not empty and names nodes of the
    instance is drawn (on an instance with two different node costs), and in
    the drawing the route polyline runs through the nodes in route order and
    back to the first one, and the arrows are the edges of that closed path,
    one per route node, each centred on the midpoint of its edge and
    pointing along it. *)
Theorem route_polyline_closed_one_arrow_per_edge
    (nodes : list Node.t) (solution_data : Sol.t) :
  (exists a b, In a nodes /\ In b nodes /\ Node.cost a < Node.cost b) ->
  Forall (fun k => In k (map Node.id nodes)) (Sol.selected_nodes solution_data) ->
  Sol.route solution_data <> [] ->
  Forall (fun k => In k (map Node.id nodes)) (Sol.route solution_data) ->
  exists artists coords first,
    utils.draw_solution nodes solution_data = Ok artists /\
    result_map (utils.lookup (node_coords_of nodes)) (Sol.route solution_data)
      = Ok coords /\
    nth_error coords 0 = Some first /\
    filter is_polyline artists =
      [Polyline (map fst (coords ++ [first])) (map snd (coords ++ [first])) 2] /\
    filter is_arrow artists =
      map (fun e => utils.edge_arrow (fst e) (snd e)) (edges (coords ++ [first])) /\
    List.length (filter is_arrow artists) = List.length (Sol.route solution_data) /\
    (forall p1 p2, exists tail head,
        utils.edge_arrow p1 p2 = Arrow tail head 4 /\
        (fst tail + fst head) / 2 == (fst p1 + fst p2) / 2 /\
        (snd tail + snd head) / 2 == (snd p1 + snd p2) / 2 /\
        fst head - fst tail == (4 # 10) * (fst p2 - fst p1) /\
        snd head - snd tail == (4 # 10) * (snd p2 - snd p1)).
Proof.
  intros Hcost Hsel Hne Hroute.
  destruct (draw_solution_returns _ _ Hcost Hsel Hne Hroute) as [artists Hdraw].
  destruct (draw_solution_route _ _ _ Hdraw) as (coords & first & H1 & H2 & H3 & H4 & H5).
  exists artists, coords, first. repeat split; try assumption.
  apply edge_arrow_midpoint.
Qed.

(** ** ResultLoader *)

Section Loader.

Import utils.

Variable fs : FileSystem.
Variable algorithm_folder : string.

Let present := utils.present fs algorithm_folder.

Lemma grows_refl w : grows w w.
Proof.
  repeat split; try (exists []; now rewrite app_nil_r).
Qed.

Lemma grows_trans w1 w2 w3 : grows w1 w2 -> grows w2 w3 -> grows w1 w3.
Proof.
  intros ([s1 H1] & [o1 H2] & H3) ([s2 H4] & [o2 H5] & H6).
  repeat split.
  - exists (s1 ++ s2)%list. now rewrite H4, H1, app_assoc.
  - exists (o1 ++ o2)%list. now rewrite H5, H2, app_assoc.
  - congruence.
Qed.

Lemma grows_stdout w w' e : grows w w' -> In e (stdout w) -> In e (stdout w').
Proof. intros (_ & [o ->] & _) H. apply in_or_app. now left. Qed.

(** The missing-file case: the triple of [None]s and one diagnostic. *)
Lemma load_absent instance w :
  results_at fs (results_path instance algorithm_folder) = None ->
  load_algorithm_results fs instance algorithm_folder w
  = (Ok (None, None, None),
     {| store := store w;
        stdout := (stdout w ++
          [Line ("Results file not found: "
                 ++ results_path instance algorithm_folder)])%list;
        written := written w |}).
Proof. intros H. unfold load_algorithm_results. now rewrite H. Qed.

(** The other case: a new frame with the records, and whatever optional
    files there are. *)
Lemma load_present instance results_data w :
  results_at fs (results_path instance algorithm_folder) = Some results_data ->
  exists w',
    load_algorithm_results fs instance algorithm_folder w
    = (Ok (Some (List.length (store w)),
           visualization_at fs (viz_path instance algorithm_folder),
           summary_at fs (summary_path instance algorithm_folder)), w') /\
    grows w w' /\
    nth (List.length (store w)) (store w') empty_frame
    = {| records := results_data; base_algorithm_column := None |}.
Proof.
  intros H. unfold load_algorithm_results. rewrite H.
  unfold bind, DataFrame_new, alloc, print, ret. cbn.
  destruct results_data as [|r rs]; cbn; eexists; (split; [reflexivity|]);
    (split; [|cbn [store]; now rewrite nth_middle]);
    repeat split; cbn [store stdout written]; try (eexists; reflexivity);
    rewrite <- app_assoc; eexists; reflexivity.
Qed.

(** The loop of [load_all_algorithm_results], from any dictionary built so
    far: it never raises; the keys gained are the instances that are
    present; every absent one leaves its diagnostic. *)
Lemma load_loop instances : forall all_data w,
  exists all_data' w',
    fold_m (fun all_data instance =>
              loaded <- load_algorithm_results fs instance algorithm_folder ;;
              match loaded with
              | (Some df, viz_data, summary_data) =>
                  ret (Dict.set String.eqb all_data instance
                         {| df := df; viz_data := viz_data;
                            summary_data := summary_data |})
              | (None, _, _) => ret all_data
              end) instances all_data w
    = (Ok all_data', w') /\
    grows w w' /\
    (forall i, In i (Dict.keys all_data') <->
               In i (Dict.keys all_data) \/ (In i instances /\ present i)) /\
    (forall i, In i instances -> ~ present i ->
               In (Line ("Results file not found: "
                         ++ results_path i algorithm_folder)) (stdout w')).
Proof.
  induction instances as [|x r IH]; intros all_data w.
  - exists all_data, w. cbn. repeat split; try apply grows_refl; try tauto;
      try (exists []; now rewrite app_nil_r).
  - cbn [fold_m]. unfold bind at 1. unfold bind at 1.
    destruct (results_at fs (results_path x algorithm_folder)) as [rs|] eqn:Hx.
    + destruct (load_present x rs w Hx) as (w1 & -> & Hg & _).
      cbn [ret].
      destruct (IH (Dict.set String.eqb all_data x
                      {| df := List.length (store w);
                         viz_data := visualization_at fs (viz_path x algorithm_folder);
                         summary_data := summary_at fs (summary_path x algorithm_folder) |})
                   w1)
        as (d & w2 & -> & Hg2 & Hk & Hl).
      exists d, w2. split; [reflexivity|]. split; [eapply grows_trans; eauto|].
      split.
      * intros i. rewrite Hk, (dict_keys_set String.eqb String.eqb_spec).
        unfold present. split.
        -- intros [[->|H]|[H1 H2]]; auto.
           ++ right. split; [now left | congruence].
           ++ right. split; [now right | exact H2].
        -- intros [H|[[->|H1] H2]]; auto.
      * intros i [->|Hi] Hn; [|now apply Hl].
        exfalso. apply Hn. unfold present. congruence.
    + rewrite (load_absent x w Hx). cbn [ret].
      match goal with |- context [fold_m _ r all_data ?w1] =>
        destruct (IH all_data w1) as (d & w2 & -> & Hg2 & Hk & Hl) end.
      exists d, w2. split; [reflexivity|]. split.
      * eapply grows_trans; [|exact Hg2].
        repeat split; cbn; try (eexists; reflexivity). exists []. now rewrite app_nil_r.
      * split.
        -- intros i. rewrite Hk. unfold present. split.
           ++ intros [H|[H1 H2]]; auto. right. split; [now right | exact H2].
           ++ intros [H|[[->|H1] H2]]; auto. congruence.
        -- intros i [->|Hi] Hn; [|now apply Hl].
           eapply grows_stdout; [exact Hg2|]. cbn. apply in_or_app. right. now left.
Qed.

End Loader.

(** C6.  An instance whose run-record file is missing makes the loader
    return the triple of [None]s with one diagnostic and nothing else; the
    batch loader never raises and keeps exactly the requested instances
    whose file is there, each missing one leaving its diagnostic; and the
    report generator's constructor raises [ValueError] exactly when that
    mapping is empty, that is when no requested instance is there. *)
Theorem loader_skips_absent_instances_and_init_rejects_empty
    (fs : FileSystem) (algorithm_folder output_dir : string)
    (requested : option (list string)) (w : world) :
  let instances := generate_report.TSPReportGenerator.instances_or_default requested in
  (forall i, ~ utils.present fs algorithm_folder i ->
     utils.load_algorithm_results fs i algorithm_folder w
     = (Ok (None, None, None),
        {| store := store w;
           stdout := (stdout w ++
             [Line ("Results file not found: "
                    ++ utils.results_path i algorithm_folder)])%list;
           written := written w |})) /\
  exists all_data w',
    utils.load_all_algorithm_results fs algorithm_folder (Some instances) w
      = (Ok all_data, w') /\
    (forall i, In i (Dict.keys all_data) <->
               In i instances /\ utils.present fs algorithm_folder i) /\
    (forall i, In i instances -> ~ utils.present fs algorithm_folder i ->
               In (Line ("Results file not found: "
                         ++ utils.results_path i algorithm_folder)) (stdout w')) /\
    (all_data = [] <->
       forall i, In i instances -> ~ utils.present fs algorithm_folder i) /\
    generate_report.TSPReportGenerator.__init__ fs algorithm_folder requested
      output_dir w
    = match all_data with
      | [] => (Raise (ValueError ("No data found for algorithm folder: "
                                  ++ algorithm_folder)), w')
      | _ => (Ok {| generate_report.TSPReportGenerator.algorithm_folder := algorithm_folder;
                    generate_report.TSPReportGenerator.instances := instances;
                    generate_report.TSPReportGenerator.output_dir := output_dir;
                    generate_report.TSPReportGenerator.algorithm_data := all_data;
                    generate_report.TSPReportGenerator.visualizations := [] |}, w')
      end.
Proof.
  intros instances. split.
  - intros i Hi. apply load_absent. unfold utils.present in Hi.
    destruct (results_at fs (utils.results_path i algorithm_folder)); [|reflexivity].
    exfalso. apply Hi. discriminate.
  - destruct (load_loop fs algorithm_folder instances [] w)
      as (all_data & w' & Hrun & _ & Hkeys & Hlines).
    change (utils.load_all_algorithm_results fs algorithm_folder (Some instances) w
            = (Ok all_data, w')) in Hrun.
    exists all_data, w'. split; [exact Hrun|].
    assert (Hk : forall i, In i (Dict.keys all_data) <->
                 In i instances /\ utils.present fs algorithm_folder i).
    { intros i. rewrite Hkeys. simpl. tauto. }
    split; [exact Hk|]. split; [exact Hlines|]. split.
    + split.
      * intros -> i Hi Hp. apply (proj2 (Hk i)); auto.
      * intros Hnone. destruct all_data as [|[k v] r]; [reflexivity|].
        exfalso. destruct (proj1 (Hk k)) as [Hi Hp]; [now left|].
        exact (Hnone k Hi Hp).
    + unfold generate_report.TSPReportGenerator.__init__.
      fold instances. unfold bind. rewrite Hrun.
      destruct all_data; reflexivity.
Qed.

(** The route [3, 7, 9] of the specification: the path drawn is
    3 -> 7 -> 9 -> 3 and it carries three arrows. *)
Lemma route_polyline_witness :
  exists artists,
    utils.draw_solution Sample.node_list Sample.trace = Ok artists /\
    filter is_polyline artists = [Polyline [0; 10; 10; 0] [0; 0; 10; 0] 2] /\
    List.length (filter is_arrow artists) = 3%nat.
Proof.
  assert (H1 : exists a b, In a Sample.node_list /\ In b Sample.node_list /\
                           Node.cost a < Node.cost b).
  { exists (Node.make 3 0 0 1), (Node.make 7 10 0 5).
    split; [simpl; auto|]. split; [simpl; auto | reflexivity]. }
  assert (H2 : Forall (fun k => In k (map Node.id Sample.node_list))
                 (Sol.selected_nodes Sample.trace))
    by (repeat constructor; simpl; auto).
  assert (H3 : Sol.route Sample.trace <> []) by discriminate.
  assert (H4 : Forall (fun k => In k (map Node.id Sample.node_list))
                 (Sol.route Sample.trace))
    by (repeat constructor; simpl; auto).
  destruct (route_polyline_closed_one_arrow_per_edge
              Sample.node_list Sample.trace H1 H2 H3 H4)
    as (artists & coords & first & Hd & Hc & Hf & Hp & _ & Hl & _).
  exists artists. split; [exact Hd|].
  vm_compute in Hc. injection Hc as <-.
  vm_compute in Hf. injection Hf as <-.
  split; [exact Hp | exact Hl].
Defined.

(** With [TSPA] on disk and [TSPB] missing, the batch keeps [TSPA] and
    reports [TSPB]; with nothing on disk the constructor raises. *)
Example load_tspa_without_tspb :
  fst (utils.load_all_algorithm_results Sample.fs "greedy"
         (Some ["TSPA"; "TSPB"]) Sample.start)
    = Ok [("TSPA", {| df := 0%nat; viz_data := Some Sample.viz;
                      summary_data := None |})] /\
  In (Line "Results file not found: results/greedy/TSPB_greedy_results.json")
     (stdout (snd (utils.load_all_algorithm_results Sample.fs "greedy"
                     (Some ["TSPA"; "TSPB"]) Sample.start))) /\
  fst (generate_report.TSPReportGenerator.__init__ Sample.no_files "greedy"
         None "Lab1" Sample.start)
    = Raise (ValueError "No data found for algorithm folder: greedy").
Proof.
  repeat split. vm_compute. auto.
Qed.

(** ** Sorting by one column *)

Section SortValues.

Lemma fleb_refl a : fleb a a = true.
Proof. destruct a; try reflexivity. simpl. apply Qle_bool_iff, Qle_refl. Qed.

Lemma fleb_trans a b c : fleb a b = true -> fleb b c = true -> fleb a c = true.
Proof.
  destruct a, b, c; simpl; try congruence.
  rewrite !Qle_bool_iff. apply Qle_trans.
Qed.

Lemma take_map {A B} (f : A -> B) rows indexer :
  map f (take rows indexer) = take (map f rows) indexer.
Proof.
  unfold take. induction indexer as [|i r IH]; simpl; [reflexivity|].
  rewrite map_app, IH, nth_error_map.
  destruct (nth_error rows i); reflexivity.
Qed.

Lemma take_seq_from {A} (pre rows : list A) :
  take (pre ++ rows) (seq (List.length pre) (List.length rows)) = rows.
Proof.
  revert pre; induction rows as [|x r IH]; intros pre; simpl; [reflexivity|].
  rewrite nth_error_app2, Nat.sub_diag by lia. simpl. f_equal.
  specialize (IH (pre ++ [x])%list).
  rewrite length_app, <- app_assoc in IH. simpl in IH.
  rewrite Nat.add_1_r in IH. exact IH.
Qed.

Lemma take_seq {A} (rows : list A) : take rows (seq 0 (List.length rows)) = rows.
Proof. exact (take_seq_from [] rows). Qed.

Lemma take_permutation {A} (rows : list A) i1 i2 :
  Permutation i1 i2 -> Permutation (take rows i1) (take rows i2).
Proof. intros H. unfold take. now apply Permutation_flat_map. Qed.

Lemma sorts_permutation indexer keys :
  sorts indexer keys = true ->
  Permutation indexer (seq 0 (List.length keys)).
Proof.
  unfold sorts. rewrite !andb_true_iff. intros [[Hlen Hall] _].
  apply Nat.eqb_eq in Hlen. symmetry.
  apply NoDup_Permutation_bis; [apply seq_NoDup | rewrite length_seq; lia |].
  intros i Hi. rewrite forallb_forall in Hall.
  specialize (Hall i Hi). apply existsb_exists in Hall as (j & Hj & E).
  apply Nat.eqb_eq in E. now subst.
Qed.

(** Sorting a frame by a column rearranges its rows and leaves the column
    ascending. *)
Lemma sort_values_sorted {A} argsort (key : A -> float64) rows :
  sorts (argsort (map key rows)) (map key rows) = true ->
  Permutation (sort_values argsort key rows) rows /\
  ascending (map key (sort_values argsort key rows)) = true.
Proof.
  intros H. split.
  - unfold sort_values. pose proof (sorts_permutation _ _ H) as Hp.
    rewrite length_map in Hp.
    apply (take_permutation rows) in Hp. now rewrite take_seq in Hp.
  - unfold sort_values. rewrite take_map.
    unfold sorts in H. rewrite !andb_true_iff in H. tauto.
Qed.

Lemma ascending_cons a l :
  ascending (a :: l) = true ->
  ascending l = true /\ Forall (fun b => fleb a b = true) l.
Proof.
  revert a; induction l as [|b l IH]; intros a H.
  - split; [reflexivity | constructor].
  - cbn [ascending] in H. apply andb_true_iff in H as [Hab Hl].
    split; [exact Hl|]. constructor; [exact Hab|].
    destruct (IH b Hl) as [_ Hall].
    eapply Forall_impl; [|exact Hall]. intros c Hc. cbn beta in Hc.
    eapply fleb_trans; eauto.
Qed.

(** In an ascending column every earlier key is at most every later one. *)
Lemma ascending_nth keys i j a b :
  ascending keys = true -> (i <= j)%nat ->
  nth_error keys i = Some a -> nth_error keys j = Some b ->
  fleb a b = true.
Proof.
  revert i j; induction keys as [|k keys IH]; intros i j Hasc Hij Hi Hj.
  - destruct i; discriminate.
  - destruct (ascending_cons _ _ Hasc) as [Hrest Hall].
    destruct i as [|i], j as [|j]; simpl in Hi, Hj.
    + injection Hi as <-. injection Hj as <-. apply fleb_refl.
    + injection Hi as <-. rewrite Forall_forall in Hall.
      apply Hall. eapply nth_error_In; eauto.
    + lia.
    + eapply (IH i j); eauto. lia.
Qed.

End SortValues.

(** ** StatisticsAggregator: the performance ranking *)

Section Ranking.

Lemma combine_nth_error {A B} (a : list A) (b : list B) i x y :
  nth_error (combine a b) i = Some (x, y) ->
  nth_error a i = Some x /\ nth_error b i = Some y.
Proof.
  revert b i; induction a as [|h a IH]; intros [|k b] [|i]; simpl;
    try discriminate.
  - intros [= -> ->]. now split.
  - apply IH.
Qed.

Lemma seq_nth_error s n i x : nth_error (seq s n) i = Some x -> x = (s + i)%nat.
Proof.
  revert s i; induction n as [|n IH]; intros s [|i]; simpl; try discriminate.
  - intros [= <-]. lia.
  - intros H. apply IH in H. lia.
Qed.

Lemma combine_seq_fst {B} s (b : list B) :
  map fst (combine (seq s (List.length b)) b) = seq s (List.length b).
Proof.
  revert s; induction b as [|h b IH]; intros s; simpl; [reflexivity|].
  now rewrite IH.
Qed.

Lemma combine_seq_snd {B} s (b : list B) :
  map snd (combine (seq s (List.length b)) b) = b.
Proof.
  revert s; induction b as [|h b IH]; intros s; simpl; [reflexivity|].
  now rewrite IH.
Qed.

End Ranking.

(** C4 (as amended).  For every instance the printed ranking holds each of
    the instance's rows once, is in ascending order of mean objective, and
    numbers the rows 1, 2, ... in that order, so that rank 1 has the best
    mean.  Rows of equal mean stand in the order the sorting routine leaves
    them: neither the standard deviation nor the name is consulted. *)
Theorem ranking_sorted_by_mean_objective
    (argsort : list float64 -> list nat) (ranking_df : list RankingRow)
    (instance : string) :
  let rows := filter (fun r => String.eqb (Instance r) instance) ranking_df in
  sorts (argsort (map Mean_Objective rows)) (map Mean_Objective rows) = true ->
  let ranking := utils.instance_ranking argsort ranking_df instance in
  Permutation (map snd ranking) rows /\
  map fst ranking = seq 1 (List.length rows) /\
  ascending (map Mean_Objective (map snd ranking)) = true /\
  (forall i j ri rj,
      (i <= j)%nat ->
      nth_error ranking i = Some ri -> nth_error ranking j = Some rj ->
      fst ri = S i /\ fst rj = S j /\
      fleb (Mean_Objective (snd ri)) (Mean_Objective (snd rj)) = true).
Proof.
  intros rows Hs ranking.
  destruct (sort_values_sorted argsort Mean_Objective rows Hs) as [Hperm Hasc].
  unfold ranking, utils.instance_ranking. fold rows.
  set (sorted_rows := sort_values argsort Mean_Objective rows) in *.
  rewrite combine_seq_snd, combine_seq_fst.
  split; [exact Hperm|]. split; [now rewrite (Permutation_length Hperm)|].
  split; [exact Hasc|].
  intros i j [ni ri] [nj rj] Hij Hi Hj.
  apply combine_nth_error in Hi as [Hi1 Hi2].
  apply combine_nth_error in Hj as [Hj1 Hj2].
  apply seq_nth_error in Hi1, Hj1. cbn [fst snd].
  split; [lia|]. split; [lia|].
  eapply (ascending_nth _ i j); eauto; rewrite nth_error_map.
  - now rewrite Hi2.
  - now rewrite Hj2.
Qed.

(** The scenario of the specification: greedy (mean 95) ranks first,
    regret (mean 110) second. *)
Lemma ranking_sorted_witness :
  map (fun e => (fst e, Algorithm (snd e)))
      (utils.instance_ranking stable_argsort
         (utils.ranking_rows "TSPA" (Sample.analysis_frame Sample.runs)) "TSPA")
  = [(1%nat, "greedy"); (2%nat, "regret")] /\
  map fst (utils.instance_ranking stable_argsort
             (utils.ranking_rows "TSPA" (Sample.analysis_frame Sample.runs)) "TSPA")
  = [1%nat; 2%nat].
Proof.
  split; [vm_compute; reflexivity|].
  exact (proj1 (proj2 (ranking_sorted_by_mean_objective stable_argsort
           (utils.ranking_rows "TSPA" (Sample.analysis_frame Sample.runs)) "TSPA"
           ltac:(vm_compute; reflexivity)))).
Defined.

(** With a stable sort, equal means stay in the order of the data: the
    wider spread ranks first, and so does the later name. *)
Example stable_ranking_keeps_data_order :
  map (fun e => (fst e, Algorithm (snd e)))
      (utils.instance_ranking stable_argsort
         (utils.ranking_rows "TSPA" (Sample.analysis_frame Sample.spread_runs))
         "TSPA")
  = [(1%nat, "wide"); (2%nat, "narrow")] /\
  spec_ordered
    (map snd (utils.instance_ranking stable_argsort
                (utils.ranking_rows "TSPA" (Sample.analysis_frame Sample.spread_runs))
                "TSPA")) = false /\
  map (fun e => (fst e, Algorithm (snd e)))
      (utils.instance_ranking stable_argsort
         (utils.ranking_rows "TSPA"
            (Sample.analysis_frame Sample.tie_runs_zeta_first)) "TSPA")
  = [(1%nat, "zeta"); (2%nat, "alpha")].
Proof. repeat split; vm_compute; reflexivity. Qed.

(** C4 fails as stated, whatever the sorting routine does with equal keys:
    the routine sees the column of means only, and the two frames below
    have the same column (10, 10) with the names in opposite orders, so no
    routine ranks both as the specification's tie-breaking demands. *)
Lemma ranking_ties_not_broken :
  ~ exists argsort : list float64 -> list nat,
      sorts
        (argsort (map Mean_Objective
           (utils.ranking_rows "TSPA"
              (Sample.analysis_frame Sample.tie_runs_zeta_first))))
        (map Mean_Objective
           (utils.ranking_rows "TSPA"
              (Sample.analysis_frame Sample.tie_runs_zeta_first))) = true /\
      spec_ordered
        (map snd (utils.instance_ranking argsort
           (utils.ranking_rows "TSPA"
              (Sample.analysis_frame Sample.tie_runs_zeta_first)) "TSPA")) = true /\
      spec_ordered
        (map snd (utils.instance_ranking argsort
           (utils.ranking_rows "TSPA"
              (Sample.analysis_frame Sample.tie_runs_alpha_first)) "TSPA")) = true.
Proof.
  intros (argsort & Hs & H1 & H2).
  unfold utils.instance_ranking, sort_values in H1, H2.
  set (rows1 := utils.ranking_rows "TSPA"
                  (Sample.analysis_frame Sample.tie_runs_zeta_first)) in *.
  set (rows2 := utils.ranking_rows "TSPA"
                  (Sample.analysis_frame Sample.tie_runs_alpha_first)) in *.
  assert (F1 : filter (fun r => String.eqb (Instance r) "TSPA") rows1 = rows1)
    by reflexivity.
  assert (F2 : filter (fun r => String.eqb (Instance r) "TSPA") rows2 = rows2)
    by reflexivity.
  rewrite F1 in H1. rewrite F2 in H2.
  assert (K : map Mean_Objective rows2 = map Mean_Objective rows1)
    by reflexivity.
  rewrite K in H2.
  remember (argsort (map Mean_Objective rows1)) as indexer eqn:E. clear E.
  destruct indexer as [|a [|b [|c r]]]; try discriminate Hs.
  destruct a as [|[|a]], b as [|[|b]]; try discriminate Hs;
    first [ discriminate H1 | discriminate H2 ].
Qed.

(** ** StatisticsAggregator: improvement over the best algorithm *)

(** C8.  In the improvement analysis the algorithms are sorted by mean, the
    first one is the best, and for every other algorithm the percentage is
    [(its mean - best mean) / its mean * 100]: the divisor is that
    algorithm's own mean. *)
Theorem improvement_divides_by_own_mean
    (argsort : list float64 -> list nat) (df_analysis : DataFrame) :
  let means :=
    map (fun g => (fst g, mean (snd g))) (utils.groupby_objective df_analysis) in
  means <> [] ->
  sorts (argsort (map snd means)) (map snd means) = true ->
  exists best others,
    utils.algo_means argsort df_analysis = best :: others /\
    Permutation (best :: others) means /\
    Forall (fun am => fleb (snd best) (snd am) = true) others /\
    utils.improvement_over_best (best :: others)
    = map (fun am =>
             (fst am, fmul (fdiv (fsub (snd am) (snd best)) (snd am)) (Fin 100)))
          others /\
    (forall algo m b,
        In (algo, Fin m) others -> snd best = Fin b -> ~ m == 0 ->
        In (algo, Fin ((m - b) / m * 100))
           (utils.improvement_over_best (best :: others))).
Proof.
  intros means Hne Hs.
  destruct (sort_values_sorted argsort snd means Hs) as [Hperm Hasc].
  unfold utils.algo_means. fold means.
  destruct (sort_values argsort snd means) as [|best others] eqn:E.
  { apply Permutation_nil in Hperm. congruence. }
  exists best, others. split; [reflexivity|]. split; [exact Hperm|].
  split.
  { cbn [map] in Hasc. apply ascending_cons in Hasc as [_ Hall].
    rewrite Forall_map in Hall. exact Hall. }
  split.
  { destruct best as [name best_mean]. reflexivity. }
  intros algo m b Hin Hb Hm.
  destruct best as [name best_mean]. cbn [snd] in Hb. subst best_mean.
  cbn [utils.improvement_over_best].
  apply in_map_iff. exists (algo, Fin m). split; [|exact Hin].
  cbn [fst snd]. f_equal. unfold utils.improvement_percent.
  cbn [fsub fneg fadd fdiv].
  destruct (Qeq_bool m 0) eqn:Em; [apply Qeq_bool_iff in Em; contradiction|].
  reflexivity.
Qed.

(** The scenario of the specification: greedy has mean 95 and is best;
    regret, with mean 110, is credited (110 - 95) / 110 * 100. *)
Lemma improvement_divides_by_own_mean_witness :
  exists q,
    utils.improvement_over_best
      (utils.algo_means stable_argsort (Sample.analysis_frame Sample.runs))
    = [("regret", Fin q)] /\
    q == (110 - 95) / 110 * 100 /\ ~ q == (110 - 95) / 95 * 100.
Proof.
  destruct (improvement_divides_by_own_mean stable_argsort
              (Sample.analysis_frame Sample.runs)
              ltac:(discriminate) ltac:(vm_compute; reflexivity))
    as (best & others & Hrank & _ & _ & Himp & _).
  rewrite Hrank, Himp.
  vm_compute in Hrank. injection Hrank as <- <-.
  eexists. split; [reflexivity|]. split; [reflexivity|].
  vm_compute. discriminate.
Defined.

(** The same through the whole function: what
    [perform_statistical_analysis] prints for the scenario. *)
Example perform_statistical_analysis_prints :
  exists q p,
    filter (fun e => match e with
                     | Improvement _ _ | BestAlgorithm _ _ => true
                     | _ => false
                     end)
      (stdout (snd (utils.perform_statistical_analysis stable_argsort
                      [("TSPA", {| df := 0%nat; viz_data := None;
                                   summary_data := None |})]
                      {| store := [{| records := Sample.runs;
                                      base_algorithm_column := None |}];
                         stdout := []; written := [] |})))
    = [BestAlgorithm "greedy" (Fin q); Improvement "regret" (Fin p)]
    /\ q == 95 /\ p == (110 - 95) / 110 * 100.
Proof.
  eexists. eexists. split; [vm_compute; reflexivity|].
  split; reflexivity.
Qed.

(** ** The store: who writes to whose DataFrame *)

Section Store.

Lemma list_update_end {A} (s : list A) (old new : A) :
  list_update (s ++ [old]) (List.length s) new = (s ++ [new])%list.
Proof. induction s as [|h s IH]; simpl; [reflexivity | now rewrite IH]. Qed.

Lemma list_update_length {A} (s : list A) i a :
  List.length (list_update s i a) = List.length s.
Proof.
  revert i; induction s as [|h s IH]; intros [|i]; simpl; auto.
Qed.

Lemma nth_list_update {A} (s : list A) i j a d :
  nth j (list_update s i a) d
  = if (i =? j)%nat && (i <? List.length s)%nat then a else nth j s d.
Proof.
  revert i j; induction s as [|h s IH]; intros i j.
  - simpl. rewrite andb_false_r. reflexivity.
  - destruct i as [|i], j as [|j]; simpl; try reflexivity.
    rewrite IH. reflexivity.
Qed.

(** What the copy idiom of [utils.py] does: the caller's frame is read, and
    a new frame, with the column [base_algorithm], is added at the end. *)
Lemma copy_with_base_algorithm_run l w :
  let frame := nth l (store w) empty_frame in
  copy_with_base_algorithm l w =
  match records frame with
  | [] =>
      (Raise (KeyError "algorithm"),
       {| store := (store w ++ [frame])%list; stdout := stdout w;
          written := written w |})
  | _ =>
      (Ok (List.length (store w)),
       {| store := (store w ++
            [{| records := records frame;
                base_algorithm_column :=
                  Some (map base_algorithm (map Run.algorithm (records frame))) |}])%list;
          stdout := stdout w; written := written w |})
  end.
Proof.
  intros frame. unfold copy_with_base_algorithm, df_copy, df_algorithm,
    df_set_base_algorithm, df_update, df_read, alloc, bind, ret, raise.
  cbn [store stdout written]. fold frame. rewrite nth_middle.
  destruct (records frame) as [|r rs] eqn:E; [reflexivity|].
  cbn [store stdout written]. rewrite nth_middle, list_update_end, E.
  reflexivity.
Qed.

(** The copy idiom of the table builders: the new frame has its labels
    canonicalised. *)
Lemma copy_with_clean_algorithm_run l w :
  let frame := nth l (store w) empty_frame in
  copy_with_clean_algorithm l w =
  match records frame with
  | [] =>
      (Raise (KeyError "algorithm"),
       {| store := (store w ++ [frame])%list; stdout := stdout w;
          written := written w |})
  | _ =>
      (Ok (List.length (store w)),
       {| store := (store w ++
            [{| records :=
                  map (fun ra => with_algorithm (fst ra) (snd ra))
                      (combine (records frame)
                         (map canonicalize (map Run.algorithm (records frame))));
                base_algorithm_column := base_algorithm_column frame |}])%list;
          stdout := stdout w; written := written w |})
  end.
Proof.
  intros frame. unfold copy_with_clean_algorithm, df_copy, df_algorithm,
    df_set_algorithm, df_update, df_read, alloc, bind, ret, raise.
  cbn [store stdout written]. fold frame. rewrite nth_middle.
  destruct (records frame) as [|r rs] eqn:E; [reflexivity|].
  cbn [store stdout written]. rewrite nth_middle, list_update_end, E.
  reflexivity.
Qed.

Lemma keeps_ret {A} (a : A) : keeps_store (ret a).
Proof. intros w. exists []. cbn. now rewrite app_nil_r. Qed.

Lemma keeps_raise {A} e : keeps_store (@raise A e).
Proof. intros w. exists []. cbn. now rewrite app_nil_r. Qed.

Lemma keeps_lift {A} (r : result A) : keeps_store (lift r).
Proof. intros w. exists []. cbn. now rewrite app_nil_r. Qed.

Lemma keeps_print e : keeps_store (print e).
Proof. intros w. exists []. cbn. now rewrite app_nil_r. Qed.

Lemma keeps_write_file path content : keeps_store (write_file path content).
Proof. intros w. exists []. cbn. now rewrite app_nil_r. Qed.

Lemma keeps_df_read l : keeps_store (df_read l).
Proof. intros w. exists []. cbn. now rewrite app_nil_r. Qed.

Lemma keeps_bind {A B} (m : M A) (k : A -> M B) :
  keeps_store m -> (forall a, keeps_store (k a)) -> keeps_store (bind m k).
Proof.
  intros Hm Hk w. unfold bind. destruct (Hm w) as [more1 H1].
  destruct (m w) as [[a|e] w1]; cbn [snd] in *.
  - destruct (Hk a w1) as [more2 H2]. exists (more1 ++ more2)%list.
    now rewrite H2, H1, app_assoc.
  - now exists more1.
Qed.

Lemma keeps_for_each {A} (xs : list A) (body : A -> M unit) :
  (forall x, keeps_store (body x)) -> keeps_store (for_each xs body).
Proof.
  intros Hb. induction xs as [|x r IH]; cbn [for_each].
  - apply keeps_ret.
  - apply keeps_bind; auto.
Qed.

Lemma keeps_map_m {A B} (f : A -> M B) (xs : list A) :
  (forall x, keeps_store (f x)) -> keeps_store (map_m f xs).
Proof.
  intros Hf. induction xs as [|x r IH]; cbn [map_m].
  - apply keeps_ret.
  - apply keeps_bind; [auto|]. intros b. apply keeps_bind; [auto|].
    intros bs. apply keeps_ret.
Qed.

Lemma keeps_fold_m {A S} (f : S -> A -> M S) (xs : list A) :
  (forall s x, keeps_store (f s x)) -> forall s, keeps_store (fold_m f xs s).
Proof.
  intros Hf. induction xs as [|x r IH]; intros s; cbn [fold_m].
  - apply keeps_ret.
  - apply keeps_bind; auto.
Qed.

Lemma keeps_copy_with_base_algorithm l : keeps_store (copy_with_base_algorithm l).
Proof.
  intros w. rewrite copy_with_base_algorithm_run.
  destruct (records (nth l (store w) empty_frame)); cbn; eexists; reflexivity.
Qed.

Lemma keeps_copy_with_clean_algorithm l : keeps_store (copy_with_clean_algorithm l).
Proof.
  intros w. rewrite copy_with_clean_algorithm_run.
  destruct (records (nth l (store w) empty_frame)); cbn; eexists; reflexivity.
Qed.

End Store.

Section StoreInvariant.

Variable I : list DataFrame -> Prop.

Lemma maintains_ret {A} (a : A) : maintains I (ret a).
Proof. intros w H. exact H. Qed.

Lemma maintains_raise {A} e : maintains I (@raise A e).
Proof. intros w H. exact H. Qed.

Lemma maintains_print e : maintains I (print e).
Proof. intros w H. exact H. Qed.

Lemma maintains_write_file path content : maintains I (write_file path content).
Proof. intros w H. exact H. Qed.

Lemma maintains_df_read l : maintains I (df_read l).
Proof. intros w H. exact H. Qed.

Lemma maintains_bind {A B} (m : M A) (k : A -> M B) :
  maintains I m -> (forall a, maintains I (k a)) -> maintains I (bind m k).
Proof.
  intros Hm Hk w H. unfold bind. specialize (Hm w H).
  destruct (m w) as [[a|e] w1]; cbn [snd] in *; [now apply Hk | exact Hm].
Qed.

Lemma maintains_for_each {A} (xs : list A) (body : A -> M unit) :
  (forall x, maintains I (body x)) -> maintains I (for_each xs body).
Proof.
  intros Hb. induction xs as [|x r IH]; cbn [for_each].
  - apply maintains_ret.
  - apply maintains_bind; auto.
Qed.

End StoreInvariant.

(** What the in-place idiom does to the frame it is given. *)
Lemma add_base_algorithm_run l w :
  let frame := nth l (store w) empty_frame in
  add_base_algorithm l w =
  match records frame with
  | [] => (Raise (KeyError "algorithm"), w)
  | _ =>
      (Ok tt,
       {| store := list_update (store w) l
            {| records := records frame;
               base_algorithm_column :=
                 Some (map base_algorithm (map Run.algorithm (records frame))) |};
          stdout := stdout w; written := written w |})
  end.
Proof.
  intros frame. unfold add_base_algorithm, df_algorithm, df_set_base_algorithm,
    df_update, df_read, bind, ret, raise. fold frame.
  destruct (records frame) as [|r rs] eqn:E; [reflexivity|].
  cbn [store stdout written]. fold frame. rewrite E. reflexivity.
Qed.

Lemma add_base_algorithm_maintains l l' :
  maintains (has_base_algorithm l) (add_base_algorithm l').
Proof.
  intros w [Hlen Hcol]. rewrite add_base_algorithm_run.
  destruct (records (nth l' (store w) empty_frame)); [now split|].
  cbn [snd store]. split; [now rewrite list_update_length|].
  rewrite nth_list_update.
  destruct ((l' =? l)%nat && (l' <? List.length (store w))%nat);
    [discriminate | exact Hcol].
Qed.

Lemma bind_establishes {A B} (I : list DataFrame -> Prop)
    (m : M A) (k : A -> M B) w :
  I (store (snd (m w))) -> (forall a, maintains I (k a)) ->
  I (store (snd (bind m k w))).
Proof.
  intros Hm Hk. unfold bind.
  destruct (m w) as [[a|e] w1]; cbn [snd] in *; [now apply Hk | exact Hm].
Qed.

Ltac maintains_steps :=
  repeat first
    [ apply maintains_write_file | apply maintains_print
    | apply maintains_df_read | apply maintains_ret
    | apply add_base_algorithm_maintains
    | apply maintains_bind; [|intros ?] ].

Lemma export_statistics_summary_maintains l self timestamp data suffix :
  maintains (has_base_algorithm l)
    (utils.VisualizationExporter.export_statistics_summary self timestamp data suffix).
Proof.
  apply maintains_for_each. intros [name inst]. maintains_steps.
Qed.


(** C3 (the code departs from it).  [export_statistics_summary] assigns the
    column [base_algorithm] to the frame the caller holds, not to a copy:
    after the call the first instance's frame has a column it did not have
    before, whatever else the dataset contains. *)
Theorem export_statistics_summary_writes_callers_frame
    (self : utils.VisualizationExporter.t) (timestamp suffix name : string)
    (inst : instance_data) (rest : utils.data) (w : world) :
  (df inst < List.length (store w))%nat ->
  records (nth (df inst) (store w) empty_frame) <> [] ->
  base_algorithm_column (nth (df inst) (store w) empty_frame) = None ->
  let w' := snd (utils.VisualizationExporter.export_statistics_summary
                   self timestamp ((name, inst) :: rest) suffix w) in
  base_algorithm_column (nth (df inst) (store w') empty_frame) <> None /\
  nth (df inst) (store w') empty_frame <> nth (df inst) (store w) empty_frame.
Proof.
  intros Hlen Hrec Hnone w'.
  assert (H : has_base_algorithm (df inst) (store w')).
  { unfold w', utils.VisualizationExporter.export_statistics_summary.
    cbn [for_each]. apply bind_establishes.
    - cbv beta iota. apply bind_establishes; [|intros ?; maintains_steps].
      rewrite add_base_algorithm_run.
      destruct (records (nth (df inst) (store w) empty_frame)) as [|r rs] eqn:E;
        [congruence|].
      cbn [snd store]. split; [now rewrite list_update_length|].
      rewrite nth_list_update, Nat.eqb_refl.
      replace (df inst <? List.length (store w))%nat with true
        by (symmetry; now apply Nat.ltb_lt).
      discriminate.
    - intros _.
      apply (export_statistics_summary_maintains (df inst) self timestamp rest suffix). }
  destruct H as [_ H]. split; [exact H|]. intros E. rewrite E in H. contradiction.
Qed.

(** ** ReportAssembler: the comparison tables *)

Section TableStats.

Import generate_report.

Lemma unique_In a l : In a (unique l) <-> In a l.
Proof.
  induction l as [|x r IH]; simpl; [tauto|].
  rewrite filter_In, IH. destruct (String.eqb_spec x a) as [->|Hne]; simpl.
  - split; auto.
  - split; [intros [H|[H _]]; auto | intros [H|H]; auto].
Qed.

Lemma insert_sorted_In a x l : In a (insert_sorted x l) <-> a = x \/ In a l.
Proof.
  induction l as [|y r IH]; simpl; [intuition|].
  destruct (String.leb x y); simpl; [intuition|]. rewrite IH. intuition.
Qed.

Lemma sorted_In a l : In a (sorted l) <-> In a l.
Proof.
  induction l as [|x r IH]; simpl; [tauto|].
  rewrite insert_sorted_In, IH. intuition.
Qed.

Lemma existsb_eqb_In a l : existsb (String.eqb a) l = true <-> In a l.
Proof.
  rewrite existsb_exists. split.
  - intros (x & Hx & E). apply String.eqb_eq in E. now subst.
  - intros H. exists a. split; [exact H | apply String.eqb_refl].
Qed.

Lemma stats_of_set (stats : algorithm_stats) x v a :
  stats_of (Dict.set String.eqb stats x v) a
  = if String.eqb x a then v else stats_of stats a.
Proof.
  unfold stats_of. rewrite (dict_get_set String.eqb String.eqb_spec).
  destruct (String.eqb x a); reflexivity.
Qed.

Lemma group_get name c algs : forall stats a i,
  Dict.get String.eqb (stats_of (fold_left (group_step name c) algs stats) a) i
  = if String.eqb name i && existsb (String.eqb a) algs
    then Some (c a)
    else Dict.get String.eqb (stats_of stats a) i.
Proof.
  induction algs as [|x r IH]; intros stats a i; cbn [fold_left existsb].
  - now rewrite andb_false_r.
  - rewrite IH. unfold group_step. rewrite stats_of_set.
    rewrite (String.eqb_sym a x).
    destruct (String.eqb_spec x a) as [->|Hxa]; cbn [orb].
    + rewrite (dict_get_set String.eqb String.eqb_spec).
      destruct (String.eqb name i); cbn [andb]; [|reflexivity].
      destruct (existsb (String.eqb a) r); reflexivity.
    + reflexivity.
Qed.

Lemma group_keys name c algs : forall stats a,
  In a (Dict.keys (fold_left (group_step name c) algs stats))
  <-> In a (Dict.keys stats) \/ In a algs.
Proof.
  induction algs as [|x r IH]; intros stats a; cbn [fold_left].
  - simpl. tauto.
  - rewrite IH. unfold group_step.
    rewrite (dict_keys_set String.eqb String.eqb_spec). simpl. intuition.
Qed.

Variable field : Run.t -> Q.
Variable digits : nat.

Lemma collect_stats_step name frame stats :
  collect_stats field digits name (clean_frame frame) stats
  = fold_left (group_step name (cell_of field digits frame)) (unique (labels frame)) stats.
Proof. reflexivity. Qed.

Lemma dict_get_absent {V} (d : Dict.t (K := string) (V := V)) k :
  ~ In k (Dict.keys d) -> Dict.get String.eqb d k = None.
Proof.
  intros H. destruct (Dict.get String.eqb d k) eqn:E; [|reflexivity].
  exfalso. apply H. apply (dict_get_keys String.eqb String.eqb_spec). congruence.
Qed.

Lemma table_loop_get frames : forall stats a i,
  NoDup (map fst frames) ->
  Dict.get String.eqb
    (stats_of (fold_left (fun stats nf =>
                 collect_stats field digits (fst nf) (clean_frame (snd nf)) stats)
               frames stats) a) i
  = match Dict.get String.eqb frames i with
    | Some frame =>
        if existsb (String.eqb a) (labels frame)
        then Some (cell_of field digits frame a)
        else Dict.get String.eqb (stats_of stats a) i
    | None => Dict.get String.eqb (stats_of stats a) i
    end.
Proof.
  induction frames as [|[n f] r IH]; intros stats a i Hnd; [reflexivity|].
  cbn [fold_left fst snd map] in *. inversion Hnd as [|? ? Hn Hr]; subst.
  rewrite (IH _ a i Hr), collect_stats_step, group_get.
  cbn [Dict.get].
  replace (existsb (String.eqb a) (unique (labels f)))
    with (existsb (String.eqb a) (labels f)).
  2:{ apply eq_true_iff_eq. now rewrite !existsb_eqb_In, unique_In. }
  destruct (String.eqb_spec n i) as [->|Hni]; cbn [andb].
  - change (map fst r) with (Dict.keys r) in Hn.
    rewrite (dict_get_absent r i Hn). reflexivity.
  - reflexivity.
Qed.

Lemma table_loop_keys frames : forall stats a,
  In a (Dict.keys (fold_left (fun stats nf =>
                     collect_stats field digits (fst nf) (clean_frame (snd nf)) stats)
                   frames stats))
  <-> In a (Dict.keys stats)
      \/ exists i frame, In (i, frame) frames /\ In a (labels frame).
Proof.
  induction frames as [|[n f] r IH]; intros stats a; cbn [fold_left fst snd].
  - split; [now left | intros [H|(i & fr & [] & _)]; exact H].
  - rewrite IH, collect_stats_step, group_keys, unique_In. split.
    + intros [[H|H]|(i & fr & Hin & Ha)]; auto.
      * right. exists n, f. split; [now left | exact H].
      * right. exists i, fr. split; [now right | exact Ha].
    + intros [H|(i & fr & [E|Hin] & Ha)]; auto.
      * injection E as -> ->. auto.
      * right. exists i, fr. auto.
Qed.

End TableStats.

Section Tables.

Import generate_report.

Variable field : Run.t -> Q.
Variable digits : nat.

(** A statistics cell is never the text ["N/A"]. *)
Lemma stats_cell_not_na xs : stats_cell digits xs <> "N/A".
Proof.
  intros E. apply (f_equal String.length) in E.
  unfold stats_cell in E. rewrite !length_append in E. simpl in E. lia.
Qed.

Lemma dict_get_In {V} (d : Dict.t (K := string) (V := V)) k v :
  NoDup (Dict.keys d) ->
  (Dict.get String.eqb d k = Some v <-> In (k, v) d).
Proof.
  induction d as [|[a b] d IH]; intros Hnd; cbn [Dict.get].
  - split; [discriminate | intros []].
  - inversion Hnd as [|? ? Ha Hd]; subst.
    destruct (String.eqb_spec a k) as [->|Hak].
    + split.
      * intros [= ->]. now left.
      * intros [[= ->]|Hin]; [reflexivity|].
        exfalso. apply Ha. apply in_map_iff. now exists (k, v).
    + rewrite (IH Hd). split; [now right | intros [[= -> _]|H]; [congruence | exact H]].
Qed.

Lemma expected_cell_na frames a i :
  NoDup (map fst frames) ->
  (expected_cell field digits frames a i = "N/A" <-> ~ received frames a i).
Proof.
  intros Hnd. unfold expected_cell, received.
  destruct (Dict.get String.eqb frames i) as [frame|] eqn:E.
  - apply (dict_get_In frames i frame Hnd) in E.
    destruct (existsb (String.eqb a) (labels frame)) eqn:Ex.
    + apply existsb_eqb_In in Ex. split.
      * intros H. now apply stats_cell_not_na in H.
      * intros H. exfalso. apply H. now exists frame.
    + split; [|reflexivity]. intros _ (fr & Hin & Ha).
      apply (dict_get_In frames i fr Hnd) in Hin.
      apply (dict_get_In frames i frame Hnd) in E.
      assert (fr = frame) by congruence. subst.
      apply existsb_eqb_In in Ha. congruence.
  - split; [|reflexivity]. intros _ (fr & Hin & _).
    apply (dict_get_In frames i fr Hnd) in Hin. congruence.
Qed.

(** The rows the code builds are the rows of the specification. *)
Lemma table_rows_expected instances frames :
  NoDup (map fst frames) ->
  table_rows instances (table_stats field digits frames)
  = map (fun a => a :: map (expected_cell field digits frames a) instances)
        (sorted (Dict.keys (table_stats field digits frames))).
Proof.
  intros Hnd. unfold table_rows. apply map_ext. intros a. f_equal.
  apply map_ext. intros i. unfold table_stats.
  rewrite (table_loop_get field digits frames [] a i Hnd). unfold expected_cell.
  destruct (Dict.get String.eqb frames i) as [frame|]; [|reflexivity].
  destruct (existsb (String.eqb a) (labels frame)); reflexivity.
Qed.

Lemma clean_copy_then_read {B C} l (k : DataFrame -> M B) (g : B -> M C) w :
  records (nth l (store w) empty_frame) <> [] ->
  bind (df <- copy_with_clean_algorithm l ;; frame <- df_read df ;; k frame) g w
  = bind (k (clean_frame (nth l (store w) empty_frame))) g
      {| store := (store w ++ [clean_frame (nth l (store w) empty_frame)])%list;
         stdout := stdout w; written := written w |}.
Proof.
  intros Hne. unfold bind. rewrite copy_with_clean_algorithm_run.
  destruct (records (nth l (store w) empty_frame)) as [|x xs] eqn:E;
    [congruence|].
  unfold df_read. cbn [store]. rewrite nth_middle. unfold clean_frame.
  rewrite E. reflexivity.
Qed.

(** The first loop of a table builder, from any statistics collected so
    far: on frames that are in the store and not empty it does not raise,
    reads the caller's frames and leaves them alone. *)
Lemma table_loop_run data : forall stats w,
  (forall name inst, In (name, inst) data ->
     (df inst < List.length (store w))%nat /\
     records (nth (df inst) (store w) empty_frame) <> []) ->
  exists w',
    fold_m (fun stats (item : string * instance_data) =>
        let (instance_name, instance_data) := item in
        df <- copy_with_clean_algorithm (df instance_data) ;;
        frame <- df_read df ;;
        ret (collect_stats field digits instance_name frame stats))
      data stats w
    = (Ok (fold_left (fun stats nf =>
                        collect_stats field digits (fst nf) (clean_frame (snd nf)) stats)
                     (frames_of data (store w)) stats), w') /\
    exists more, store w' = (store w ++ more)%list.
Proof.
  induction data as [|[n inst] r IH]; intros stats w Hok.
  - exists w. split; [reflexivity|]. exists []. now rewrite app_nil_r.
  - cbn [fold_m frames_of map fold_left fst snd].
    destruct (Hok n inst (or_introl eq_refl)) as [Hlt Hne].
    rewrite (clean_copy_then_read (df inst) _ _ w Hne). unfold bind at 1. cbn [ret].
    match goal with |- context [fold_m _ r ?s1 ?w1] =>
      destruct (IH s1 w1) as (w' & Hrun & more & Hmore) end.
    { intros name i Hin. destruct (Hok name i (or_intror Hin)) as [H1 H2].
      cbn [store]. rewrite length_app, app_nth1 by exact H1.
      split; [lia | exact H2]. }
    exists w'. split.
    + rewrite Hrun. cbn [store].
      replace (frames_of r (store w ++ [clean_frame (nth (df inst) (store w) empty_frame)]))
        with (frames_of r (store w)); [reflexivity|].
      unfold frames_of. apply map_ext_in. intros [name i] Hin.
      destruct (Hok name i (or_intror Hin)) as [H1 _].
      cbn [fst snd]. now rewrite app_nth1.
    + exists ([clean_frame (nth (df inst) (store w) empty_frame)] ++ more)%list.
      rewrite Hmore. cbn [store]. now rewrite <- app_assoc.
Qed.

End Tables.

Lemma bind_run {A B} (m : M A) (k : A -> M B) w a w' :
  m w = (Ok a, w') -> bind m k w = k a w'.
Proof. intros H. unfold bind. now rewrite H. Qed.

(** One comparison table (objective values or times), on frames that have
    rows: one row per canonical algorithm received on any loaded instance,
    in sorted order, and in every row one cell per requested instance: the
    statistics of that algorithm's runs on that instance when there are
    any, and the text ["N/A"] exactly when there are none. *)
Lemma comparison_table_cells
    (field : Run.t -> Q) (digits : nat)
    (self : generate_report.TSPReportGenerator.t) (w : world) :
  NoDup (Dict.keys (generate_report.TSPReportGenerator.algorithm_data self)) ->
  (forall name inst,
      In (name, inst) (generate_report.TSPReportGenerator.algorithm_data self) ->
      (df inst < List.length (store w))%nat /\
      records (nth (df inst) (store w) empty_frame) <> []) ->
  let instances := generate_report.TSPReportGenerator.instances self in
  let frames :=
    frames_of (generate_report.TSPReportGenerator.algorithm_data self) (store w) in
  let algorithms := Dict.keys (table_stats field digits frames) in
  (exists w',
    generate_report.TSPReportGenerator.generate_table field digits self w
    = (Ok (join generate_report.nl
             (generate_report.table_lines instances
                (map (fun a => a :: map (expected_cell field digits frames a) instances)
                     (sorted algorithms)))), w')) /\
  (forall a, In a algorithms <-> exists i, received frames a i) /\
  (forall a i, expected_cell field digits frames a i = "N/A"
               <-> ~ received frames a i) /\
  (forall a i, received frames a i ->
     exists frame,
       In (i, frame) frames /\
       expected_cell field digits frames a i
       = generate_report.stats_cell digits
           (map field (select (labels frame) a (records (clean_frame frame))))).
Proof.
  intros Hnd Hok instances frames algorithms.
  assert (Hnf : NoDup (map fst frames)).
  { unfold frames, frames_of. rewrite map_map. exact Hnd. }
  split; [|split; [|split]].
  - destruct (table_loop_run field digits
                (generate_report.TSPReportGenerator.algorithm_data self) [] w Hok)
      as (w' & Hrun & _).
    exists w'. unfold generate_report.TSPReportGenerator.generate_table.
    erewrite bind_run by exact Hrun. cbn [ret]. fold frames. fold instances.
    change (fold_left _ frames []) with (table_stats field digits frames).
    now rewrite (table_rows_expected field digits instances frames Hnf).
  - intros a. unfold algorithms, table_stats. rewrite table_loop_keys.
    unfold received. split.
    + intros [[]|(i & frame & H)]. now exists i, frame.
    + intros (i & frame & H). right. now exists i, frame.
  - intros a i. now apply expected_cell_na.
  - intros a i (frame & Hin & Ha). exists frame. split; [exact Hin|].
    unfold expected_cell.
    rewrite (proj2 (dict_get_In frames i frame Hnf) Hin).
    now rewrite (proj2 (existsb_eqb_In a (labels frame)) Ha).
Qed.

(** The sample of the specification: [TSPA] and [TSPB] requested, data for
    [TSPA] only.  Both rows are there and every [TSPB] cell is ["N/A"]. *)
Example objective_table_sample :
  exists w',
    generate_report.TSPReportGenerator._generate_objective_table
      Sample.generator Sample.loaded
    = (Ok (join generate_report.nl
             ["| Algorithm | TSPA | TSPB |";
              "|---|---|---|";
              "| greedy | 95.00 (90.00 - 100.00) | N/A |";
              "| regret | 110.00 (110.00 - 110.00) | N/A |"]), w').
Proof.
  assert (H1 : NoDup (Dict.keys (generate_report.TSPReportGenerator.algorithm_data
                                   Sample.generator)))
    by (repeat constructor; simpl; tauto).
  assert (H2 : forall name inst,
             In (name, inst) (generate_report.TSPReportGenerator.algorithm_data
                                Sample.generator) ->
             (df inst < List.length (store Sample.loaded))%nat /\
             records (nth (df inst) (store Sample.loaded) empty_frame) <> []).
  { intros name inst [[= <- <-]|[]]. split; [simpl; lia | discriminate]. }
  destruct (proj1 (comparison_table_cells Run.objective_value 2
                     Sample.generator Sample.loaded H1 H2)) as [w' Hrun].
  exists w'. unfold generate_report.TSPReportGenerator._generate_objective_table.
  rewrite Hrun. vm_compute. reflexivity.
Qed.

(** ** The best-solutions export *)

Section BestSolutionsExport.

Variable self : utils.VisualizationExporter.t.
Variables timestamp suffix : string.

Lemma export_loop_ok data : forall w,
  Forall has_best_solution data ->
  exists w',
    utils.VisualizationExporter.export_best_solutions_data self timestamp data suffix w
    = (Ok tt, w') /\
    store w' = store w /\
    written w' = (written w ++ best_solutions_exports self timestamp suffix data)%list.
Proof.
  unfold utils.VisualizationExporter.export_best_solutions_data.
  induction data as [|[name inst] r IH]; intros w Hall.
  - exists w. cbn. now rewrite app_nil_r.
  - inversion Hall as [|? ? Hx Hr]; subst.
    cbn [for_each best_solutions_exports flat_map fst snd].
    destruct (viz_data inst) as [viz|] eqn:Ev.
    + specialize (Hx viz Ev).
      destruct (best_solutions viz) as [|[a first] sols] eqn:Eb; [congruence|].
      cbn [Dict.values map snd].
      unfold bind at 1. unfold bind at 1. cbn [lift utils.index nth_error].
      unfold bind at 1. cbn [write_file print].
      match goal with |- context [for_each r ?body ?w1] =>
        destruct (IH w1 Hr) as (w' & Hrun & Hs & Hw) end.
      exists w'. split; [exact Hrun|]. split; [exact Hs|].
      rewrite Hw. cbn [written]. unfold best_solutions_export.
      rewrite Eb. now rewrite <- app_assoc.
    + unfold bind at 1. cbn [print].
      match goal with |- context [for_each r ?body ?w1] =>
        destruct (IH w1 Hr) as (w' & Hrun & Hs & Hw) end.
      exists w'. split; [exact Hrun|]. split; [exact Hs|].
      rewrite Hw. reflexivity.
Qed.

Lemma for_each_app {A} (xs ys : list A) (body : A -> M unit) w w1 :
  for_each xs body w = (Ok tt, w1) ->
  for_each (xs ++ ys) body w = for_each ys body w1.
Proof.
  revert w; induction xs as [|x r IH]; intros w; cbn [for_each List.app].
  - cbn. now intros [= ->].
  - unfold bind. destruct (body x w) as [[[]|e] w2]; [apply IH | discriminate].
Qed.

End BestSolutionsExport.

(** C10.  [export_best_solutions_data] needs every visualization payload to
    hold at least one best solution.  When they all do, the call returns and
    writes one file per instance with visualization data, whose
    [required_nodes] is the number of selected nodes of the first solution.
    When an instance's payload holds none, the call raises [IndexError] at
    that instance: the files of the instances before it are there, and none
    for it or for those after it. *)
Theorem export_best_solutions_needs_a_solution
    (self : utils.VisualizationExporter.t) (timestamp suffix : string)
    (w : world) :
  (forall data,
     Forall has_best_solution data ->
     exists w',
       utils.VisualizationExporter.export_best_solutions_data
         self timestamp data suffix w = (Ok tt, w') /\
       written w' =
         (written w ++ best_solutions_exports self timestamp suffix data)%list) /\
  (forall before name inst viz after,
     Forall has_best_solution before ->
     viz_data inst = Some viz -> best_solutions viz = [] ->
     exists w',
       utils.VisualizationExporter.export_best_solutions_data
         self timestamp (before ++ (name, inst) :: after)%list suffix w
       = (Raise IndexError, w') /\
       written w' =
         (written w ++ best_solutions_exports self timestamp suffix before)%list).
Proof.
  split.
  - intros data Hall.
    destruct (export_loop_ok self timestamp suffix data w Hall) as (w' & H1 & _ & H2).
    now exists w'.
  - intros before name inst viz after Hall Ev Eb.
    destruct (export_loop_ok self timestamp suffix before w Hall) as (w1 & H1 & _ & H2).
    unfold utils.VisualizationExporter.export_best_solutions_data in *.
    rewrite (for_each_app _ _ _ _ _ H1).
    cbn [for_each]. rewrite Ev, Eb.
    exists w1. split; [reflexivity | exact H2].
Qed.

(** The sample instance exports one file with [required_nodes] = 3; the
    payload without solutions raises and writes nothing. *)
Lemma export_best_solutions_witness :
  (exists w',
     utils.VisualizationExporter.export_best_solutions_data
       Sample.exporter "20250101_120000" Sample.dataset "" Sample.loaded
     = (Ok tt, w') /\
     map (fun f => match snd f with
                   | BestSolutionsJson _ _ _ _ _ metadata =>
                       (fst f, required_nodes metadata)
                   | _ => (fst f, 0%nat)
                   end) (written w')
     = [("results/greedy/TSPA_best_solutions_20250101_120000.json", 3%nat)]) /\
  (exists w',
     utils.VisualizationExporter.export_best_solutions_data
       Sample.exporter "20250101_120000" Sample.dataset_without_solutions ""
       Sample.loaded
     = (Raise IndexError, w') /\ written w' = []).
Proof.
  pose proof (export_best_solutions_needs_a_solution
                Sample.exporter "20250101_120000" "" Sample.loaded) as [Hok Hbad].
  split.
  - destruct (Hok Sample.dataset) as (w' & Hrun & Hw).
    + repeat constructor. intros viz [= <-]. discriminate.
    + exists w'. split; [exact Hrun|]. rewrite Hw. reflexivity.
  - destruct (Hbad [] "TSPA"
               {| df := 0%nat;
                  viz_data := Some {| nodes := Sample.node_list; best_solutions := [] |};
                  summary_data := None |}
               {| nodes := Sample.node_list; best_solutions := [] |} [])
      as (w' & Hrun & Hw); try reflexivity; [constructor|].
    exists w'. split; [exact Hrun | exact Hw].
Defined.

(** ** Who leaves the caller's frames alone *)

(** The scenario: after the export the caller's frame carries the column. *)
Lemma export_statistics_summary_witness :
  base_algorithm_column
    (nth 0 (store (snd (utils.VisualizationExporter.export_statistics_summary
                          Sample.exporter "20250101_120000" Sample.dataset ""
                          Sample.loaded))) empty_frame)
  <> None /\
  nth 0 (store (snd (utils.VisualizationExporter.export_statistics_summary
                       Sample.exporter "20250101_120000" Sample.dataset ""
                       Sample.loaded))) empty_frame
  <> nth 0 (store Sample.loaded) empty_frame.
Proof.
  apply (export_statistics_summary_writes_callers_frame
           Sample.exporter "20250101_120000" "" "TSPA"
           {| df := 0%nat; viz_data := Some Sample.viz; summary_data := None |}
           [] Sample.loaded).
  - simpl. lia.
  - discriminate.
  - reflexivity.
Defined.

Example export_statistics_summary_adds_column :
  base_algorithm_column
    (nth 0 (store (snd (utils.VisualizationExporter.export_statistics_summary
                          Sample.exporter "20250101_120000" Sample.dataset ""
                          Sample.loaded))) empty_frame)
  = Some ["greedy"; "greedy"; "regret"].
Proof. reflexivity. Qed.

(** X3.  [_create_and_save_performance_plot] does the same: the column is
    assigned on the caller's frame. *)
Lemma performance_plot_writes_callers_frame
    (self : utils.VisualizationExporter.t) (name : string) (inst : instance_data)
    (plots_dir suffix timestamp save_format : string) (w : world) :
  (df inst < List.length (store w))%nat ->
  records (nth (df inst) (store w) empty_frame) <> [] ->
  base_algorithm_column
    (nth (df inst)
       (store (snd (utils.VisualizationExporter._create_and_save_performance_plot
                      self name inst plots_dir suffix timestamp save_format w)))
       empty_frame)
  = Some (map base_algorithm
            (map Run.algorithm (records (nth (df inst) (store w) empty_frame)))).
Proof.
  intros Hlt Hne.
  unfold utils.VisualizationExporter._create_and_save_performance_plot.
  unfold bind at 1. rewrite add_base_algorithm_run.
  destruct (records (nth (df inst) (store w) empty_frame)) as [|r rs] eqn:E;
    [congruence|].
  cbn [bind write_file print snd store]. rewrite nth_list_update, Nat.eqb_refl.
  replace (df inst <? List.length (store w))%nat with true
    by (symmetry; now apply Nat.ltb_lt).
  reflexivity.
Qed.

Ltac keeps_steps :=
  repeat first
    [ apply keeps_ret | apply keeps_raise | apply keeps_lift | apply keeps_print
    | apply keeps_write_file | apply keeps_df_read
    | apply keeps_copy_with_base_algorithm
    | apply keeps_copy_with_clean_algorithm
    | apply keeps_for_each; intros ?
    | apply keeps_map_m; intros ?
    | apply keeps_fold_m; intros ? ?
    | apply keeps_bind; [|intros ?]
    | match goal with
      | |- keeps_store (let (_, _) := ?p in _) => destruct p
      | |- keeps_store (match ?x with _ => _ end) => destruct x
      end ].

(** X1.  The analysis helpers, the ranking and the table builders work on
    copies: whatever they do, every frame that was in the store before the
    call is still there, unchanged, at its place. *)
Lemma analysis_helpers_keep_callers_frames
    (argsort : list float64 -> list nat) (data : utils.data)
    (self : generate_report.TSPReportGenerator.t)
    (authors : list string) (title : string) :
  keeps_store (utils.plot_objective_components data) /\
  keeps_store (utils.plot_computation_time data) /\
  keeps_store (utils.create_performance_ranking argsort data) /\
  keeps_store (utils.perform_statistical_analysis argsort data) /\
  keeps_store (generate_report.TSPReportGenerator._generate_objective_table self) /\
  keeps_store (generate_report.TSPReportGenerator._generate_time_table self) /\
  keeps_store (generate_report.TSPReportGenerator.generate_markdown_report
                 self authors title).
Proof.
  assert (Ht : forall field digits,
             keeps_store (generate_report.TSPReportGenerator.generate_table
                            field digits self)).
  { intros field digits.
    unfold generate_report.TSPReportGenerator.generate_table. keeps_steps. }
  repeat split.
  - unfold utils.plot_objective_components. keeps_steps.
  - unfold utils.plot_computation_time. keeps_steps.
  - unfold utils.create_performance_ranking, utils.print_instance_ranking.
    keeps_steps.
  - unfold utils.perform_statistical_analysis. keeps_steps.
  - apply Ht.
  - apply Ht.
  - unfold generate_report.TSPReportGenerator.generate_markdown_report.
    apply keeps_bind; [apply Ht|]. intros ?.
    apply keeps_bind; [apply Ht|]. intros ?. apply keeps_ret.
Qed.

(** ** Further checks on the scenarios of the specification *)

(** X2.  When a figure is drawn, the instance has two different costs and
    every node's gray marker has the interpolated size. *)
Lemma drawn_sizes_interpolate nodes solution_data artists :
  utils.draw_solution nodes solution_data = Ok artists ->
  exists min_cost max_cost others,
    py_min (map Node.cost nodes) = Ok min_cost /\
    py_max (map Node.cost nodes) = Ok max_cost /\
    ~ max_cost == min_cost /\
    artists =
      (flat_map (fun node =>
         [Scatter (Node.x node) (Node.y node) None
            (50 + 200 * (Node.cost node - min_cost) / (max_cost - min_cost)) 1;
          Text (Node.x node) (Node.y node - 50) (str_of_Z (Node.id node))])
         nodes ++ others)%list.
Proof.
  unfold utils.draw_solution.
  destruct (py_max (map Node.cost nodes)) as [mx|] eqn:Hmx; [|discriminate].
  cbn [result_bind].
  destruct (py_min (map Node.cost nodes)) as [mn|] eqn:Hmn; [|discriminate].
  cbn [result_bind].
  destruct nodes as [|n r]; [discriminate|].
  destruct (Qeq_dec mx mn) as [Heq|Hne].
  { cbn [result_map result_bind].
    rewrite (marker_size_equal_extremes _ _ _ Heq). discriminate. }
  match goal with |- result_bind ?g _ = _ -> _ =>
    assert (Hg : g = Ok (map (fun node =>
         [Scatter (Node.x node) (Node.y node) None
            (50 + 200 * (Node.cost node - mn) / (mx - mn)) 1;
          Text (Node.x node) (Node.y node - 50) (str_of_Z (Node.id node))])
         (n :: r))) end.
  { generalize (n :: r). intros l. induction l as [|a l IH]; [reflexivity|].
    cbn [result_map map]. rewrite (marker_size_interpolates _ _ _ Hne).
    cbn [result_bind]. rewrite IH. reflexivity. }
  rewrite Hg. cbn [result_bind].
  match goal with |- result_bind ?g _ = _ -> _ => destruct g as [selected|] end;
    [|discriminate].
  cbn [result_bind].
  match goal with |- result_bind ?g _ = _ -> _ => destruct g as [rc|] end;
    [|discriminate].
  cbn [result_bind].
  match goal with |- result_bind ?g _ = _ -> _ => destruct g as [arrows|] end;
    [|discriminate].
  cbn [result_bind]. intros [= <-].
  exists mn, mx. eexists. repeat split; [exact Hne|].
  rewrite flat_map_concat_map. reflexivity.
Qed.

(** The end-to-end scenario: the three run records fall into the groups
    greedy (two runs, mean 95) and regret (one run, mean 110), and the
    ranking that [create_performance_ranking] prints puts greedy first. *)
Example create_performance_ranking_scenario :
  exists m1 m2,
    filter (fun e => match e with PerformanceRanking _ _ => true | _ => false end)
      (stdout (snd (utils.create_performance_ranking stable_argsort
                      Sample.dataset Sample.loaded)))
    = [PerformanceRanking "TSPA"
         [(1%nat, {| Instance := "TSPA"; Algorithm := "greedy";
                     Mean_Objective := Fin m1;
                     Std_Objective := std [100; 90];
                     Best_Objective := Fin 90; Worst_Objective := Fin 100;
                     Mean_Time_ms := mean [5; 6];
                     Success_Rate := 1; Runs := 2 |});
          (2%nat, {| Instance := "TSPA"; Algorithm := "regret";
                     Mean_Objective := Fin m2;
                     Std_Objective := NaN;
                     Best_Objective := Fin 110; Worst_Objective := Fin 110;
                     Mean_Time_ms := mean [7];
                     Success_Rate := 1; Runs := 1 |})]]
    /\ m1 == 95 /\ m2 == 110.
Proof.
  eexists. eexists. split; [vm_compute; reflexivity|]. split; reflexivity.
Qed.

(** The sample instance: costs 1, 5, 10 and 2 give the sizes 50,
    50 + 200*4/9, 250 and 50 + 200*1/9. *)
Lemma drawn_sizes_witness :
  exists artists others,
    utils.draw_solution Sample.node_list Sample.trace = Ok artists /\
    artists =
      (flat_map (fun node =>
         [Scatter (Node.x node) (Node.y node) None
            (50 + 200 * (Node.cost node - 1) / (10 - 1)) 1;
          Text (Node.x node) (Node.y node - 50) (str_of_Z (Node.id node))])
         Sample.node_list ++ others)%list.
Proof.
  destruct (utils.draw_solution Sample.node_list Sample.trace) as [artists|]
    eqn:Hdraw; [|vm_compute in Hdraw; discriminate].
  destruct (drawn_sizes_interpolate _ _ _ Hdraw)
    as (mn & mx & others & Hmn & Hmx & _ & Ha).
  vm_compute in Hmn. injection Hmn as <-.
  vm_compute in Hmx. injection Hmx as <-.
  exists artists, others. split; [reflexivity | exact Ha].
Defined.

(** The scenario: saving the performance plot leaves the column on the
    caller's frame. *)
Lemma performance_plot_witness :
  base_algorithm_column
    (nth 0
       (store (snd (utils.VisualizationExporter._create_and_save_performance_plot
                      Sample.exporter "TSPA"
                      {| df := 0%nat; viz_data := None; summary_data := None |}
                      "results/greedy/plots" "" "20250101_120000" "png"
                      Sample.loaded)))
       empty_frame)
  = Some ["greedy"; "greedy"; "regret"].
Proof.
  exact (performance_plot_writes_callers_frame Sample.exporter "TSPA"
           {| df := 0%nat; viz_data := None; summary_data := None |}
           "results/greedy/plots" "" "20250101_120000" "png" Sample.loaded
           ltac:(simpl; lia) ltac:(discriminate)).
Defined.

(* ====================================================================== *)
(** * Part II, continued: properties of the rest of the code *)
(* ====================================================================== *)

(** ** The [base_algorithm] column of [utils.py] *)

Section BaseAlgorithm.

Import Regex.

Lemma strip_prefix_before_underscore lit : forall s rest,
  has_underscore lit = false ->
  strip_prefix lit (s ++ String "_" rest)
  = option_map (fun r => r ++ String "_" rest) (strip_prefix lit s).
Proof.
  induction lit as [|a lit IH]; intros s rest Hlit; [reflexivity|].
  cbn [has_underscore] in Hlit. apply orb_false_iff in Hlit as [Ha Hl].
  destruct s as [|c s]; cbn [append strip_prefix].
  - rewrite Ha. reflexivity.
  - destruct (Ascii.eqb a c); [now apply IH | reflexivity].
Qed.

Lemma match_digits_before_underscore s rest :
  match_digits (s ++ String "_" rest) = match_digits s.
Proof.
  induction s as [|c s IH]; [reflexivity|]. cbn [append match_digits].
  now rewrite IH.
Qed.

(** What follows a string from an underscore on does not change a match
    that starts inside it. *)
Lemma match_start_before_underscore s rest :
  s <> "" -> match_start (s ++ String "_" rest) = match_start s.
Proof.
  destruct s as [|c s]; [congruence|]. intros _.
  unfold match_start. cbn [append].
  change (strip_prefix "_start" (String c (s ++ String "_" rest)))
    with (if Ascii.eqb "_" c then strip_prefix "start" (s ++ String "_" rest)
          else None).
  change (strip_prefix "_start" (String c s))
    with (if Ascii.eqb "_" c then strip_prefix "start" s else None).
  destruct (Ascii.eqb "_" c); [|reflexivity].
  rewrite strip_prefix_before_underscore by reflexivity.
  destruct (strip_prefix "start" s) as [r|]; [|reflexivity].
  cbn [option_map]. now rewrite match_digits_before_underscore.
Qed.

Lemma match_digits_le s : (match_digits s <= String.length s)%nat.
Proof.
  induction s as [|c s IH]; simpl; [lia|]. destruct (is_digit c); lia.
Qed.

Lemma match_start_le s n : match_start s = Some n -> (n <= String.length s)%nat.
Proof.
  unfold match_start.
  destruct (strip_prefix "_start" s) as [r|] eqn:E; [|discriminate].
  apply strip_prefix_sound in E. subst s.
  pose proof (match_digits_le r) as Hr.
  destruct (match_digits r) as [|k]; [discriminate|]. intros [= <-].
  rewrite length_append. simpl. lia.
Qed.

Lemma match_start_positive s : match_start s <> Some 0%nat.
Proof.
  unfold match_start. destruct (strip_prefix "_start" s); [|discriminate].
  destruct (match_digits s0); discriminate.
Qed.

(** Scanning a string that is followed by an underscore: the two parts are
    scanned apart. *)
Lemma sub_empty_before_underscore rest : forall p skip,
  (skip <= String.length p)%nat ->
  sub_empty match_start skip (p ++ String "_" rest)
  = sub_empty match_start skip p ++ sub_empty match_start 0 (String "_" rest).
Proof.
  induction p as [|c p IH]; intros skip Hskip.
  - simpl in Hskip. assert (skip = 0%nat) by lia. subst. reflexivity.
  - destruct skip as [|k].
    + change (String c p ++ String "_" rest) with (String c (p ++ String "_" rest)).
      pose proof (match_start_before_underscore (String c p) rest
                    ltac:(discriminate)) as Hm.
      change (String c p ++ String "_" rest)
        with (String c (p ++ String "_" rest)) in Hm.
      destruct (match_start (String c p)) as [[|k]|] eqn:E.
      * now apply match_start_positive in E.
      * rewrite (sub_empty_at_match _ _ _ _ Hm), (sub_empty_at_match _ _ _ _ E).
        apply IH. apply match_start_le in E. simpl in E. lia.
      * rewrite (sub_empty_no_match _ _ _ Hm), (sub_empty_no_match _ _ _ E).
        cbn [append]. now rewrite IH by lia.
    + cbn [append sub_empty]. apply IH. simpl in Hskip. lia.
Qed.

Lemma match_digits_run d r :
  all_digits d = true ->
  match_digits (d ++ r) = (String.length d + match_digits r)%nat.
Proof.
  induction d as [|c d IH]; [reflexivity|]. cbn [all_digits append match_digits].
  intros H. apply andb_true_iff in H as [Hc Hd]. rewrite Hc, (IH Hd). reflexivity.
Qed.

Lemma match_digits_no_digit r : starts_with_digit r = false -> match_digits r = 0%nat.
Proof. destruct r as [|c r]; simpl; [reflexivity | now intros ->]. Qed.

(** An occurrence at the head is dropped as a whole. *)
Lemma base_algorithm_at_occurrence d r :
  d <> "" -> all_digits d = true -> starts_with_digit r = false ->
  base_algorithm ("_start" ++ d ++ r) = base_algorithm r.
Proof.
  intros Hne Hd Hr. unfold base_algorithm.
  assert (Hm : match_start ("_start" ++ d ++ r)
               = Some (S (String.length ("start" ++ d)))).
  { unfold match_start. rewrite strip_prefix_complete, (match_digits_run _ _ Hd),
      (match_digits_no_digit _ Hr).
    destruct d as [|c d]; [congruence|]. simpl. rewrite Nat.add_0_r. reflexivity. }
  assert (E : "_start" ++ d ++ r = String "_" (("start" ++ d) ++ r)) by reflexivity.
  rewrite E in Hm |- *.
  rewrite (sub_empty_at_match _ _ _ _ Hm). apply sub_empty_skip.
Qed.

End BaseAlgorithm.

(** X4.  The [base_algorithm] columns of [utils.py] use the pattern without
    the end anchor: an occurrence of [_start<digits>] is removed wherever it
    stands, and what is before it and what is after it are cleaned on their
    own. *)
Theorem base_algorithm_removes_every_occurrence (before digits after : string) :
  digits <> "" -> all_digits digits = true -> starts_with_digit after = false ->
  base_algorithm (before ++ "_start" ++ digits ++ after)
  = base_algorithm before ++ base_algorithm after.
Proof.
  intros Hne Hd Ha. unfold base_algorithm at 1 2.
  change ("_start" ++ digits ++ after) with (String "_" ("start" ++ digits ++ after)).
  rewrite sub_empty_before_underscore by lia.
  f_equal. now apply base_algorithm_at_occurrence.
Qed.

(** A suffix in the middle of a label goes too. *)
Lemma base_algorithm_removes_witness :
  base_algorithm "foo_start3_bar" = "foo_bar".
Proof.
  exact (base_algorithm_removes_every_occurrence "foo" "3" "_bar"
           ltac:(discriminate) ltac:(reflexivity) ltac:(reflexivity)).
Defined.


Section Canonicalizers.

Import Regex.

Lemma sub_empty_length m : forall s skip,
  (String.length (sub_empty m skip s) <= String.length s - skip)%nat.
Proof.
  induction s as [|c r IH]; intros skip.
  - destruct skip; simpl; lia.
  - destruct skip as [|k].
    + cbn [sub_empty]. destruct (m (String c r)) as [[|k]|].
      * specialize (IH 0%nat). simpl in *. lia.
      * specialize (IH k). simpl in *. lia.
      * specialize (IH 0%nat). simpl in *. lia.
    + cbn [sub_empty]. specialize (IH k). simpl in *. lia.
Qed.

(** Where the anchored pattern matches, the pattern without the anchor
    matches too. *)
Lemma match_start_eos_match_start s n :
  match_start_eos s = Some n -> exists k, match_start s = Some (S k).
Proof.
  intros H. destruct (match_start_eos_sound _ _ H) as (d & tl & -> & _ & Hne & Hd & _).
  unfold match_start. rewrite strip_prefix_complete, (match_digits_run _ _ Hd).
  destruct d as [|c d]; [congruence|]. simpl. eauto.
Qed.

(** A label that [base_algorithm] leaves alone has no match anywhere. *)
Lemma base_algorithm_fixed_head c r :
  base_algorithm (String c r) = String c r ->
  match_start (String c r) = None /\ base_algorithm r = r.
Proof.
  unfold base_algorithm. cbn [sub_empty].
  destruct (match_start (String c r)) as [[|k]|] eqn:E.
  - now apply match_start_positive in E.
  - intros H. apply (f_equal String.length) in H.
    pose proof (sub_empty_length match_start r k). simpl in *. lia.
  - intros [= H]. auto.
Qed.

Lemma base_algorithm_fixed_canonicalize label :
  base_algorithm label = label -> canonicalize label = label.
Proof.
  induction label as [|c r IH]; [reflexivity|]. intros H.
  apply base_algorithm_fixed_head in H as [Hm Hr].
  unfold canonicalize. cbn [sub_empty].
  destruct (match_start_eos (String c r)) as [n|] eqn:E.
  - apply match_start_eos_match_start in E as [k E]. congruence.
  - f_equal. now apply IH.
Qed.

End Canonicalizers.

(** X5.  The ranking of [utils.py] groups runs by [base_algorithm] and the
    tables of the report by [canonicalize]; on the labels the solvers write,
    a name that holds no start suffix followed by one, both give the name,
    and both leave the bare name alone: the two groupings agree. *)
Theorem canonicalizers_agree_on_solver_labels (name digits : string) :
  base_algorithm name = name -> digits <> "" -> all_digits digits = true ->
  base_algorithm (name ++ "_start" ++ digits) = name /\
  canonicalize (name ++ "_start" ++ digits) = name /\
  canonicalize name = name.
Proof.
  intros Hname Hne Hd. split; [|split].
  - replace (name ++ "_start" ++ digits) with (name ++ "_start" ++ digits ++ "")
      by now rewrite append_empty_r.
    unfold base_algorithm at 1.
    change ("_start" ++ digits ++ "") with (String "_" ("start" ++ digits ++ "")).
    rewrite sub_empty_before_underscore by lia.
    change (base_algorithm name ++ base_algorithm ("_start" ++ digits ++ "") = name).
    rewrite base_algorithm_at_occurrence by auto.
    rewrite Hname. apply append_empty_r.
  - rewrite (canonicalize_strips (name ++ "_start" ++ digits) name "").
    + apply append_empty_r.
    + exists digits. rewrite append_empty_r. auto.
  - now apply base_algorithm_fixed_canonicalize.
Qed.

(** The label of the twelfth start of [two_opt]. *)
Lemma canonicalizers_agree_witness :
  base_algorithm "two_opt_start12" = "two_opt" /\
  canonicalize "two_opt_start12" = "two_opt" /\
  canonicalize "two_opt" = "two_opt".
Proof.
  exact (canonicalizers_agree_on_solver_labels "two_opt" "12"
           ltac:(reflexivity) ltac:(discriminate) ltac:(reflexivity)).
Defined.


(** ** What [load_all_algorithm_results] returns *)

Section DictOrder.

Context {K V : Type} (eqb : K -> K -> bool).
Hypothesis eqb_spec : forall a b, reflect (a = b) (eqb a b).

Lemma dict_keys_set_old (d : Dict.t (K := K) (V := V)) k v :
  In k (Dict.keys d) -> Dict.keys (Dict.set eqb d k v) = Dict.keys d.
Proof.
  induction d as [|[a b] d IH]; simpl; [contradiction|].
  intros H. destruct (eqb_spec a k) as [->|Hak]; simpl; [reflexivity|].
  f_equal. apply IH. destruct H; [contradiction | assumption].
Qed.

Lemma dict_keys_set_new (d : Dict.t (K := K) (V := V)) k v :
  ~ In k (Dict.keys d) -> Dict.keys (Dict.set eqb d k v) = (Dict.keys d ++ [k])%list.
Proof.
  induction d as [|[a b] d IH]; simpl; [reflexivity|].
  intros H. destruct (eqb_spec a k) as [->|Hak]; simpl; [tauto|].
  f_equal. apply IH. tauto.
Qed.

Lemma dict_set_NoDup (d : Dict.t (K := K) (V := V)) k v :
  NoDup (Dict.keys d) -> NoDup (Dict.keys (Dict.set eqb d k v)).
Proof.
  intros H.
  assert (Hdec : In k (Dict.keys d) \/ ~ In k (Dict.keys d)).
  { destruct (Dict.get eqb d k) eqn:E.
    - left. apply (dict_get_keys eqb eqb_spec). congruence.
    - right. intros Hin. apply (dict_get_keys eqb eqb_spec) in Hin. congruence. }
  destruct Hdec as [Hin|Hout].
  - now rewrite dict_keys_set_old.
  - rewrite dict_keys_set_new by assumption.
    apply NoDup_app; [assumption | repeat constructor; auto |].
    intros x Hx [<-|[]]. contradiction.
Qed.

End DictOrder.


Section LoaderFrames.

Import utils.

Variable fs : FileSystem.
Variable algorithm_folder : string.

(** A results file that is there gives one new frame at the end of the
    store, and nothing is written. *)
Lemma load_present_store instance results_data w :
  results_at fs (results_path instance algorithm_folder) = Some results_data ->
  exists w',
    load_algorithm_results fs instance algorithm_folder w
    = (Ok (Some (List.length (store w)),
           visualization_at fs (viz_path instance algorithm_folder),
           summary_at fs (summary_path instance algorithm_folder)), w') /\
    store w' = (store w
                ++ [{| records := results_data; base_algorithm_column := None |}])%list /\
    written w' = written w.
Proof.
  intros H. unfold load_algorithm_results. rewrite H.
  unfold bind, DataFrame_new, alloc, print, ret. cbn.
  destruct results_data as [|r rs]; cbn; eexists; repeat split.
Qed.

Lemma loaded_from_grows s more instance e :
  loaded_from fs algorithm_folder s instance e ->
  loaded_from fs algorithm_folder (s ++ more) instance e.
Proof.
  intros (rs & H1 & H2 & H3 & H4 & H5). exists rs.
  rewrite length_app, app_nth1 by assumption. repeat split; auto. lia.
Qed.

(** What the loop of [load_all_algorithm_results] keeps true of the mapping
    built so far and of the store: no instance twice, every entry holding
    what is on disk in a frame of its own, allocated after the first [n]. *)
Let loaded_invariant (n : nat) (all_data : data) (w : world) : Prop :=
  NoDup (Dict.keys all_data) /\
  (forall i e, Dict.get String.eqb all_data i = Some e ->
     (n <= df e)%nat /\ loaded_from fs algorithm_folder (store w) i e) /\
  (forall i j e e',
     Dict.get String.eqb all_data i = Some e ->
     Dict.get String.eqb all_data j = Some e' -> df e = df e' -> i = j).

Lemma load_loop_frames n instances : forall all_data w all_data' w',
  fold_m (fun all_data instance =>
            loaded <- load_algorithm_results fs instance algorithm_folder ;;
            match loaded with
            | (Some df, viz_data, summary_data) =>
                ret (Dict.set String.eqb all_data instance
                       {| df := df; viz_data := viz_data;
                          summary_data := summary_data |})
            | (None, _, _) => ret all_data
            end) instances all_data w
  = (Ok all_data', w') ->
  (n <= List.length (store w))%nat ->
  loaded_invariant n all_data w ->
  loaded_invariant n all_data' w' /\
  written w' = written w /\
  exists more, store w' = (store w ++ more)%list.
Proof.
  induction instances as [|x r IH]; intros all_data w all_data' w' Hrun Hn Hinv.
  - cbn in Hrun. injection Hrun as <- <-.
    split; [exact Hinv|]. split; [reflexivity|].
    exists []. now rewrite app_nil_r.
  - cbn [fold_m] in Hrun. unfold bind at 1 in Hrun. unfold bind at 1 in Hrun.
    destruct (results_at fs (results_path x algorithm_folder)) as [rs|] eqn:Hx.
    + destruct (load_present_store x rs w Hx) as (w1 & E & Hs & Hw).
      rewrite E in Hrun. cbn [ret] in Hrun.
      destruct Hinv as (Hnd & Hentries & Hinj).
      apply IH in Hrun.
      * destruct Hrun as (Hinv' & Hw' & more & Hs').
        split; [exact Hinv'|]. split; [congruence|].
        rewrite Hs' , Hs, <- app_assoc. eauto.
      * rewrite Hs, length_app. simpl. lia.
      * split; [now apply (dict_set_NoDup String.eqb String.eqb_spec)|]. split.
        -- intros i e. rewrite (dict_get_set String.eqb String.eqb_spec).
           destruct (String.eqb_spec x i) as [->|Hxi].
           ++ intros [= <-]. cbn [df]. split; [exact Hn|].
              exists rs. cbn [df viz_data summary_data].
              rewrite Hs, length_app, nth_middle. cbn.
              repeat split; auto. lia.
           ++ intros He. destruct (Hentries i e He) as [H1 H2].
              split; [exact H1|]. rewrite Hs. now apply loaded_from_grows.
        -- intros i j e e'. rewrite !(dict_get_set String.eqb String.eqb_spec).
           destruct (String.eqb_spec x i) as [Exi|Hxi];
             destruct (String.eqb_spec x j) as [Exj|Hxj]; [congruence| | |].
           ++ intros [= <-] He'. cbn [df].
              destruct (Hentries j e' He') as (_ & ? & _ & Hlt & _). lia.
           ++ intros He [= <-]. cbn [df].
              destruct (Hentries i e He) as (_ & ? & _ & Hlt & _). lia.
           ++ apply Hinj.
    + rewrite (load_absent fs algorithm_folder x w Hx) in Hrun. cbn [ret] in Hrun.
      apply IH in Hrun; [exact Hrun | exact Hn | exact Hinv].
Qed.

End LoaderFrames.

(** X6.  What [load_all_algorithm_results] returns holds what is on disk: the
    call never raises and writes no file; every entry of the mapping has a
    frame that the call created, with exactly the run records of the
    instance's results file, and the optional visualization and summary
    files as they are; two instances never share a frame, so a later change
    of one instance's frame cannot reach another's; no instance is twice in
    the mapping, though it may be requested twice; and the frames that were
    there before are as they were. *)
Theorem load_all_algorithm_results_round_trip
    (fs : FileSystem) (algorithm_folder : string)
    (requested : option (list string)) (w : world) :
  exists all_data w',
    utils.load_all_algorithm_results fs algorithm_folder requested w
      = (Ok all_data, w') /\
    written w' = written w /\
    (forall l, (l < List.length (store w))%nat ->
       nth l (store w') empty_frame = nth l (store w) empty_frame) /\
    NoDup (Dict.keys all_data) /\
    (forall i e, Dict.get String.eqb all_data i = Some e ->
       (List.length (store w) <= df e)%nat /\
       loaded_from fs algorithm_folder (store w') i e) /\
    (forall i j e e',
       Dict.get String.eqb all_data i = Some e ->
       Dict.get String.eqb all_data j = Some e' -> df e = df e' -> i = j).
Proof.
  unfold utils.load_all_algorithm_results.
  set (instances := match requested with
                    | None => utils.default_instances
                    | Some l => l
                    end).
  destruct (load_loop fs algorithm_folder instances [] w)
    as (all_data & w' & Hrun & _).
  exists all_data, w'. split; [exact Hrun|].
  apply (load_loop_frames fs algorithm_folder (List.length (store w))) in Hrun.
  - destruct Hrun as ((Hnd & Hentries & Hinj) & Hw & more & Hs).
    repeat split; auto.
    + intros l Hl. now rewrite Hs, app_nth1.
    + now apply (Hentries i e).
    + now apply (Hentries i e).
  - lia.
  - repeat split; [constructor | discriminate | discriminate | discriminate].
Qed.


(** ** A results file without runs *)

Section EmptyFrames.

Import generate_report.

Variable field : Run.t -> Q.
Variable digits : nat.

(** The first loop of a table builder stops with [KeyError] at the first
    frame that has no rows; it has printed and written nothing. *)
Lemma table_loop_raises data : forall stats w,
  (forall name inst, In (name, inst) data -> (df inst < List.length (store w))%nat) ->
  (exists name inst, In (name, inst) data /\
     records (nth (df inst) (store w) empty_frame) = []) ->
  exists w',
    fold_m (fun stats (item : string * instance_data) =>
        let (instance_name, instance_data) := item in
        df <- copy_with_clean_algorithm (df instance_data) ;;
        frame <- df_read df ;;
        ret (collect_stats field digits instance_name frame stats))
      data stats w
    = (Raise (KeyError "algorithm"), w') /\
    stdout w' = stdout w /\ written w' = written w.
Proof.
  induction data as [|[n inst] r IH]; intros stats w Hlt (name & i & Hin & Hempty).
  - destruct Hin.
  - cbn [fold_m].
    destruct (records (nth (df inst) (store w) empty_frame)) as [|x xs] eqn:E.
    + unfold bind at 1. unfold bind at 1.
      pose proof (copy_with_clean_algorithm_run (df inst) w) as Hrun.
      cbv zeta in Hrun. rewrite E in Hrun. rewrite Hrun.
      eexists. split; [reflexivity|]. split; reflexivity.
    + rewrite (clean_copy_then_read (df inst) _ _ w) by congruence.
      unfold bind at 1. cbn [ret].
      match goal with |- context [fold_m _ r ?s1 ?w1] =>
        destruct (IH s1 w1) as (w' & Hrun & Ho & Hw) end.
      * intros name' i' Hin'. cbn [store]. rewrite length_app.
        specialize (Hlt name' i' (or_intror Hin')). lia.
      * destruct Hin as [[= -> ->]|Hin]; [congruence|].
        exists name, i. split; [exact Hin|]. cbn [store].
        rewrite app_nth1; [exact Hempty|]. exact (Hlt name i (or_intror Hin)).
      * exists w'. split; [exact Hrun|]. split; [exact Ho | exact Hw].
Qed.

Lemma generate_table_raises self w :
  (forall name inst, In (name, inst) (TSPReportGenerator.algorithm_data self) ->
     (df inst < List.length (store w))%nat) ->
  (exists name inst, In (name, inst) (TSPReportGenerator.algorithm_data self) /\
     records (nth (df inst) (store w) empty_frame) = []) ->
  exists w',
    TSPReportGenerator.generate_table field digits self w
    = (Raise (KeyError "algorithm"), w') /\
    stdout w' = stdout w /\ written w' = written w.
Proof.
  intros Hlt Hempty.
  destruct (table_loop_raises _ [] w Hlt Hempty) as (w' & Hrun & Ho & Hw).
  exists w'. unfold TSPReportGenerator.generate_table, bind at 1.
  rewrite Hrun. auto.
Qed.

End EmptyFrames.

(** X7.  A results file whose list of runs is empty passes the constructor
    and breaks the report: when one requested instance has such a file, the
    constructor returns a generator (the mapping is not empty), and then
    each of the two tables, and with them [generate_markdown_report], raises
    [KeyError('algorithm')], having printed and written nothing, whatever
    the other instances hold. *)
Theorem empty_results_file_breaks_the_report
    (fs : FileSystem) (algorithm_folder output_dir : string)
    (requested : option (list string)) (authors : list string) (title : string)
    (w : world) (instance : string) :
  In instance (generate_report.TSPReportGenerator.instances_or_default requested) ->
  results_at fs (utils.results_path instance algorithm_folder) = Some [] ->
  exists self w1,
    generate_report.TSPReportGenerator.__init__ fs algorithm_folder requested
      output_dir w = (Ok self, w1) /\
    (forall field digits, exists w2,
       generate_report.TSPReportGenerator.generate_table field digits self w1
       = (Raise (KeyError "algorithm"), w2) /\
       stdout w2 = stdout w1 /\ written w2 = written w) /\
    exists w2,
      generate_report.TSPReportGenerator.generate_markdown_report self authors
        title w1 = (Raise (KeyError "algorithm"), w2) /\
      stdout w2 = stdout w1 /\ written w2 = written w.
Proof.
  intros Hin Hfile.
  set (instances := generate_report.TSPReportGenerator.instances_or_default requested)
    in *.
  destruct (load_loop fs algorithm_folder instances [] w)
    as (all_data & w1 & Hrun & _ & Hkeys & _).
  pose proof (load_loop_frames fs algorithm_folder 0 instances [] w all_data w1 Hrun
                ltac:(lia)) as Hframes.
  destruct Hframes as ((Hnd & Hentries & _) & Hw & _).
  { repeat split; [constructor | discriminate | discriminate | discriminate]. }
  assert (Hkey : In instance (Dict.keys all_data)).
  { apply Hkeys. right. split; [exact Hin|]. unfold utils.present. congruence. }
  apply (dict_get_keys String.eqb String.eqb_spec) in Hkey.
  destruct (Dict.get String.eqb all_data instance) as [e|] eqn:He; [|congruence].
  destruct (Hentries instance e He) as (_ & rs & Hrs & Hlt & Hframe & _).
  assert (rs = []) by congruence. subst rs.
  set (self := {| generate_report.TSPReportGenerator.algorithm_folder := algorithm_folder;
                  generate_report.TSPReportGenerator.instances := instances;
                  generate_report.TSPReportGenerator.output_dir := output_dir;
                  generate_report.TSPReportGenerator.algorithm_data := all_data;
                  generate_report.TSPReportGenerator.visualizations := [] |}).
  assert (Hall : forall name inst, In (name, inst) all_data ->
                   (df inst < List.length (store w1))%nat).
  { intros name inst H. apply (dict_get_In all_data name inst Hnd) in H.
    destruct (Hentries name inst H) as (_ & ? & _ & Hl & _). exact Hl. }
  assert (Hex : exists name inst, In (name, inst) all_data /\
                  records (nth (df inst) (store w1) empty_frame) = []).
  { exists instance, e. split; [now apply (dict_get_In all_data instance e Hnd)|].
    now rewrite Hframe. }
  assert (Htable : forall field digits, exists w2,
            generate_report.TSPReportGenerator.generate_table field digits self w1
            = (Raise (KeyError "algorithm"), w2) /\
            stdout w2 = stdout w1 /\ written w2 = written w).
  { intros field digits.
    destruct (generate_table_raises field digits self w1 Hall Hex)
      as (w2 & H1 & H2 & H3).
    exists w2. repeat split; congruence. }
  exists self, w1. split; [|split; [exact Htable|]].
  - unfold generate_report.TSPReportGenerator.__init__. fold instances.
    change (utils.load_all_algorithm_results fs algorithm_folder (Some instances))
      with (fold_m (fun all_data instance =>
              loaded <- utils.load_algorithm_results fs instance algorithm_folder ;;
              match loaded with
              | (Some df, viz_data, summary_data) =>
                  ret (Dict.set String.eqb all_data instance
                         {| df := df; viz_data := viz_data;
                            summary_data := summary_data |})
              | (None, _, _) => ret all_data
              end) instances []).
    rewrite (bind_run _ _ _ _ _ Hrun).
    destruct all_data as [|x r]; [discriminate He | reflexivity].
  - destruct (Htable Run.objective_value 2%nat) as (w2 & H1 & H2 & H3).
    exists w2. split; [|split; assumption].
    unfold generate_report.TSPReportGenerator.generate_markdown_report,
      generate_report.TSPReportGenerator._generate_objective_table, bind at 1.
    now rewrite H1.
Qed.

(** The sample file system with the runs of [TSPA] taken away. *)
Lemma empty_results_file_witness :
  exists self w1,
    generate_report.TSPReportGenerator.__init__
      {| results_at := fun p =>
           if String.eqb p (utils.results_path "TSPA" "greedy") then Some []
           else None;
         visualization_at := fun _ => None;
         summary_at := fun _ => None |}
      "greedy" None "out" Sample.start = (Ok self, w1) /\
    (forall field digits, exists w2,
       generate_report.TSPReportGenerator.generate_table field digits self w1
       = (Raise (KeyError "algorithm"), w2) /\
       stdout w2 = stdout w1 /\ written w2 = written Sample.start) /\
    exists w2,
      generate_report.TSPReportGenerator.generate_markdown_report self [] "T" w1
      = (Raise (KeyError "algorithm"), w2) /\
      stdout w2 = stdout w1 /\ written w2 = written Sample.start.
Proof.
  apply (empty_results_file_breaks_the_report _ "greedy" "out" None [] "T"
           Sample.start "TSPA").
  - simpl. auto.
  - reflexivity.
Defined.


(** ** [generate_visualizations] *)

Section Visualizations.

Import generate_report.
Import TSPReportGenerator.

Lemma dict_set_set {V} (d : Dict.t (K := string) (V := V)) k a b :
  Dict.set String.eqb (Dict.set String.eqb d k a) k b = Dict.set String.eqb d k b.
Proof.
  induction d as [|[k' v'] d IH]; cbn [Dict.set].
  - now rewrite String.eqb_refl.
  - destruct (String.eqb k' k) eqn:E; cbn [Dict.set]; rewrite E; [reflexivity|].
    now rewrite IH.
Qed.

(** [self] after the references [vs] were appended under [i]. *)
Let add_entries (self : t) (i : string) (vs : list visualization) : t :=
  match vs with
  | [] => self
  | _ => {| algorithm_folder := algorithm_folder self;
            instances := instances self;
            output_dir := output_dir self;
            algorithm_data := algorithm_data self;
            visualizations :=
              Dict.set String.eqb (visualizations self) i
                (entries_of self i ++ vs)%list |}
  end.

Let updated (self : t) (i : string) (vs : list visualization)
  : option (list visualization) :=
  match vs with
  | [] => Dict.get String.eqb (visualizations self) i
  | _ => Some (entries_of self i ++ vs)%list
  end.

Lemma get_add_entries self n vs i :
  Dict.get String.eqb (visualizations (add_entries self n vs)) i
  = if String.eqb n i then updated self n vs
    else Dict.get String.eqb (visualizations self) i.
Proof.
  destruct vs as [|v vs]; cbn [add_entries updated visualizations].
  - destruct (String.eqb_spec n i) as [->|]; reflexivity.
  - apply (dict_get_set String.eqb String.eqb_spec).
Qed.

Lemma add_entries_fields self n vs :
  algorithm_folder (add_entries self n vs) = algorithm_folder self /\
  instances (add_entries self n vs) = instances self /\
  output_dir (add_entries self n vs) = output_dir self /\
  algorithm_data (add_entries self n vs) = algorithm_data self.
Proof. destruct vs; repeat split. Qed.

Lemma add_entries_cons self n v vs :
  add_entries (add_entries self n [v]) n vs = add_entries self n (v :: vs).
Proof.
  destruct vs as [|v' vs]; [reflexivity|].
  cbn [add_entries algorithm_folder instances output_dir algorithm_data
       visualizations].
  f_equal. rewrite dict_set_set. f_equal.
  unfold entries_of at 1. cbn [visualizations].
  rewrite (dict_get_set String.eqb String.eqb_spec), String.eqb_refl.
  now rewrite <- app_assoc.
Qed.

Lemma images_dir_add_entries self n vs :
  images_dir (add_entries self n vs) = images_dir self.
Proof. destruct vs; reflexivity. Qed.

(** One picture: the figure is written and its reference stored. *)
Lemma create_solution_plot_run self i entry vd w :
  drawable (nodes vd) (snd entry) ->
  exists content,
    _create_solution_plot self i (fst entry) (snd entry) vd w
    = (Ok (add_entries self i [visualization_entry i entry]),
       {| store := store w; stdout := stdout w;
          written := (written w ++
            [(path_join (images_dir self) (viz_filename (visualization_entry i entry)),
              content)])%list |}).
Proof.
  intros (H1 & H2 & H3 & H4).
  destruct (draw_solution_returns (nodes vd) (snd entry) H1 H2 H3 H4) as [artists Hd].
  unfold _create_solution_plot, bind, lift, write_file, ret. rewrite Hd.
  eexists. reflexivity.
Qed.

(** The loop over the best solutions of one instance. *)
Lemma plots_loop i vd sols : forall self w,
  (forall entry, In entry sols -> drawable (nodes vd) (snd entry)) ->
  exists files,
    fold_m (fun self (entry : string * Sol.t) =>
              _create_solution_plot self i (fst entry) (snd entry) vd)
           sols self w
    = (Ok (add_entries self i (map (visualization_entry i) sols)),
       {| store := store w; stdout := stdout w;
          written := (written w ++ files)%list |}) /\
    map fst files
    = map (fun entry => path_join (images_dir self)
                          (viz_filename (visualization_entry i entry))) sols.
Proof.
  induction sols as [|e r IH]; intros self w Hok.
  - exists []. cbn. rewrite app_nil_r. destruct w; auto.
  - cbn [fold_m]. unfold bind at 1.
    destruct (create_solution_plot_run self i e vd w (Hok e (or_introl eq_refl)))
      as [content ->].
    match goal with |- context [fold_m _ r ?s1 ?w1] =>
      destruct (IH s1 w1) as (files & -> & Hfiles) end.
    { intros entry Hin. apply Hok. now right. }
    exists ((path_join (images_dir self) (viz_filename (visualization_entry i e)),
             content) :: files).
    cbn [store stdout written map fst]. rewrite <- app_assoc. split.
    + now rewrite add_entries_cons.
    + f_equal. exact Hfiles.
Qed.

(** What the loop over the instances leaves in [self.visualizations]. *)
Let expected (data : utils.data) (self : t) (i : string)
  : option (list visualization) :=
  match Dict.get String.eqb data i with
  | Some inst => updated self i (map (visualization_entry i) (solutions_of inst))
  | None => Dict.get String.eqb (visualizations self) i
  end.

Lemma images_linked_more self files more :
  images_linked self files -> images_linked self (files ++ more).
Proof.
  intros H i entries v Hg Hv. rewrite map_app. apply in_or_app. left. eauto.
Qed.

Lemma visualizations_loop data : forall self w,
  NoDup (Dict.keys data) ->
  (forall i inst entry, In (i, inst) data -> In entry (solutions_of inst) ->
     match viz_data inst with
     | Some vd => drawable (nodes vd) (snd entry)
     | None => True
     end) ->
  images_linked self (written w) ->
  exists self' w',
    fold_m (fun self (item : string * instance_data) =>
      let (instance_name, instance_data) := item in
      match viz_data instance_data with
      | None =>
          print (Line ("  No visualization data available for " ++ instance_name)) ;;;
          ret self
      | Some viz_data =>
          print (Line ("  Creating visualizations for " ++ instance_name ++ "...")) ;;;
          fold_m (fun self (entry : string * Sol.t) =>
                    _create_solution_plot self instance_name (fst entry)
                      (snd entry) viz_data)
                 (best_solutions viz_data) self
      end) data self w = (Ok self', w') /\
    store w' = store w /\
    (algorithm_folder self' = algorithm_folder self /\
     instances self' = instances self /\
     output_dir self' = output_dir self /\
     algorithm_data self' = algorithm_data self) /\
    (forall i, Dict.get String.eqb (visualizations self') i = expected data self i) /\
    images_linked self' (written w').
Proof.
  induction data as [|[n inst] r IH]; intros self w Hnd Hok Hlinked.
  - exists self, w. cbn. repeat split; auto.
  - cbn [Dict.keys map fst] in Hnd. inversion Hnd as [|? ? Hn Hr]; subst.
    cbn [fold_m]. unfold bind at 1.
    assert (Hrest : forall self1,
              (forall i, i <> n -> Dict.get String.eqb (visualizations self1) i
                                   = Dict.get String.eqb (visualizations self) i) ->
              forall i, i <> n -> expected r self1 i = expected ((n, inst) :: r) self i).
    { intros self1 Hsame i Hi. unfold expected. cbn [Dict.get].
      destruct (String.eqb_spec n i) as [->|_]; [congruence|].
      unfold updated, entries_of. rewrite (Hsame i Hi). reflexivity. }
    assert (Hhead : forall self1, Dict.get String.eqb r n = None ->
              expected r self1 n = Dict.get String.eqb (visualizations self1) n).
    { intros self1 H. unfold expected. now rewrite H. }
    pose proof (dict_get_absent r n Hn) as Habsent.
    destruct (viz_data inst) as [vd|] eqn:Hvd.
    + unfold bind at 1. unfold print at 1.
      match goal with |- context [fold_m _ (best_solutions vd) self ?w0] =>
        destruct (plots_loop n vd (best_solutions vd) self w0)
          as (files & -> & Hfiles) end.
      { intros entry Hin. specialize (Hok n inst entry (or_introl eq_refl)).
        unfold solutions_of in Hok. rewrite Hvd in Hok. now apply Hok. }
      cbn [store stdout written].
      set (vs := map (visualization_entry n) (best_solutions vd)) in *.
      match goal with |- context [fold_m _ r ?s1 ?w1] =>
        destruct (IH s1 w1 Hr) as (self' & w' & -> & Hs & Hf & Hget & Hl) end.
      { intros i inst' entry Hin. apply (Hok i). now right. }
      { intros i entries v Hg Hv. cbn [written]. rewrite map_app, Hfiles.
        rewrite images_dir_add_entries. rewrite get_add_entries in Hg.
        destruct (String.eqb_spec n i) as [<-|Hni].
        - unfold updated in Hg. destruct vs as [|v0 vs0] eqn:Evs.
          + apply in_or_app. left. eapply Hlinked; eauto.
          + injection Hg as <-. apply in_app_or in Hv as [Hv|Hv].
            * apply in_or_app. left. unfold entries_of in Hv.
              destruct (Dict.get String.eqb (visualizations self) n) as [E|] eqn:HE;
                [|destruct Hv].
              eapply Hlinked; eauto.
            * apply in_or_app. right. rewrite <- Evs in Hv. unfold vs in Hv.
              apply in_map_iff in Hv as (entry & <- & Hentry).
              destruct (add_entries_fields self n (v0 :: vs0)) as (_ & _ & Ho & _).
              apply in_map_iff. exists entry. split; [|exact Hentry].
              reflexivity.
        - apply in_or_app. left. eapply Hlinked; eauto. }
      exists self', w'. split; [reflexivity|]. split; [exact Hs|].
      destruct (add_entries_fields self n vs) as (F1 & F2 & F3 & F4).
      destruct Hf as (G1 & G2 & G3 & G4).
      split; [repeat split; congruence|]. split; [|exact Hl].
      intros i. rewrite Hget. destruct (String.eqb_spec i n) as [->|Hi].
      * rewrite (Hhead _ Habsent), get_add_entries, String.eqb_refl.
        unfold expected. cbn [Dict.get]. rewrite String.eqb_refl.
        unfold solutions_of. now rewrite Hvd.
      * apply Hrest; [|exact Hi]. intros j Hj. rewrite get_add_entries.
        destruct (String.eqb_spec n j); [congruence | reflexivity].
    + unfold bind at 1. unfold print at 1. cbn [ret].
      match goal with |- context [fold_m _ r self ?w1] =>
        destruct (IH self w1 Hr) as (self' & w' & -> & Hs & Hf & Hget & Hl) end.
      { intros i inst' entry Hin. apply (Hok i). now right. }
      { exact Hlinked. }
      exists self', w'. split; [reflexivity|]. split; [exact Hs|].
      split; [exact Hf|]. split; [|exact Hl].
      intros i. rewrite Hget. destruct (String.eqb_spec i n) as [->|Hi].
      * rewrite (Hhead _ Habsent). unfold expected. cbn [Dict.get].
        rewrite String.eqb_refl. unfold solutions_of. now rewrite Hvd.
      * apply Hrest; [auto | exact Hi].
Qed.

End Visualizations.


(** [generate_visualizations] around its loop: one line before, one line
    after. *)
Lemma generate_visualizations_by_loop
    (self self' : generate_report.TSPReportGenerator.t) (w w1 : world) :
  fold_m (fun self (item : string * instance_data) =>
      let (instance_name, instance_data) := item in
      match viz_data instance_data with
      | None =>
          print (Line ("  No visualization data available for " ++ instance_name)) ;;;
          ret self
      | Some viz_data =>
          print (Line ("  Creating visualizations for " ++ instance_name ++ "...")) ;;;
          fold_m (fun self (entry : string * Sol.t) =>
                    generate_report.TSPReportGenerator._create_solution_plot self
                      instance_name (fst entry) (snd entry) viz_data)
                 (best_solutions viz_data) self
      end) (generate_report.TSPReportGenerator.algorithm_data self) self
    (printed w [Line "Generating visualizations..."]) = (Ok self', w1) ->
  generate_report.TSPReportGenerator.generate_visualizations self w
  = (Ok self',
     printed w1 [Line ("Visualizations saved to "
                       ++ generate_report.TSPReportGenerator.images_dir self')]).
Proof.
  intros Hrun. unfold generate_report.TSPReportGenerator.generate_visualizations.
  unfold bind at 1. unfold print at 1.
  fold (printed w [Line "Generating visualizations..."]).
  unfold bind at 1. rewrite Hrun. reflexivity.
Qed.

(** X8.  [generate_visualizations] stores no reference without its image.
    When every listed best solution can be drawn, the call returns; it
    leaves the frames, the loaded data and the other attributes alone; under
    every loaded instance it appends one reference per best solution, in the
    order of the file, named [<instance>_<algorithm>.png] with [/] and
    spaces of the algorithm replaced by [_], and creates no key for an
    instance without visualization data or without best solutions; and
    every reference it holds afterwards names a file that was written under
    the images directory. *)
Theorem generate_visualizations_writes_what_it_lists
    (self : generate_report.TSPReportGenerator.t) (w : world) :
  NoDup (Dict.keys (generate_report.TSPReportGenerator.algorithm_data self)) ->
  (forall i inst vd entry,
     In (i, inst) (generate_report.TSPReportGenerator.algorithm_data self) ->
     viz_data inst = Some vd -> In entry (best_solutions vd) ->
     drawable (nodes vd) (snd entry)) ->
  images_linked self (written w) ->
  exists self' w',
    generate_report.TSPReportGenerator.generate_visualizations self w
      = (Ok self', w') /\
    store w' = store w /\
    (generate_report.TSPReportGenerator.algorithm_folder self'
       = generate_report.TSPReportGenerator.algorithm_folder self /\
     generate_report.TSPReportGenerator.instances self'
       = generate_report.TSPReportGenerator.instances self /\
     generate_report.TSPReportGenerator.output_dir self'
       = generate_report.TSPReportGenerator.output_dir self /\
     generate_report.TSPReportGenerator.algorithm_data self'
       = generate_report.TSPReportGenerator.algorithm_data self) /\
    (forall i,
       Dict.get String.eqb
         (generate_report.TSPReportGenerator.visualizations self') i
       = match Dict.get String.eqb
                 (generate_report.TSPReportGenerator.algorithm_data self) i with
         | Some inst =>
             match map (visualization_entry i) (solutions_of inst) with
             | [] => Dict.get String.eqb
                       (generate_report.TSPReportGenerator.visualizations self) i
             | vs => Some (entries_of self i ++ vs)%list
             end
         | None => Dict.get String.eqb
                     (generate_report.TSPReportGenerator.visualizations self) i
         end) /\
    images_linked self' (written w').
Proof.
  intros Hnd Hok Hlinked.
  destruct (visualizations_loop
              (generate_report.TSPReportGenerator.algorithm_data self) self
              (printed w [Line "Generating visualizations..."]) Hnd)
    as (self' & w' & Hrun & Hs & Hf & Hget & Hl).
  - intros i inst entry Hin Hentry.
    destruct (viz_data inst) as [vd|] eqn:Hvd; [|exact I].
    apply (Hok i inst vd entry Hin Hvd). unfold solutions_of in Hentry.
    now rewrite Hvd in Hentry.
  - exact Hlinked.
  - rewrite (generate_visualizations_by_loop self self' w w' Hrun).
    eexists _, _. split; [reflexivity|].
    cbn [printed store written]. split; [exact Hs|]. split; [exact Hf|].
    split; [|exact Hl]. intros i. rewrite Hget.
    destruct (Dict.get String.eqb
                (generate_report.TSPReportGenerator.algorithm_data self) i)
      as [inst|]; [|reflexivity].
    destruct (map (visualization_entry i) (solutions_of inst)); reflexivity.
Qed.

(** The sample generator after loading: one picture for [TSPA]. *)
Lemma generate_visualizations_witness :
  exists self' w',
    generate_report.TSPReportGenerator.generate_visualizations
      Sample.generator Sample.loaded = (Ok self', w') /\
    Dict.get String.eqb
      (generate_report.TSPReportGenerator.visualizations self') "TSPA"
    = Some [visualization_entry "TSPA" ("greedy", Sample.trace)] /\
    images_linked self' (written w').
Proof.
  destruct (generate_visualizations_writes_what_it_lists Sample.generator
              Sample.loaded) as (self' & w' & Hrun & _ & _ & Hget & Hl).
  - repeat constructor. intros [].
  - intros i inst vd entry [[= <- <-]|[]] [= <-] [<-|[]].
    unfold drawable. cbn. split; [|split; [|split]].
    + exists (Node.make 3 0 0 1), (Node.make 7 10 0 5).
      split; [now left | split; [now right; left | reflexivity]].
    + repeat (apply Forall_cons; [cbn; auto 10|]). apply Forall_nil.
    + discriminate.
    + repeat (apply Forall_cons; [cbn; auto 10|]). apply Forall_nil.
  - intros i entries v H. discriminate H.
  - exists self', w'. split; [exact Hrun|]. split; [|exact Hl].
    rewrite Hget. reflexivity.
Defined.


(** ** The rows of [create_performance_ranking] *)

Section Groups.

Lemma unique_NoDup l : NoDup (unique l).
Proof.
  induction l as [|x r IH]; cbn [unique]; constructor.
  - rewrite filter_In, String.eqb_refl. intros [_ H]. discriminate.
  - now apply NoDup_filter.
Qed.

Lemma list_sum_cons a l : list_sum (a :: l) = (a + list_sum l)%nat.
Proof. reflexivity. Qed.

Lemma indicator_sum (U : list string) x :
  NoDup U -> In x U ->
  list_sum (map (fun a => if String.eqb x a then 1 else 0)%nat U) = 1%nat.
Proof.
  induction U as [|u U IH]; intros Hnd Hin; [destruct Hin|].
  inversion Hnd as [|? ? Hu HU]; subst. cbn [map]; rewrite ?list_sum_cons.
  destruct (String.eqb_spec x u) as [->|Hne].
  - replace (list_sum _) with 0%nat; [reflexivity|].
    symmetry. clear IH Hnd HU Hin. induction U as [|v U IHU]; [reflexivity|].
    cbn [map]; rewrite ?list_sum_cons. destruct (String.eqb_spec u v) as [->|_].
    + exfalso. apply Hu. now left.
    + apply IHU. intros H. apply Hu. now right.
  - destruct Hin as [->|Hin]; [congruence|]. now rewrite IH.
Qed.

Lemma list_sum_add {A} (f g : A -> nat) l :
  list_sum (map (fun a => f a + g a)%nat l)
  = (list_sum (map f l) + list_sum (map g l))%nat.
Proof. induction l as [|a l IH]; cbn [map]; rewrite ?list_sum_cons; [reflexivity | lia]. Qed.

(** The groups of a column split its rows: their sizes add up to the number
    of rows. *)
Lemma group_sizes {A} (U : list string) (pairs : list (string * A)) :
  NoDup U -> (forall p, In p pairs -> In (fst p) U) ->
  list_sum (map (fun a => List.length
                   (filter (fun cr : string * A => String.eqb (fst cr) a) pairs)) U)
  = List.length pairs.
Proof.
  intros Hnd. induction pairs as [|p r IH]; intros Hcover.
  - clear Hnd Hcover. induction U as [|u U IHU]; [reflexivity|].
    cbn [map filter List.length]. rewrite list_sum_cons. exact IHU.
  - rewrite (map_ext _ (fun a => (if String.eqb (fst p) a then 1 else 0)
                                 + List.length
                                     (filter (fun cr : string * A =>
                                                String.eqb (fst cr) a) r))%nat).
    + rewrite list_sum_add, indicator_sum, IH.
      * reflexivity.
      * intros q Hq. apply Hcover. now right.
      * exact Hnd.
      * apply Hcover. now left.
    + intros a. cbn [filter]. destruct (String.eqb (fst p) a); reflexivity.
Qed.

Lemma select_length column key rows :
  List.length (select column key rows)
  = List.length (filter (fun cr : string * Run.t => String.eqb (fst cr) key)
                   (combine column rows)).
Proof. unfold select. apply length_map. Qed.

Lemma select_sizes column rows :
  List.length column = List.length rows ->
  list_sum (map (fun a => List.length (select column a rows)) (unique column))
  = List.length rows.
Proof.
  intros Hlen.
  rewrite (map_ext _ (fun a => List.length
             (filter (fun cr : string * Run.t => String.eqb (fst cr) a)
                (combine column rows)))) by (intros; apply select_length).
  rewrite group_sizes.
  - rewrite length_combine. lia.
  - apply unique_NoDup.
  - intros [c r] Hin. apply unique_In. cbn. eapply in_combine_l; eauto.
Qed.

Lemma select_nonempty column rows a :
  List.length column = List.length rows -> In a column ->
  (1 <= List.length (select column a rows))%nat.
Proof.
  revert rows. induction column as [|c column IH]; intros rows Hlen Hin;
    [destruct Hin|].
  destruct rows as [|r rows]; [discriminate|]. injection Hlen as Hlen.
  unfold select. cbn [combine filter fst].
  destruct (String.eqb_spec c a) as [->|Hne]; [cbn; lia|].
  destruct Hin as [->|Hin]; [congruence|]. now apply IH.
Qed.

End Groups.

Section Ranking.

Import utils.

Lemma bind_ok {A B} (m : M A) (k : A -> M B) w b w' :
  bind m k w = (Ok b, w') ->
  exists a w1, m w = (Ok a, w1) /\ k a w1 = (Ok b, w').
Proof.
  unfold bind. destruct (m w) as [[a|e] w1]; [eauto | discriminate].
Qed.

(** The first loop of [create_performance_ranking], when it returns: the
    rows of every instance come from the copy of its frame. *)
Lemma ranking_loop data : forall w ranking_data w',
  map_m (fun item : string * instance_data =>
      let (instance_name, instance_data) := item in
      df_analysis <- copy_with_base_algorithm (df instance_data) ;;
      frame <- df_read df_analysis ;;
      ret (ranking_rows instance_name frame)) data w
  = (Ok ranking_data, w') ->
  (forall n inst, In (n, inst) data -> (df inst < List.length (store w))%nat) ->
  ranking_data
  = map (fun item : string * instance_data =>
           ranking_rows (fst item)
             (with_base_algorithm (nth (df (snd item)) (store w) empty_frame)))
        data.
Proof.
  induction data as [|[n inst] r IH]; intros w rd w' Hrun Hlt.
  - cbn in Hrun. now injection Hrun as <- _.
  - cbn [map_m] in Hrun.
    apply bind_ok in Hrun as (rows & w1 & Hhead & Hrun).
    apply bind_ok in Hrun as (rest & w2 & Hrest & Hret).
    injection Hret as <- _.
    apply bind_ok in Hhead as (l & w0 & Hcopy & Hhead).
    rewrite copy_with_base_algorithm_run in Hcopy.
    destruct (records (nth (df inst) (store w) empty_frame)) as [|x xs] eqn:E;
      [discriminate|].
    injection Hcopy as <- <-.
    unfold bind, df_read, ret in Hhead. cbn [store] in Hhead.
    rewrite nth_middle in Hhead. injection Hhead as <- <-.
    cbn [map fst snd]. f_equal.
    + unfold with_base_algorithm. now rewrite E.
    + rewrite (IH _ _ _ Hrest).
      * apply map_ext_in. intros [n' inst'] Hin. cbn [fst snd store].
        rewrite app_nth1; [reflexivity|]. apply (Hlt n' inst'). now right.
      * intros n' inst' Hin. cbn [store]. rewrite length_app.
        specialize (Hlt n' inst' (or_intror Hin)). lia.
Qed.

Lemma ranking_rows_instance n frame :
  Forall (fun r => Instance r = n) (ranking_rows n frame).
Proof. unfold ranking_rows. apply Forall_map, Forall_forall. reflexivity. Qed.

(** In the concatenation, the rows of an instance are the rows its frame
    gave. *)
Lemma rows_of_concat (F : string * instance_data -> DataFrame) data n inst :
  NoDup (Dict.keys data) -> In (n, inst) data ->
  rows_of (List.concat (map (fun item => ranking_rows (fst item) (F item)) data)) n
  = ranking_rows n (F (n, inst)).
Proof.
  unfold rows_of.
  assert (Hother : forall m frame, m <> n ->
            filter (fun r => String.eqb (Instance r) n) (ranking_rows m frame) = []).
  { intros m frame Hm. unfold ranking_rows. induction (unique _) as [|a l IHl];
      [reflexivity|]. cbn [map filter ranking_row Instance].
    destruct (String.eqb_spec m n); [congruence | exact IHl]. }
  assert (Hsame : forall frame,
            filter (fun r => String.eqb (Instance r) n) (ranking_rows n frame)
            = ranking_rows n frame).
  { intros frame. unfold ranking_rows. induction (unique _) as [|a l IHl];
      [reflexivity|]. cbn [map filter ranking_row Instance].
    rewrite String.eqb_refl. now f_equal. }
  induction data as [|[m i] r IH]; intros Hnd Hin; [destruct Hin|].
  cbn [Dict.keys map fst] in Hnd. inversion Hnd as [|? ? Hm Hr]; subst.
  cbn [map List.concat fst]. rewrite filter_app.
  destruct Hin as [[= -> ->]|Hin].
  - rewrite Hsame.
    replace (filter _ (List.concat _)) with (@nil RankingRow);
      [apply app_nil_r|].
    symmetry. clear IH Hnd Hr. induction r as [|[m' i'] r IHr]; [reflexivity|].
    cbn [map List.concat fst]. rewrite filter_app, Hother.
    + apply IHr. intros H. apply Hm. now right.
    + intros ->. apply Hm. now left.
  - rewrite Hother.
    + now apply IH.
    + intros ->. apply Hm. apply in_map_iff. now exists (n, inst).
Qed.

End Ranking.

(** X9.  The ranking accounts for every run once.  When
    [create_performance_ranking] returns, the rows of a loaded instance are
    its base algorithms in order of first appearance, no algorithm twice;
    every row counts at least one run, and the counts of the rows add up to
    the number of run records of the instance. *)
Theorem ranking_accounts_for_every_run
    (argsort : list float64 -> list nat) (data : utils.data) (w w' : world)
    (ranking_df : list RankingRow) :
  utils.create_performance_ranking argsort data w = (Ok ranking_df, w') ->
  NoDup (Dict.keys data) ->
  (forall n inst, In (n, inst) data -> (df inst < List.length (store w))%nat) ->
  forall n inst, In (n, inst) data ->
    let rows := rows_of ranking_df n in
    let runs := records (nth (df inst) (store w) empty_frame) in
    map Algorithm rows = unique (map base_algorithm (map Run.algorithm runs)) /\
    NoDup (map Algorithm rows) /\
    Forall (fun r => (1 <= Runs r)%nat) rows /\
    list_sum (map Runs rows) = List.length runs.
Proof.
  intros Hrun Hnd Hlt n inst Hin rows runs.
  unfold utils.create_performance_ranking in Hrun.
  apply bind_ok in Hrun as (ranking_data & w1 & Hloop & Hrest).
  apply ranking_loop in Hloop; [|exact Hlt].
  destruct (List.concat ranking_data) as [|r0 rs0] eqn:Hc; [discriminate|].
  apply bind_ok in Hrest as (u & w2 & _ & Hret). injection Hret as <- _.
  assert (Hrows : rows = utils.ranking_rows n
                           (with_base_algorithm (nth (df inst) (store w) empty_frame))).
  { unfold rows. rewrite <- Hc, Hloop.
    apply (rows_of_concat (fun item => with_base_algorithm
                             (nth (df (snd item)) (store w) empty_frame))
             data n inst Hnd Hin). }
  clearbody rows. subst rows. unfold utils.ranking_rows.
  unfold with_base_algorithm, base_algorithm_of.
  cbn [records base_algorithm_column]. fold runs.
  set (column := map base_algorithm (map Run.algorithm runs)).
  assert (Hlen : List.length column = List.length runs)
    by (unfold column; now rewrite !length_map).
  rewrite !map_map. cbn [utils.ranking_row Algorithm Runs]. rewrite map_id.
  split; [reflexivity|]. split; [apply unique_NoDup|]. split.
  - apply Forall_map, Forall_forall. intros a Ha. cbn [Runs].
    apply select_nonempty; [exact Hlen | now apply unique_In].
  - now apply select_sizes.
Qed.

(** The sample data: two base algorithms, three runs. *)
Lemma ranking_accounts_witness :
  map Algorithm
    (rows_of (match fst (utils.create_performance_ranking stable_argsort
                           Sample.dataset Sample.loaded) with
              | Ok ranking_df => ranking_df
              | Raise _ => []
              end) "TSPA") = ["greedy"; "regret"] /\
  list_sum (map Runs
    (rows_of (match fst (utils.create_performance_ranking stable_argsort
                           Sample.dataset Sample.loaded) with
              | Ok ranking_df => ranking_df
              | Raise _ => []
              end) "TSPA")) = 3%nat.
Proof.
  destruct (ranking_accounts_for_every_run stable_argsort Sample.dataset
              Sample.loaded
              (snd (utils.create_performance_ranking stable_argsort
                      Sample.dataset Sample.loaded))
              (match fst (utils.create_performance_ranking stable_argsort
                            Sample.dataset Sample.loaded) with
               | Ok ranking_df => ranking_df
               | Raise _ => []
               end))
    with (n := "TSPA")
         (inst := {| df := 0%nat; viz_data := Some Sample.viz; summary_data := None |})
    as (H1 & _ & _ & H4).
  - vm_compute. reflexivity.
  - repeat constructor. intros [].
  - intros n inst [[= <- <-]|[]]. cbn. lia.
  - now left.
  - split; [exact H1 | exact H4].
Defined.


(** ** The rows of a comparison table *)

Section SortedNames.

Lemma leb_ltb x y : String.leb x y = true -> x <> y -> String.ltb x y = true.
Proof.
  unfold String.leb, String.ltb. destruct (String.compare x y) eqn:E.
  - apply String.compare_eq_iff in E. congruence.
  - reflexivity.
  - discriminate.
Qed.

Lemma not_leb_ltb x y : String.leb x y = false -> String.ltb y x = true.
Proof.
  unfold String.leb, String.ltb. rewrite (String.compare_antisym x y).
  destruct (String.compare y x); cbn; congruence.
Qed.

Lemma strictly_ascending_cons a l :
  strictly_ascending (a :: l)
  = match l with
    | [] => true
    | b :: _ => String.ltb a b && strictly_ascending l
    end.
Proof. destruct l; reflexivity. Qed.

Lemma insert_sorted_head x l :
  exists r, insert_sorted x l = x :: r \/
            exists y l', l = y :: l' /\ insert_sorted x l = y :: r /\
                         String.ltb y x = true.
Proof.
  destruct l as [|y l']; cbn [insert_sorted]; [eauto|].
  destruct (String.leb x y) eqn:E; [eauto|].
  eexists. right. exists y, l'. repeat split. now apply not_leb_ltb.
Qed.

Lemma insert_sorted_ascending x l :
  strictly_ascending l = true -> ~ In x l ->
  strictly_ascending (insert_sorted x l) = true.
Proof.
  induction l as [|y r IH]; intros Hl Hx; [reflexivity|].
  cbn [insert_sorted]. destruct (String.leb x y) eqn:E.
  - rewrite strictly_ascending_cons, Hl, andb_true_r.
    apply leb_ltb; [exact E|]. intros ->. apply Hx. now left.
  - assert (Hr : strictly_ascending r = true).
    { rewrite strictly_ascending_cons in Hl. destruct r; [reflexivity|].
      now apply andb_true_iff in Hl as [_ ?]. }
    assert (Hi : strictly_ascending (insert_sorted x r) = true).
    { apply IH; [exact Hr|]. intros H. apply Hx. now right. }
    destruct r as [|z r'].
    + cbn [insert_sorted strictly_ascending]. now rewrite (not_leb_ltb _ _ E).
    + cbn [insert_sorted] in Hi |- *. destruct (String.leb x z) eqn:Ez.
      * change (String.ltb y x && strictly_ascending (x :: z :: r') = true).
        now rewrite Hi, (not_leb_ltb _ _ E).
      * change (String.ltb y z && strictly_ascending (z :: insert_sorted x r') = true).
        rewrite Hi. change (String.ltb y z && strictly_ascending (z :: r') = true) in Hl.
        apply andb_true_iff in Hl as [-> _]. reflexivity.
Qed.

(** [sorted] of names without repetition is strictly ascending. *)
Lemma sorted_ascending l : NoDup l -> strictly_ascending (sorted l) = true.
Proof.
  induction 1 as [|x l Hx Hnd IH]; [reflexivity|].
  change (sorted (x :: l)) with (insert_sorted x (sorted l)).
  apply insert_sorted_ascending; [exact IH|].
  intros H. apply Hx. exact (proj1 (sorted_In x l) H).
Qed.

Lemma insert_sorted_length x l :
  List.length (insert_sorted x l) = S (List.length l).
Proof.
  induction l as [|y r IH]; [reflexivity|]. cbn [insert_sorted].
  destruct (String.leb x y); cbn [List.length]; [reflexivity | now rewrite IH].
Qed.

Lemma sorted_length l : List.length (sorted l) = List.length l.
Proof.
  induction l as [|x r IH]; [reflexivity|].
  change (sorted (x :: r)) with (insert_sorted x (sorted r)).
  rewrite insert_sorted_length. cbn [List.length]. f_equal. exact IH.
Qed.

End SortedNames.

Section TableRows.

Import generate_report.

Variable field : Run.t -> Q.
Variable digits : nat.

Lemma collect_stats_NoDup name frame stats :
  NoDup (Dict.keys stats) ->
  NoDup (Dict.keys (collect_stats field digits name frame stats)).
Proof.
  unfold collect_stats. generalize (unique (map Run.algorithm (records frame))).
  intros l. revert stats. induction l as [|a l IH]; intros stats H; [exact H|].
  cbn [fold_left]. apply IH. now apply (dict_set_NoDup String.eqb String.eqb_spec).
Qed.

Lemma table_stats_NoDup frames : NoDup (Dict.keys (table_stats field digits frames)).
Proof.
  unfold table_stats.
  assert (H : forall stats : algorithm_stats, NoDup (Dict.keys stats) ->
            NoDup (Dict.keys (fold_left (fun stats nf =>
                     collect_stats field digits (fst nf) (clean_frame (snd nf)) stats)
                   frames stats))).
  { induction frames as [|nf r IH]; intros stats Hs; [exact Hs|].
    cbn [fold_left]. apply IH. now apply collect_stats_NoDup. }
  apply H. constructor.
Qed.

End TableRows.

(** X10.  The rows of a comparison table, whatever the frames: there is one
    row for every algorithm of the statistics and no more; the names in
    the first column are strictly ascending in code-point order, so no
    algorithm has two rows; every row has one cell per requested instance
    after its name, as many as the header has columns; and the table has two
    lines more than rows. *)
Theorem table_rows_sorted_and_rectangular
    (field : Run.t -> Q) (digits : nat)
    (frames : list (string * DataFrame)) (instances : list string) :
  let stats := table_stats field digits frames in
  let rows := generate_report.table_rows instances stats in
  List.length rows = List.length (Dict.keys stats) /\
  (forall a, In a (map (hd "") rows) <-> In a (Dict.keys stats)) /\
  strictly_ascending (map (hd "") rows) = true /\
  Forall (fun row => List.length row = S (List.length instances)) rows /\
  List.length (generate_report.table_lines instances rows) = (2 + List.length rows)%nat.
Proof.
  intros stats rows.
  assert (Hnames : map (hd "") rows = sorted (Dict.keys stats)).
  { unfold rows, generate_report.table_rows. rewrite map_map. cbn [hd]. apply map_id. }
  split; [|split; [|split; [|split]]].
  - unfold rows, generate_report.table_rows. now rewrite length_map, sorted_length.
  - intros a. rewrite Hnames. apply sorted_In.
  - rewrite Hnames. apply sorted_ascending. apply table_stats_NoDup.
  - unfold rows, generate_report.table_rows. apply Forall_map, Forall_forall.
    intros a _. cbn [List.length]. now rewrite length_map.
  - unfold generate_report.table_lines. cbn [List.length]. now rewrite length_map.
Qed.


(** ** From the command line to the report on disk *)

Section Silent.

Lemma silent_ret {A} (a : A) : silent (ret a).
Proof. intros w. split; reflexivity. Qed.

Lemma silent_raise {A} e : silent (raise (A := A) e).
Proof. intros w. split; reflexivity. Qed.

Lemma silent_bind {A B} (m : M A) (k : A -> M B) :
  silent m -> (forall a, silent (k a)) -> silent (bind m k).
Proof.
  intros Hm Hk w. unfold bind. destruct (Hm w) as [H1 H2].
  destruct (m w) as [[a|e] w1]; cbn [snd] in *.
  - destruct (Hk a w1) as [H3 H4]. split; congruence.
  - split; assumption.
Qed.

Lemma silent_fold_m {A S} (f : S -> A -> M S) xs :
  (forall s x, silent (f s x)) -> forall s, silent (fold_m f xs s).
Proof.
  intros Hf. induction xs as [|x r IH]; intros s; cbn [fold_m].
  - apply silent_ret.
  - apply silent_bind; auto.
Qed.

Lemma silent_df_read l : silent (df_read l).
Proof. intros w. split; reflexivity. Qed.

Lemma silent_alloc frame : silent (alloc frame).
Proof. intros w. split; reflexivity. Qed.

Lemma silent_df_update l f : silent (df_update l f).
Proof. intros w. split; reflexivity. Qed.

Lemma silent_copy_with_clean_algorithm l : silent (copy_with_clean_algorithm l).
Proof.
  unfold copy_with_clean_algorithm, df_copy, df_algorithm, df_set_algorithm.
  repeat (apply silent_bind; [|intros ?]);
    try apply silent_df_read; try apply silent_alloc; try apply silent_df_update;
    try apply silent_ret.
  destruct (records _); [apply silent_raise | apply silent_ret].
Qed.

Lemma silent_generate_table field digits self :
  silent (generate_report.TSPReportGenerator.generate_table field digits self).
Proof.
  unfold generate_report.TSPReportGenerator.generate_table.
  apply silent_bind; [|intros; apply silent_ret].
  apply silent_fold_m. intros stats [n inst].
  apply silent_bind; [apply silent_copy_with_clean_algorithm|]. intros l.
  apply silent_bind; [apply silent_df_read | intros; apply silent_ret].
Qed.

Lemma silent_generate_markdown_report self authors title :
  silent (generate_report.TSPReportGenerator.generate_markdown_report self authors title).
Proof.
  unfold generate_report.TSPReportGenerator.generate_markdown_report.
  apply silent_bind; [apply silent_generate_table|]. intros o.
  apply silent_bind; [apply silent_generate_table|]. intros t. apply silent_ret.
Qed.

End Silent.


Section Pipeline.

Import generate_report.
Import TSPReportGenerator.
Import report_script.

(** The constructor, with what it loaded. *)
Lemma init_run fs folder requested dir w :
  let requested_instances := instances_or_default requested in
  exists all_data w1,
    written w1 = written w /\
    NoDup (Dict.keys all_data) /\
    (forall i, In i (Dict.keys all_data)
               <-> In i requested_instances /\ utils.present fs folder i) /\
    (forall i e, Dict.get String.eqb all_data i = Some e ->
                 loaded_from fs folder (store w1) i e) /\
    __init__ fs folder requested dir w
    = match all_data with
      | [] => (Raise (ValueError ("No data found for algorithm folder: " ++ folder)),
               w1)
      | _ => (Ok {| algorithm_folder := folder;
                    instances := requested_instances;
                    output_dir := dir;
                    algorithm_data := all_data;
                    visualizations := [] |}, w1)
      end.
Proof.
  intros requested_instances.
  destruct (load_loop fs folder requested_instances [] w)
    as (all_data & w1 & Hrun & _ & Hkeys & _).
  pose proof (load_loop_frames fs folder 0 requested_instances [] w all_data w1 Hrun
                ltac:(lia)) as Hframes.
  destruct Hframes as ((Hnd & Hentries & _) & Hw & _).
  { repeat split; [constructor | discriminate | discriminate | discriminate]. }
  exists all_data, w1. split; [exact Hw|]. split; [exact Hnd|]. split.
  - intros i. rewrite Hkeys. cbn. tauto.
  - split; [intros i e He; now apply (Hentries i e He)|].
    unfold __init__. fold requested_instances.
    change (utils.load_all_algorithm_results fs folder (Some requested_instances))
      with (fold_m (fun all_data instance =>
              loaded <- utils.load_algorithm_results fs instance folder ;;
              match loaded with
              | (Some df, viz_data, summary_data) =>
                  ret (Dict.set String.eqb all_data instance
                         {| df := df; viz_data := viz_data;
                            summary_data := summary_data |})
              | (None, _, _) => ret all_data
              end) requested_instances []).
    rewrite (bind_run _ _ _ _ _ Hrun). destruct all_data; reflexivity.
Qed.

(** A table on frames that have rows. *)
Lemma generate_table_ok field digits self w :
  (forall name inst, In (name, inst) (algorithm_data self) ->
     (df inst < List.length (store w))%nat /\
     records (nth (df inst) (store w) empty_frame) <> []) ->
  exists content w',
    generate_table field digits self w = (Ok content, w') /\
    stdout w' = stdout w /\ written w' = written w /\
    exists more, store w' = (store w ++ more)%list.
Proof.
  intros Hok.
  destruct (table_loop_run field digits (algorithm_data self) [] w Hok)
    as (w1 & Hrun & Hmore).
  pose proof (silent_generate_table field digits self w) as Hsilent.
  unfold generate_table in *. rewrite (bind_run _ _ _ _ _ Hrun) in *.
  cbn [ret snd] in *. destruct Hsilent as [H1 H2].
  eexists _, w1. split; [reflexivity|]. auto.
Qed.

(** Both tables and the report around them. *)
Lemma generate_markdown_report_ok self authors title w :
  (forall name inst, In (name, inst) (algorithm_data self) ->
     (df inst < List.length (store w))%nat /\
     records (nth (df inst) (store w) empty_frame) <> []) ->
  exists content w',
    generate_markdown_report self authors title w = (Ok content, w') /\
    stdout w' = stdout w /\ written w' = written w.
Proof.
  intros Hok.
  destruct (generate_table_ok Run.objective_value 2 self w Hok)
    as (objective & w1 & Hrun1 & Ho1 & Hw1 & more & Hmore).
  assert (Hok1 : forall name inst, In (name, inst) (algorithm_data self) ->
            (df inst < List.length (store w1))%nat /\
            records (nth (df inst) (store w1) empty_frame) <> []).
  { intros name inst Hin. destruct (Hok name inst Hin) as [H1 H2].
    rewrite Hmore, length_app, app_nth1 by exact H1. split; [lia | exact H2]. }
  destruct (generate_table_ok Run.computation_time_ms 0 self w1 Hok1)
    as (time & w2 & Hrun2 & Ho2 & Hw2 & _).
  unfold generate_markdown_report, _generate_objective_table, _generate_time_table.
  rewrite (bind_run _ _ _ _ _ Hrun1), (bind_run _ _ _ _ _ Hrun2).
  eexists _, w2. split; [reflexivity|]. split; congruence.
Qed.

Lemma run_eq {A} (m : M A) s r w' :
  m (world_of s) = (r, w') ->
  run m s = (r, {| world_of := w'; text_files := text_files s; stderr := stderr s |}).
Proof. intros H. unfold run. now rewrite H. Qed.

(** [generate], step by step: the pictures, the report, the file; whatever
    raises ends the call before the file is written. *)
Lemma generate_run str_title self authors title filename s :
  generate str_title self authors title filename s
  = match generate_visualizations self (announced self (world_of s)) with
    | (Raise e, w1) =>
        (Raise e, {| world_of := w1; text_files := text_files s; stderr := stderr s |})
    | (Ok self', w1) =>
        match generate_markdown_report self' (authors_or_none authors)
                (choose_title str_title self' title) w1 with
        | (Raise e, w2) =>
            (Raise e,
             {| world_of := w2; text_files := text_files s; stderr := stderr s |})
        | (Ok content, w2) =>
            (Ok (self', report_file self' filename),
             {| world_of := reported self' filename w2;
                text_files :=
                  (text_files s ++ [(report_file self' filename, content)])%list;
                stderr := stderr s |})
        end
    end.
Proof.
  unfold generate. unfold rbind at 1. unfold run at 1. unfold print at 1.
  unfold rbind at 1. unfold run at 1. unfold print at 1.
  cbn [world_of text_files stderr store stdout written].
  unfold rbind at 1. unfold run at 1. cbn [world_of text_files stderr].
  unfold announced. rewrite <- app_assoc. cbn [app].
  destruct (generate_visualizations self _) as [[self'|e] w1]; [|reflexivity].
  unfold rbind at 1. unfold run at 1. cbn [world_of text_files stderr].
  destruct (generate_markdown_report self' _ _ w1) as [[content|e] w2]; [|reflexivity].
  unfold save_report, rbind, run, write_text, print, rret, reported, report_file.
  cbn [world_of text_files stderr store stdout written].
  rewrite <- !app_assoc. reflexivity.
Qed.

(** [main], step by step. *)
Lemma main_run str_title fs analysis_dir args s :
  main str_title fs analysis_dir args s
  = match __init__ fs (arg_algorithm_folder args) (Some (arg_instances args))
            (choose_output_dir analysis_dir (arg_algorithm_folder args)
               (arg_output args)) (world_of s) with
    | (Raise e, w1) =>
        (1%Z, {| world_of := w1; text_files := text_files s;
                 stderr := (stderr s ++ [e])%list |})
    | (Ok generator, w1) =>
        match generate str_title generator (arg_authors args) (arg_title args)
                (arg_filename args)
                {| world_of := w1; text_files := text_files s;
                   stderr := stderr s |} with
        | (Ok _, s') => (0%Z, s')
        | (Raise e, s') =>
            (1%Z, {| world_of := world_of s'; text_files := text_files s';
                     stderr := (stderr s' ++ [e])%list |})
        end
    end.
Proof.
  unfold main, rbind, run, new.
  destruct (__init__ _ _ _ _ (world_of s)) as [[g|e] w1]; reflexivity.
Qed.

(** The pictures of a generator fresh from the constructor. *)
Lemma visualizations_after_init fs folder requested_instances dir all_data w0 :
  NoDup (Dict.keys all_data) ->
  (forall i e, Dict.get String.eqb all_data i = Some e ->
               loaded_from fs folder (store w0) i e) ->
  (forall i vd entry, In i (Dict.keys all_data) ->
     visualization_at fs (utils.viz_path i folder) = Some vd ->
     In entry (best_solutions vd) -> drawable (nodes vd) (snd entry)) ->
  exists self' w1,
    generate_visualizations
      {| algorithm_folder := folder; instances := requested_instances;
         output_dir := dir; algorithm_data := all_data; visualizations := [] |} w0
    = (Ok self', w1) /\
    store w1 = store w0 /\
    algorithm_folder self' = folder /\
    output_dir self' = dir /\
    algorithm_data self' = all_data /\
    images_linked self' (written w1) /\
    (forall j vd entry, In j (Dict.keys all_data) ->
       visualization_at fs (utils.viz_path j folder) = Some vd ->
       In entry (best_solutions vd) ->
       In (path_join (path_join dir "images")
             (viz_filename (visualization_entry j entry)))
          (map fst (written w1))).
Proof.
  intros Hnd Hloaded Hdraw.
  set (self := {| algorithm_folder := folder; instances := requested_instances;
                  output_dir := dir; algorithm_data := all_data;
                  visualizations := [] |}).
  destruct (visualizations_loop all_data self
              (printed w0 [Line "Generating visualizations..."]) Hnd)
    as (self' & w1 & Hrun & Hs & (F1 & F2 & F3 & F4) & Hget & Hl).
  - intros i inst entry Hin Hentry.
    destruct (viz_data inst) as [vd|] eqn:Hvd; [|exact I].
    apply (dict_get_In all_data i inst Hnd) in Hin.
    destruct (Hloaded i inst Hin) as (rs & _ & _ & _ & Hviz & _).
    unfold solutions_of in Hentry. rewrite Hvd in Hentry.
    apply (Hdraw i vd entry); [|congruence | exact Hentry].
    apply (dict_get_keys String.eqb String.eqb_spec). congruence.
  - intros i entries v H. discriminate H.
  - apply (generate_visualizations_by_loop self self' w0 w1) in Hrun.
    eexists self', _. split; [exact Hrun|]. cbn [printed store written].
    split; [exact Hs|].
    split; [exact F1|]. split; [exact F3|]. split; [exact F4|]. split; [exact Hl|].
    intros j vd entry Hj Hvd Hentry.
    apply (dict_get_keys String.eqb String.eqb_spec) in Hj.
    destruct (Dict.get String.eqb all_data j) as [inst|] eqn:Hinst; [|congruence].
    destruct (Hloaded j inst Hinst) as (rs & _ & _ & _ & Hviz & _).
    specialize (Hget j). cbn [self algorithm_data visualizations] in Hget.
    rewrite Hinst in Hget. unfold solutions_of in Hget. rewrite Hviz, Hvd in Hget.
    assert (Hv : In (visualization_entry j entry)
                   (map (visualization_entry j) (best_solutions vd)))
      by now apply in_map.
    destruct (map (visualization_entry j) (best_solutions vd)) as [|v0 vs] eqn:E;
      [destruct Hv|].
    unfold entries_of in Hget. cbn [visualizations Dict.get app] in Hget.
    specialize (Hl j _ _ Hget Hv). unfold images_dir in Hl. now rewrite F3 in Hl.
Qed.

Lemma init_cases fs folder requested dir w :
  let requested_instances := instances_or_default requested in
  exists all_data w1,
    written w1 = written w /\
    NoDup (Dict.keys all_data) /\
    (forall i, In i (Dict.keys all_data)
               <-> In i requested_instances /\ utils.present fs folder i) /\
    (forall i e, Dict.get String.eqb all_data i = Some e ->
                 loaded_from fs folder (store w1) i e) /\
    ((all_data = [] /\
      __init__ fs folder requested dir w
      = (Raise (ValueError ("No data found for algorithm folder: " ++ folder)), w1))
     \/
     (all_data <> [] /\
      __init__ fs folder requested dir w
      = (Ok {| algorithm_folder := folder;
               instances := requested_instances;
               output_dir := dir;
               algorithm_data := all_data;
               visualizations := [] |}, w1))).
Proof.
  intros requested_instances.
  destruct (init_run fs folder requested dir w)
    as (all_data & w1 & Hw & Hnd & Hkeys & Hloaded & Hinit).
  exists all_data, w1. repeat (split; [assumption|]).
  destruct all_data; [left | right]; split; auto; discriminate.
Qed.

(** The report of a generator one of whose frames has no rows. *)
Lemma generate_markdown_report_raises self authors title w :
  (forall name inst, In (name, inst) (algorithm_data self) ->
     (df inst < List.length (store w))%nat) ->
  (exists name inst, In (name, inst) (algorithm_data self) /\
     records (nth (df inst) (store w) empty_frame) = []) ->
  exists w',
    generate_markdown_report self authors title w
    = (Raise (KeyError "algorithm"), w') /\
    stdout w' = stdout w /\ written w' = written w.
Proof.
  intros Hlt Hempty.
  destruct (generate_table_raises Run.objective_value 2 self w Hlt Hempty)
    as (w' & Hrun & Ho & Hw).
  exists w'. split; [|split; assumption].
  unfold generate_markdown_report, _generate_objective_table, bind at 1.
  now rewrite Hrun.
Qed.

(** A loaded entry as a member of the mapping: its frame is in the store and
    has the rows of the file. *)
Lemma loaded_entry fs folder all_data s name inst :
  NoDup (Dict.keys all_data) ->
  (forall i e, Dict.get String.eqb all_data i = Some e ->
               loaded_from fs folder s i e) ->
  In (name, inst) all_data ->
  (df inst < List.length s)%nat /\
  results_at fs (utils.results_path name folder)
  = Some (records (nth (df inst) s empty_frame)).
Proof.
  intros Hnd Hloaded Hin. apply (dict_get_In all_data name inst Hnd) in Hin.
  destruct (Hloaded name inst Hin) as (rs & Hrs & Hlt & Hframe & _).
  split; [exact Hlt|]. now rewrite Hframe.
Qed.

End Pipeline.


(** X11.  [main] without data: when none of the requested instances has a
    results file, the exit status is 1, the [ValueError] of the constructor
    is what goes to [sys.stderr], and nothing is written, neither a picture
    nor a report. *)
Theorem main_without_data_writes_nothing
    (str_title : string -> string) (fs : FileSystem) (analysis_dir : string)
    (args : report_script.arguments) (s : session) :
  (forall i,
     In i (generate_report.TSPReportGenerator.instances_or_default
             (Some (report_script.arg_instances args))) ->
     ~ utils.present fs (report_script.arg_algorithm_folder args) i) ->
  exists s',
    report_script.main str_title fs analysis_dir args s = (1%Z, s') /\
    stderr s' = (stderr s ++
      [ValueError ("No data found for algorithm folder: "
                   ++ report_script.arg_algorithm_folder args)])%list /\
    text_files s' = text_files s /\
    written (world_of s') = written (world_of s).
Proof.
  intros Habsent. rewrite main_run.
  destruct (init_cases fs (report_script.arg_algorithm_folder args)
              (Some (report_script.arg_instances args))
              (report_script.choose_output_dir analysis_dir
                 (report_script.arg_algorithm_folder args)
                 (report_script.arg_output args)) (world_of s))
    as (all_data & w1 & Hw & Hnd & Hkeys & Hloaded & [[-> ->] | [Hne _]]).
  - eexists. split; [reflexivity|]. cbn [stderr text_files world_of].
    repeat split; auto.
  - exfalso. destruct all_data as [|[i e] r]; [congruence|].
    destruct (proj1 (Hkeys i) (or_introl eq_refl)) as [Hin Hp].
    exact (Habsent i Hin Hp).
Qed.

(** An empty results directory. *)
Lemma main_without_data_witness :
  exists s',
    report_script.main (fun t => t) Sample.no_files "analysis"
      {| report_script.arg_algorithm_folder := "greedy";
         report_script.arg_authors := None;
         report_script.arg_instances := ["TSPA"; "TSPB"];
         report_script.arg_output := None;
         report_script.arg_title := None;
         report_script.arg_filename := None |}
      {| world_of := Sample.start; text_files := []; stderr := [] |} = (1%Z, s') /\
    stderr s' = [ValueError "No data found for algorithm folder: greedy"] /\
    text_files s' = [] /\
    written (world_of s') = [].
Proof.
  apply (main_without_data_writes_nothing (fun t => t) Sample.no_files "analysis"
           {| report_script.arg_algorithm_folder := "greedy";
              report_script.arg_authors := None;
              report_script.arg_instances := ["TSPA"; "TSPB"];
              report_script.arg_output := None;
              report_script.arg_title := None;
              report_script.arg_filename := None |}
           {| world_of := Sample.start; text_files := []; stderr := [] |}).
  intros i _ H. apply H. reflexivity.
Defined.

(** X12.  [main] with complete data: when some requested instance has a
    results file, no results file has an empty list of runs, and every
    listed best solution can be drawn, the run is this one.  The
    constructor returns a generator that holds exactly the requested
    instances that have a results file, each with the frame, the picture
    data and the summary of its files; [generate_visualizations] on that
    generator returns the generator with the references, its data
    unchanged; [generate_markdown_report] on the generator with the
    references returns the content; and [main] ends with exit status 0,
    nothing added to [sys.stderr], and exactly one text file added: the
    report, holding that content, in the chosen output directory under the
    given name or [TSP_<folder>_report.md].  In the final state every
    picture the generator refers to has been written, and so has one
    picture for every best solution of every loaded instance. *)
Theorem main_writes_the_report_and_its_pictures
    (str_title : string -> string) (fs : FileSystem) (analysis_dir : string)
    (args : report_script.arguments) (s : session) :
  let folder := report_script.arg_algorithm_folder args in
  let requested :=
    generate_report.TSPReportGenerator.instances_or_default
      (Some (report_script.arg_instances args)) in
  let dir := report_script.choose_output_dir analysis_dir folder
               (report_script.arg_output args) in
  (exists i, In i requested /\ utils.present fs folder i) ->
  (forall i, In i requested ->
     results_at fs (utils.results_path i folder) <> Some []) ->
  (forall i vd entry, In i requested -> utils.present fs folder i ->
     visualization_at fs (utils.viz_path i folder) = Some vd ->
     In entry (best_solutions vd) -> drawable (nodes vd) (snd entry)) ->
  exists generator w0 self w1 content w2,
    generate_report.TSPReportGenerator.__init__ fs folder
      (Some (report_script.arg_instances args)) dir (world_of s)
    = (Ok generator, w0) /\
    generate_report.TSPReportGenerator.instances generator = requested /\
    (forall i,
       In i (Dict.keys (generate_report.TSPReportGenerator.algorithm_data generator))
       <-> In i requested /\ utils.present fs folder i) /\
    (forall i e,
       Dict.get String.eqb
         (generate_report.TSPReportGenerator.algorithm_data generator) i = Some e ->
       loaded_from fs folder (store w0) i e) /\
    generate_report.TSPReportGenerator.generate_visualizations generator
      (announced generator w0) = (Ok self, w1) /\
    generate_report.TSPReportGenerator.algorithm_data self
    = generate_report.TSPReportGenerator.algorithm_data generator /\
    generate_report.TSPReportGenerator.generate_markdown_report self
      (report_script.authors_or_none (report_script.arg_authors args))
      (report_script.choose_title str_title self (report_script.arg_title args))
      w1 = (Ok content, w2) /\
    report_script.main str_title fs analysis_dir args s
    = (0%Z,
       {| world_of := reported self (report_script.arg_filename args) w2;
          text_files :=
            (text_files s ++
             [(path_join dir
                 (match report_script.arg_filename args with
                  | None => "TSP_" ++ folder ++ "_report.md"
                  | Some filename => filename
                  end), content)])%list;
          stderr := stderr s |}) /\
    generate_report.TSPReportGenerator.output_dir self = dir /\
    images_linked self
      (written (reported self (report_script.arg_filename args) w2)) /\
    (forall j vd entry, In j requested -> utils.present fs folder j ->
       visualization_at fs (utils.viz_path j folder) = Some vd ->
       In entry (best_solutions vd) ->
       In (path_join (path_join dir "images")
             (generate_report.viz_filename (visualization_entry j entry)))
          (map fst
             (written (reported self (report_script.arg_filename args) w2)))).
Proof.
  intros folder requested dir (i0 & Hi0 & Hp0) Hrows Hdraw. rewrite main_run.
  fold folder. fold dir.
  destruct (init_cases fs folder (Some (report_script.arg_instances args)) dir
              (world_of s))
    as (all_data & w1 & Hw & Hnd & Hkeys & Hloaded & [[-> _] | [Hne Hinit]]).
  { exfalso. apply (proj2 (Hkeys i0)). split; assumption. }
  rewrite Hinit.
  fold requested in Hkeys |- *.
  rewrite generate_run. cbn [world_of text_files stderr].
  match goal with |- context [announced ?g w1] => set (self0 := g) end.
  destruct (visualizations_after_init fs folder requested dir all_data
              (announced self0 w1) Hnd Hloaded)
    as (self' & w2 & Hviz & Hs & F1 & F3 & F4 & Hl & Hpics).
  { intros i vd entry Hi. apply Hkeys in Hi as [Hi Hp]. now apply Hdraw. }
  fold self0 in Hviz. rewrite Hviz.
  destruct (generate_markdown_report_ok self'
              (report_script.authors_or_none (report_script.arg_authors args))
              (report_script.choose_title str_title self'
                 (report_script.arg_title args)) w2)
    as (content & w3 & Hmd & Ho & Hwr).
  { rewrite F4, Hs. cbn [announced store]. intros name inst Hin.
    destruct (loaded_entry fs folder all_data (store w1) name inst Hnd Hloaded Hin)
      as [Hlt Hfile].
    split; [exact Hlt|]. intros E. rewrite E in Hfile.
    apply (Hrows name); [|exact Hfile].
    apply Hkeys. apply in_map_iff. now exists (name, inst). }
  rewrite Hmd. exists self0, w1, self', w2, content, w3.
  split; [reflexivity|]. split; [reflexivity|].
  split; [exact Hkeys|]. split; [exact Hloaded|].
  split; [exact Hviz|]. split; [exact F4|]. split; [exact Hmd|]. split.
  { unfold report_file. now rewrite F1, F3. }
  split; [exact F3|]. unfold reported. cbn [written]. rewrite Hwr. split.
  - exact Hl.
  - intros j vd entry Hj Hp Hvd Hentry.
    apply (Hpics j vd entry); auto. apply Hkeys. auto.
Qed.


(** The sample results directory: the runs and the best solution of [TSPA],
    nothing for [TSPB]. *)
Lemma main_writes_the_report_witness :
  exists s' content,
    report_script.main (fun t => t) Sample.fs "analysis" SampleRun.args
      SampleRun.start = (0%Z, s') /\
    text_files s' = [("analysis/Lab1/TSP_greedy_report.md", content)] /\
    In "analysis/Lab1/images/TSPA_greedy.png" (map fst (written (world_of s'))).
Proof.
  destruct (main_writes_the_report_and_its_pictures (fun t => t) Sample.fs
              "analysis" SampleRun.args SampleRun.start)
    as (generator & w0 & self & w1 & content & w2
        & _ & _ & _ & _ & _ & _ & _ & Hmain & _ & _ & Hpics).
  - exists "TSPA". split; [now left | discriminate].
  - intros i [<-|[<-|[]]]; discriminate.
  - intros i vd entry [<-|[<-|[]]] Hp; [|exfalso; now apply Hp].
    intros [= <-] [<-|[]]. unfold drawable. cbn. split; [|split; [|split]].
    + exists (Node.make 3 0 0 1), (Node.make 7 10 0 5).
      split; [now left | split; [now right; left | reflexivity]].
    + repeat (apply Forall_cons; [cbn; auto 10|]). apply Forall_nil.
    + discriminate.
    + repeat (apply Forall_cons; [cbn; auto 10|]). apply Forall_nil.
  - eexists _, content. split; [exact Hmain|]. split; [reflexivity|].
    apply (Hpics "TSPA" Sample.viz ("greedy", Sample.trace)).
    + now left.
    + discriminate.
    + reflexivity.
    + now left.
Defined.

(** X13.  [main] with a results file that lists no run: the pictures are
    drawn before the tables are built, so when every listed best solution
    can be drawn, the call writes one picture for every best solution of
    every loaded instance, then stops at the first table with
    [KeyError('algorithm')]: the exit status is 1, the error goes to
    [sys.stderr], and no report is written. *)
Theorem main_empty_results_leaves_pictures_and_no_report
    (str_title : string -> string) (fs : FileSystem) (analysis_dir : string)
    (args : report_script.arguments) (s : session) (instance : string) :
  let folder := report_script.arg_algorithm_folder args in
  let requested :=
    generate_report.TSPReportGenerator.instances_or_default
      (Some (report_script.arg_instances args)) in
  let dir := report_script.choose_output_dir analysis_dir folder
               (report_script.arg_output args) in
  In instance requested ->
  results_at fs (utils.results_path instance folder) = Some [] ->
  (forall i vd entry, In i requested -> utils.present fs folder i ->
     visualization_at fs (utils.viz_path i folder) = Some vd ->
     In entry (best_solutions vd) -> drawable (nodes vd) (snd entry)) ->
  exists s',
    report_script.main str_title fs analysis_dir args s = (1%Z, s') /\
    stderr s' = (stderr s ++ [KeyError "algorithm"])%list /\
    text_files s' = text_files s /\
    (forall j vd entry, In j requested -> utils.present fs folder j ->
       visualization_at fs (utils.viz_path j folder) = Some vd ->
       In entry (best_solutions vd) ->
       In (path_join (path_join dir "images")
             (generate_report.viz_filename (visualization_entry j entry)))
          (map fst (written (world_of s')))).
Proof.
  intros folder requested dir Hin Hfile Hdraw. rewrite main_run.
  fold folder. fold dir.
  assert (Hp : utils.present fs folder instance)
    by (unfold utils.present; congruence).
  destruct (init_cases fs folder (Some (report_script.arg_instances args)) dir
              (world_of s))
    as (all_data & w1 & Hw & Hnd & Hkeys & Hloaded & [[-> _] | [Hne ->]]).
  { exfalso. apply (proj2 (Hkeys instance)). split; assumption. }
  fold requested in Hkeys |- *.
  rewrite generate_run. cbn [world_of text_files stderr].
  match goal with |- context [announced ?g w1] => set (self0 := g) end.
  destruct (visualizations_after_init fs folder requested dir all_data
              (announced self0 w1) Hnd Hloaded)
    as (self' & w2 & Hviz & Hs & F1 & F3 & F4 & Hl & Hpics).
  { intros i vd entry Hi. apply Hkeys in Hi as [Hi Hpi]. now apply Hdraw. }
  fold self0 in Hviz. rewrite Hviz.
  destruct (generate_markdown_report_raises self'
              (report_script.authors_or_none (report_script.arg_authors args))
              (report_script.choose_title str_title self'
                 (report_script.arg_title args)) w2)
    as (w3 & Hmd & Ho & Hwr).
  { rewrite F4, Hs. cbn [announced store]. intros name inst Hi.
    now destruct (loaded_entry fs folder all_data (store w1) name inst Hnd Hloaded Hi). }
  { rewrite F4, Hs. cbn [announced store].
    assert (Hkey : In instance (Dict.keys all_data)) by (apply Hkeys; auto).
    apply (dict_get_keys String.eqb String.eqb_spec) in Hkey.
    destruct (Dict.get String.eqb all_data instance) as [e|] eqn:He; [|congruence].
    exists instance, e.
    assert (Hmem : In (instance, e) all_data)
      by now apply (dict_get_In all_data instance e Hnd).
    split; [exact Hmem|].
    destruct (loaded_entry fs folder all_data (store w1) instance e Hnd Hloaded Hmem)
      as [_ Hrs]. congruence. }
  rewrite Hmd. eexists. split; [reflexivity|].
  cbn [stderr text_files world_of]. repeat split.
  intros j vd entry Hj Hpj Hvd Hentry. rewrite Hwr.
  apply (Hpics j vd entry); auto. apply Hkeys. auto.
Qed.

(** The sample directory with an empty results file for [TSPB]: the picture
    of [TSPA] is written, the report is not. *)
Lemma main_empty_results_witness :
  exists s',
    report_script.main (fun t => t) SampleRun.fs_with_empty_tspb "analysis"
      SampleRun.args SampleRun.start = (1%Z, s') /\
    stderr s' = [KeyError "algorithm"] /\
    text_files s' = [] /\
    In "analysis/Lab1/images/TSPA_greedy.png" (map fst (written (world_of s'))).
Proof.
  destruct (main_empty_results_leaves_pictures_and_no_report (fun t => t)
              SampleRun.fs_with_empty_tspb "analysis" SampleRun.args
              SampleRun.start "TSPB")
    as (s' & Hmain & Herr & Hfiles & Hpics).
  - right. now left.
  - reflexivity.
  - intros i vd entry [<-|[<-|[]]] Hp; [|discriminate].
    intros [= <-] [<-|[]]. unfold drawable. cbn. split; [|split; [|split]].
    + exists (Node.make 3 0 0 1), (Node.make 7 10 0 5).
      split; [now left | split; [now right; left | reflexivity]].
    + repeat (apply Forall_cons; [cbn; auto 10|]). apply Forall_nil.
    + discriminate.
    + repeat (apply Forall_cons; [cbn; auto 10|]). apply Forall_nil.
  - exists s'. split; [exact Hmain|]. split; [exact Herr|]. split; [exact Hfiles|].
    apply (Hpics "TSPA" Sample.viz ("greedy", Sample.trace)).
    + now left.
    + discriminate.
    + reflexivity.
    + now left.
Defined.


(** ** The instances found in a results folder *)

Section Directory.

Import utils_directory.

Lemma strip_suffix_complete suffix : forall x,
  strip_suffix suffix (x ++ suffix) = Some x.
Proof.
  induction x as [|c x IH].
  - cbn [append]. destruct suffix; cbn [strip_suffix]; now rewrite String.eqb_refl.
  - cbn [append strip_suffix].
    destruct (String.eqb_spec (String c (x ++ suffix)) suffix) as [E|_].
    + apply (f_equal String.length) in E. cbn in E. rewrite length_append in E. lia.
    + now rewrite IH.
Qed.

Lemma strip_suffix_sound suffix : forall s x,
  strip_suffix suffix s = Some x -> s = x ++ suffix.
Proof.
  induction s as [|c s IH]; intros x; cbn [strip_suffix].
  - destruct (String.eqb_spec "" suffix) as [<-|_]; [|discriminate].
    now intros [= <-].
  - destruct (String.eqb_spec (String c s) suffix) as [<-|_].
    + now intros [= <-].
    + destruct (strip_suffix suffix s) as [y|]; [|discriminate].
      intros [= <-]. cbn [append]. f_equal. now apply IH.
Qed.

(** A name without underscore followed by the pattern, which begins with
    one: the pattern is found at the end only. *)
Lemma remove_all_suffix old name :
  has_underscore name = false ->
  remove_all (String "_" old) (name ++ String "_" old) = name.
Proof.
  unfold remove_all.
  set (m := fun rest => match Regex.strip_prefix (String "_" old) rest with
                        | Some _ => Some (String.length (String "_" old))
                        | None => None
                        end).
  induction name as [|c name IH]; intros H.
  - cbn [append].
    assert (Hm : m (String "_" old) = Some (S (String.length old))).
    { unfold m. rewrite <- (append_empty_r (String "_" old)) at 2.
      now rewrite strip_prefix_complete. }
    rewrite (sub_empty_at_match _ _ _ _ Hm).
    rewrite <- (append_empty_r old) at 2. apply sub_empty_skip.
  - cbn [has_underscore] in H. apply orb_false_iff in H as [Hc Hname].
    cbn [append].
    assert (Hm : m (String c (name ++ String "_" old)) = None).
    { unfold m. cbn [Regex.strip_prefix]. rewrite Ascii.eqb_sym, Hc. reflexivity. }
    rewrite (sub_empty_no_match _ _ _ Hm). f_equal. now apply IH.
Qed.

End Directory.

(** X14.  [get_available_instances] against the naming of the loader: a
    folder that does not exist gives the empty list; the names returned are
    strictly ascending, so none is listed twice; each comes from an entry
    that ends with [_results.json]; and an instance whose name holds no
    underscore is listed as soon as the folder holds the file
    [<instance>_<folder>_results.json] that [load_algorithm_results] reads
    for it. *)
Theorem get_available_instances_finds_loadable_instances
    (ls : utils_directory.listing) (algorithm_folder results_path : string) :
  let found :=
    utils_directory.get_available_instances ls algorithm_folder results_path in
  (ls (path_join results_path algorithm_folder) = None -> found = []) /\
  strictly_ascending found = true /\
  (forall name, In name found ->
     exists entries file base,
       ls (path_join results_path algorithm_folder) = Some entries /\
       In file (map fst entries) /\ file = base ++ "_results.json" /\
       name = remove_all ("_" ++ algorithm_folder ++ "_results")
                (base ++ "_results")) /\
  (forall instance entries,
     has_underscore instance = false ->
     ls (path_join results_path algorithm_folder) = Some entries ->
     In (instance ++ "_" ++ algorithm_folder ++ "_results.json") (map fst entries) ->
     In instance found).
Proof.
  intros found. unfold found, utils_directory.get_available_instances.
  split; [now intros ->|]. split; [|split].
  - destruct (ls _); [|reflexivity]. apply sorted_ascending, unique_NoDup.
  - intros name. destruct (ls _) as [entries|]; [|intros []].
    intros H. apply sorted_In, unique_In, in_flat_map in H as (file & Hfile & H).
    unfold utils_directory.instance_of_file in H.
    destruct (strip_suffix "_results.json" file) as [base|] eqn:E; [|destruct H].
    destruct H as [<-|[]]. apply strip_suffix_sound in E.
    exists entries, file, base. auto.
  - intros instance entries Hi -> Hin.
    apply sorted_In, unique_In, in_flat_map.
    exists (instance ++ "_" ++ algorithm_folder ++ "_results.json").
    split; [exact Hin|]. unfold utils_directory.instance_of_file.
    replace (instance ++ "_" ++ algorithm_folder ++ "_results.json")
      with ((instance ++ "_" ++ algorithm_folder) ++ "_results.json")
      by now rewrite !append_assoc.
    rewrite strip_suffix_complete. left.
    replace ((instance ++ "_" ++ algorithm_folder) ++ "_results")
      with (instance ++ String "_" (algorithm_folder ++ "_results"))
      by (cbn [append]; now rewrite !append_assoc).
    apply (remove_all_suffix (algorithm_folder ++ "_results") instance Hi).
Qed.

(** A folder with the results of [TSPA] and [TSPB] and two other files. *)
Lemma get_available_instances_witness :
  In "TSPB"
    (utils_directory.get_available_instances
       (fun path =>
          if String.eqb path "results/greedy"
          then Some [("TSPB_greedy_results.json", false);
                     ("TSPA_visualization.json", false);
                     ("TSPA_greedy_results.json", false);
                     ("images", true)]
          else None)
       "greedy" "results").
Proof.
  apply (proj2 (proj2 (proj2
           (get_available_instances_finds_loadable_instances
              (fun path =>
                 if String.eqb path "results/greedy"
                 then Some [("TSPB_greedy_results.json", false);
                            ("TSPA_visualization.json", false);
                            ("TSPA_greedy_results.json", false);
                            ("images", true)]
                 else None)
              "greedy" "results")))
         "TSPB"
         [("TSPB_greedy_results.json", false);
          ("TSPA_visualization.json", false);
          ("TSPA_greedy_results.json", false);
          ("images", true)]).
  - reflexivity.
  - reflexivity.
  - now left.
Defined.


(** ** The file name of a picture *)

Section FileNames.

Import generate_report.

Lemma contains_append c a b : contains c (a ++ b) = contains c a || contains c b.
Proof.
  induction a as [|x a IH]; [reflexivity|]. cbn [append contains].
  now rewrite IH, orb_assoc.
Qed.

Lemma contains_replaced old new s :
  old <> new -> contains old (replace_char old new s) = false.
Proof.
  intros Hne. induction s as [|x s IH]; [reflexivity|].
  cbn [replace_char contains]. rewrite IH, orb_false_r.
  destruct (Ascii.eqb_spec x old) as [->|Hx].
  - apply Ascii.eqb_neq. congruence.
  - now apply Ascii.eqb_neq.
Qed.

Lemma contains_other c old new s :
  c <> old -> c <> new -> contains c (replace_char old new s) = contains c s.
Proof.
  intros Ho Hn. induction s as [|x s IH]; [reflexivity|].
  cbn [replace_char contains]. rewrite IH. f_equal.
  destruct (Ascii.eqb_spec x old) as [->|Hx]; [|reflexivity].
  transitivity false; [|symmetry]; apply Ascii.eqb_neq; congruence.
Qed.

Lemma replace_char_absent old new s :
  contains old s = false -> replace_char old new s = s.
Proof.
  induction s as [|x s IH]; [reflexivity|]. cbn [replace_char contains].
  intros H. apply orb_false_iff in H as [Hx Hs]. now rewrite Hx, IH.
Qed.

Lemma safe_algorithm_name_clean a :
  contains "/" (safe_algorithm_name a) = false /\
  contains " " (safe_algorithm_name a) = false.
Proof.
  unfold safe_algorithm_name. split.
  - rewrite contains_other by discriminate. apply contains_replaced. discriminate.
  - apply contains_replaced. discriminate.
Qed.

Lemma safe_algorithm_name_idempotent a :
  safe_algorithm_name (safe_algorithm_name a) = safe_algorithm_name a.
Proof.
  destruct (safe_algorithm_name_clean a) as [H1 H2].
  unfold safe_algorithm_name at 1.
  now rewrite (replace_char_absent "/" "_" _ H1), (replace_char_absent " " "_" _ H2).
Qed.

End FileNames.

(** X15.  The file of one picture.  When [_create_solution_plot] returns,
    it has written one file, under the images directory, and stored one
    reference with the same file name; the name holds a [/] or a space
    only if the instance name does, whatever the algorithm label is, so the
    label never sends the picture to another directory; and the name is the
    one the cleaned label would get, so that two labels that differ only in
    [/], space and [_] share one file. *)
Theorem create_solution_plot_file_name
    (self self' : generate_report.TSPReportGenerator.t)
    (instance_name algorithm : string) (solution_data : Sol.t)
    (viz_data : VizData) (w w' : world) :
  generate_report.TSPReportGenerator._create_solution_plot self instance_name
    algorithm solution_data viz_data w = (Ok self', w') ->
  exists filename content,
    written w' = (written w ++
      [(path_join (generate_report.TSPReportGenerator.images_dir self) filename,
        content)])%list /\
    entries_of self' instance_name
    = (entries_of self instance_name ++
       [{| generate_report.viz_algorithm := algorithm;
           generate_report.viz_filename := filename;
           generate_report.viz_solution_data := solution_data |}])%list /\
    contains "/" filename = contains "/" instance_name /\
    contains " " filename = contains " " instance_name /\
    filename
    = generate_report.viz_filename
        (visualization_entry instance_name
           (safe_algorithm_name algorithm, solution_data)).
Proof.
  unfold generate_report.TSPReportGenerator._create_solution_plot, bind, lift,
    write_file, ret.
  destruct (utils.draw_solution (nodes viz_data) solution_data) as [artists|e];
    [|discriminate].
  intros [= <- <-]. eexists _, _. cbn [written]. split; [reflexivity|].
  destruct (safe_algorithm_name_clean algorithm) as [H1 H2].
  unfold safe_algorithm_name in H1, H2. split; [|split; [|split]].
  - unfold entries_of. cbn [generate_report.TSPReportGenerator.visualizations].
    now rewrite (dict_get_set String.eqb String.eqb_spec), String.eqb_refl.
  - rewrite contains_append. cbn [contains]. rewrite contains_append, H1.
    cbn. now rewrite orb_false_r.
  - rewrite contains_append. cbn [contains]. rewrite contains_append, H2.
    cbn. now rewrite orb_false_r.
  - unfold visualization_entry. cbn [generate_report.viz_filename fst].
    pose proof (safe_algorithm_name_idempotent algorithm) as Hi.
    unfold safe_algorithm_name in Hi |- *. now rewrite Hi.
Qed.

(** The picture of the sample solution. *)
Lemma create_solution_plot_witness :
  exists filename content,
    written (snd (generate_report.TSPReportGenerator._create_solution_plot
                    Sample.generator "TSPA" "greedy cycle/2" Sample.trace
                    Sample.viz Sample.loaded))
    = [("Lab1/images/" ++ filename, content)] /\
    filename = "TSPA_greedy_cycle_2.png".
Proof.
  destruct (create_solution_plot_file_name Sample.generator
              (match fst (generate_report.TSPReportGenerator._create_solution_plot
                            Sample.generator "TSPA" "greedy cycle/2" Sample.trace
                            Sample.viz Sample.loaded) with
               | Ok self' => self'
               | Raise _ => Sample.generator
               end)
              "TSPA" "greedy cycle/2" Sample.trace Sample.viz Sample.loaded
              (snd (generate_report.TSPReportGenerator._create_solution_plot
                      Sample.generator "TSPA" "greedy cycle/2" Sample.trace
                      Sample.viz Sample.loaded)))
    as (filename & content & Hw & _ & _ & _ & Hf).
  - vm_compute. reflexivity.
  - exists filename, content. split; [|exact Hf].
    rewrite Hw. reflexivity.
Defined.


(** ** The pairwise tests of [perform_statistical_tests] *)

Section OrderedPairs.

Context {A : Type}.

Lemma ordered_pairs_In (l : list A) a b :
  In (a, b) (ordered_pairs l) -> In a l /\ In b l.
Proof.
  induction l as [|x r IH]; cbn [ordered_pairs]; [intros []|].
  intros H. apply in_app_or in H as [H|H].
  - apply in_map_iff in H as (y & [= <- <-] & Hy). split; [now left | now right].
  - destruct (IH H). split; now right.
Qed.

Lemma ordered_pairs_length (l : list A) :
  (2 * List.length (ordered_pairs l) = List.length l * (List.length l - 1))%nat.
Proof.
  induction l as [|x r IH]; [reflexivity|].
  cbn [ordered_pairs List.length]. rewrite length_app, length_map. nia.
Qed.

Lemma ordered_pairs_NoDup (l : list A) : NoDup l -> NoDup (ordered_pairs l).
Proof.
  induction 1 as [|x r Hx Hr IH]; cbn [ordered_pairs]; [constructor|].
  apply NoDup_app.
  - apply Finite.Injective_map_NoDup; [|exact Hr]. now intros a b [= ->].
  - exact IH.
  - intros [a b] H1 H2. apply in_map_iff in H1 as (y & [= <- <-] & _).
    apply ordered_pairs_In in H2 as [H2 _]. contradiction.
Qed.

(** Of two different elements, one pair is there and the other is not. *)
Lemma ordered_pairs_one_direction (l : list A) a b :
  NoDup l -> In a l -> In b l -> a <> b ->
  (In (a, b) (ordered_pairs l) /\ ~ In (b, a) (ordered_pairs l)) \/
  (In (b, a) (ordered_pairs l) /\ ~ In (a, b) (ordered_pairs l)).
Proof.
  induction 1 as [|x r Hx Hr IH]; [intros []|]. intros Ha Hb Hab.
  cbn [ordered_pairs].
  assert (Hhead : forall c, In c r ->
            In (x, c) (map (pair x) r ++ ordered_pairs r)%list /\
            ~ In (c, x) (map (pair x) r ++ ordered_pairs r)%list).
  { intros c Hc. split.
    - apply in_or_app. left. now apply in_map.
    - intros H. apply in_app_or in H as [H|H].
      + apply in_map_iff in H as (y & [= -> <-] & _). contradiction.
      + apply ordered_pairs_In in H as [_ H]. contradiction. }
  destruct Ha as [->|Ha], Hb as [->|Hb].
  - congruence.
  - left. now apply Hhead.
  - right. now apply Hhead.
  - destruct (IH Ha Hb Hab) as [[H1 H2]|[H1 H2]]; [left | right]; split.
    + apply in_or_app. now right.
    + intros H. apply in_app_or in H as [H|H]; [|contradiction].
      apply in_map_iff in H as (y & [= -> <-] & _). contradiction.
    + apply in_or_app. now right.
    + intros H. apply in_app_or in H as [H|H]; [|contradiction].
      apply in_map_iff in H as (y & [= -> <-] & _). contradiction.
Qed.

Variable B : Type.
Variable e : A -> A -> B.

Let inner (ia jb : nat * A) : list B :=
  if (fst ia <? fst jb)%nat then [e (snd ia) (snd jb)] else [].

Lemma inner_below n a (pre : list (nat * A)) :
  (forall jb, In jb pre -> (fst jb <= n)%nat) -> flat_map (inner (n, a)) pre = [].
Proof.
  induction pre as [|jb pre IH]; intros H; [reflexivity|]. cbn [flat_map].
  rewrite IH by (intros; apply H; now right). rewrite app_nil_r.
  unfold inner. cbn [fst]. specialize (H jb (or_introl eq_refl)).
  destruct (Nat.ltb_spec n (fst jb)); [lia | reflexivity].
Qed.

Lemma inner_above n a (r : list A) : forall m,
  (n < m)%nat ->
  flat_map (inner (n, a)) (combine (seq m (List.length r)) r) = map (e a) r.
Proof.
  induction r as [|b r IH]; intros m Hm; [reflexivity|].
  cbn [List.length seq combine flat_map map]. rewrite IH by lia.
  unfold inner at 1. cbn [fst snd].
  destruct (Nat.ltb_spec n m); [reflexivity | lia].
Qed.

Lemma nested_loops_from (l : list A) : forall n (pre : list (nat * A)),
  (forall jb, In jb pre -> (fst jb < n)%nat) ->
  flat_map (fun ia => flat_map (inner ia)
                        (pre ++ combine (seq n (List.length l)) l)%list)
           (combine (seq n (List.length l)) l)
  = map (fun ab => e (fst ab) (snd ab)) (ordered_pairs l).
Proof.
  induction l as [|a r IH]; intros n pre Hpre; [reflexivity|].
  cbn [List.length seq combine flat_map ordered_pairs].
  rewrite map_app, map_map. cbn [fst snd]. f_equal.
  - rewrite flat_map_app. rewrite inner_below.
    + cbn [flat_map app]. rewrite inner_above by lia.
      unfold inner. cbn [fst]. now rewrite Nat.ltb_irrefl.
    + intros jb H. specialize (Hpre jb H). lia.
  - rewrite <- (IH (S n) (pre ++ [(n, a)])%list).
    + apply flat_map_ext. intros ia. now rewrite <- app_assoc.
    + intros jb H. apply in_app_or in H as [H|[<-|[]]]; [|cbn; lia].
      specialize (Hpre jb H). lia.
Qed.

(** The two loops over [enumerate(algorithms)] with the test [i < j] visit
    the pairs in which the first stands before the second, in order. *)
Lemma nested_loops (l : list A) :
  flat_map (fun ia => flat_map (inner ia) (utils_statistics.enumerate l))
           (utils_statistics.enumerate l)
  = map (fun ab => e (fst ab) (snd ab)) (ordered_pairs l).
Proof. apply (nested_loops_from l 0 []). intros jb []. Qed.

End OrderedPairs.


Section StatisticalTests.

Import utils_statistics.

Lemma printed_nil w : printed w [] = w.
Proof. destruct w. unfold printed. cbn. now rewrite app_nil_r. Qed.

Lemma printed_printed w a b : printed (printed w a) b = printed w (a ++ b).
Proof. unfold printed. cbn. now rewrite app_assoc. Qed.

Lemma print_printed e w : print e w = (Ok tt, printed w [e]).
Proof. reflexivity. Qed.

(** A loop whose body only prints. *)
Lemma for_each_printed {A} (xs : list A) (f : A -> list event) (body : A -> M unit) :
  (forall x w, body x w = (Ok tt, printed w (f x))) ->
  forall w, for_each xs body w = (Ok tt, printed w (flat_map f xs)).
Proof.
  intros Hbody. induction xs as [|x r IH]; intros w; cbn [for_each flat_map].
  - now rewrite printed_nil.
  - unfold bind. now rewrite Hbody, IH, printed_printed.
Qed.

Variable ttest_ind : list Q -> list Q -> float64 * float64.
Variable f_oneway : list (list Q) -> result (float64 * float64).

(** The two loops of the pairwise tests print one line per ordered pair. *)
Lemma pairwise_loops frame algorithms w :
  for_each (enumerate algorithms) (fun ia : nat * string =>
    for_each (enumerate algorithms) (fun jb : nat * string =>
      if (fst ia <? fst jb)%nat
      then print (comparison_line ttest_ind frame (snd ia) (snd jb))
      else ret tt)) w
  = (Ok tt,
     printed w (map (fun ab => comparison_line ttest_ind frame (fst ab) (snd ab))
                  (ordered_pairs algorithms))).
Proof.
  rewrite <- (nested_loops event (comparison_line ttest_ind frame) algorithms).
  apply for_each_printed. intros ia w1. apply for_each_printed. intros jb w2.
  destruct (fst ia <? fst jb)%nat; [reflexivity|].
  cbn [ret]. now rewrite printed_nil.
Qed.

(** The pass of [perform_statistical_tests] over one instance. *)
Lemma tests_of_instance name inst w test :
  records (nth (df inst) (store w) empty_frame) <> [] ->
  let frame := with_base_algorithm (nth (df inst) (store w) empty_frame) in
  f_oneway (map (objective_of frame) (unique (base_algorithm_of frame))) = Ok test ->
  (print (Line (generate_report.nl ++ repeat_char "=" 60)) ;;;
   print (Line ("STATISTICAL TESTS - " ++ name)) ;;;
   print (Line (repeat_char "=" 60)) ;;;
   df_analysis <- copy_with_base_algorithm (df inst) ;;
   frame <- df_read df_analysis ;;
   print (Line (generate_report.nl ++ "Pairwise t-tests for objective values:")) ;;;
   print (Line (repeat_char "-" 40)) ;;;
   for_each (enumerate (unique (base_algorithm_of frame))) (fun ia : nat * string =>
     for_each (enumerate (unique (base_algorithm_of frame))) (fun jb : nat * string =>
       if (fst ia <? fst jb)%nat
       then print (comparison_line ttest_ind frame (snd ia) (snd jb))
       else ret tt)) ;;;
   test <- lift (f_oneway (map (objective_of frame)
                             (unique (base_algorithm_of frame)))) ;;
   for_each (anova_lines test) print) w
  = (Ok tt,
     {| store := (store w ++ [frame])%list;
        stdout := (stdout w ++ tests_report ttest_ind f_oneway name frame)%list;
        written := written w |}).
Proof.
  intros Hne frame Htest.
  unfold bind at 1. rewrite print_printed.
  unfold bind at 1. rewrite print_printed.
  unfold bind at 1. rewrite print_printed.
  unfold bind at 1. rewrite copy_with_base_algorithm_run.
  cbn [printed store stdout written].
  destruct (records (nth (df inst) (store w) empty_frame)) as [|x xs] eqn:E;
    [congruence|].
  unfold bind at 1. unfold df_read at 1. cbn [store]. rewrite nth_middle.
  replace {| records := x :: xs;
             base_algorithm_column :=
               Some (map base_algorithm (map Run.algorithm (x :: xs))) |}
    with frame by (unfold frame, with_base_algorithm; now rewrite E).
  unfold bind at 1. rewrite print_printed.
  unfold bind at 1. rewrite print_printed.
  unfold bind at 1. rewrite pairwise_loops.
  unfold bind at 1. unfold lift. rewrite Htest.
  rewrite (for_each_printed (anova_lines test) (fun e => [e]) print)
    by (intros; apply print_printed).
  unfold tests_report. rewrite Htest. unfold printed.
  cbn [store stdout written]. f_equal. f_equal.
  assert (Hid : forall l : list event, flat_map (fun e => [e]) l = l)
    by (induction l as [|a l IHl]; cbn; congruence).
  rewrite Hid, <- !app_assoc. reflexivity.
Qed.

Lemma tests_loop data : forall w,
  (forall n inst, In (n, inst) data ->
     (df inst < List.length (store w))%nat /\
     records (nth (df inst) (store w) empty_frame) <> [] /\
     exists test,
       let frame := with_base_algorithm (nth (df inst) (store w) empty_frame) in
       f_oneway (map (objective_of frame) (unique (base_algorithm_of frame)))
       = Ok test) ->
  exists w',
    perform_statistical_tests ttest_ind f_oneway data w = (Ok tt, w') /\
    stdout w'
    = (stdout w ++
       flat_map (fun item : string * instance_data =>
                   tests_report ttest_ind f_oneway (fst item)
                     (with_base_algorithm (nth (df (snd item)) (store w) empty_frame)))
         data)%list /\
    written w' = written w /\
    exists more, store w' = (store w ++ more)%list.
Proof.
  unfold perform_statistical_tests.
  induction data as [|[n inst] r IH]; intros w Hok.
  - exists w. cbn. rewrite !app_nil_r. repeat split. exists []. now rewrite app_nil_r.
  - cbn [for_each]. unfold bind at 1. cbv beta iota.
    destruct (Hok n inst (or_introl eq_refl)) as (Hlt & Hne & test & Htest).
    rewrite (tests_of_instance n inst w test Hne Htest).
    match goal with |- context [for_each r _ ?w1] =>
      destruct (IH w1) as (w' & Hrun & Ho & Hw & more & Hmore) end.
    { intros n' inst' Hin. destruct (Hok n' inst' (or_intror Hin)) as (H1 & H2 & H3).
      cbn [store]. rewrite length_app, app_nth1 by exact H1.
      split; [lia|]. split; assumption. }
    exists w'. split; [exact Hrun|]. cbn [store stdout written] in *.
    split; [|split; [exact Hw|]].
    + rewrite Ho. cbn [flat_map fst snd]. rewrite <- app_assoc. do 2 f_equal.
      rewrite !flat_map_concat_map. f_equal.
      apply map_ext_in. intros [n' inst'] Hin. cbn [fst snd].
      destruct (Hok n' inst' (or_intror Hin)) as (H1 & _).
      now rewrite app_nth1.
    + eexists. rewrite Hmore, <- app_assoc. reflexivity.
Qed.

End StatisticalTests.


Lemma ordered_pairs_distinct {A} (l : list A) a b :
  NoDup l -> In (a, b) (ordered_pairs l) -> a <> b.
Proof.
  induction 1 as [|x r Hx Hr IH]; cbn [ordered_pairs]; [intros []|].
  intros H. apply in_app_or in H as [H|H]; [|now apply IH].
  apply in_map_iff in H as (y & [= <- <-] & Hy). intros ->. contradiction.
Qed.

(** X16.  [perform_statistical_tests] compares every two base algorithms of
    an instance once.  On frames that have rows, and when the ANOVA routine
    returns, the call returns, writes no file and leaves the caller's frames
    alone; for each instance it prints the heading, one line for each pair
    of base algorithms in which the first appears before the second in the
    data, and the four ANOVA lines.  So with [k] base algorithms there are
    [k (k - 1) / 2] comparisons, no algorithm is compared with itself, no
    comparison is printed twice, and of the two directions of a pair exactly
    one is printed. *)
Theorem statistical_tests_compare_every_pair_once
    (ttest_ind : list Q -> list Q -> float64 * float64)
    (f_oneway : list (list Q) -> result (float64 * float64))
    (data : utils.data) (w : world) :
  (forall n inst, In (n, inst) data ->
     (df inst < List.length (store w))%nat /\
     records (nth (df inst) (store w) empty_frame) <> [] /\
     exists test,
       let frame := with_base_algorithm (nth (df inst) (store w) empty_frame) in
       f_oneway (map (utils_statistics.objective_of frame)
                   (unique (base_algorithm_of frame))) = Ok test) ->
  (exists w',
     utils_statistics.perform_statistical_tests ttest_ind f_oneway data w
     = (Ok tt, w') /\
     stdout w'
     = (stdout w ++
        flat_map (fun item : string * instance_data =>
                    tests_report ttest_ind f_oneway (fst item)
                      (with_base_algorithm
                         (nth (df (snd item)) (store w) empty_frame)))
          data)%list /\
     written w' = written w /\
     forall l, (l < List.length (store w))%nat ->
       nth l (store w') empty_frame = nth l (store w) empty_frame) /\
  forall frame,
    let algorithms := unique (base_algorithm_of frame) in
    let compared := ordered_pairs algorithms in
    (2 * List.length compared
     = List.length algorithms * (List.length algorithms - 1))%nat /\
    NoDup compared /\
    (forall a b, In (a, b) compared ->
       a <> b /\ In a algorithms /\ In b algorithms) /\
    (forall a b, In a algorithms -> In b algorithms -> a <> b ->
       (In (a, b) compared /\ ~ In (b, a) compared) \/
       (In (b, a) compared /\ ~ In (a, b) compared)).
Proof.
  intros Hok. split.
  - destruct (tests_loop ttest_ind f_oneway data w Hok)
      as (w' & Hrun & Ho & Hw & more & Hmore).
    exists w'. repeat split; auto.
    intros l Hl. now rewrite Hmore, app_nth1.
  - intros frame algorithms compared.
    pose proof (unique_NoDup (base_algorithm_of frame)) as Hnd.
    fold algorithms in Hnd. split; [apply ordered_pairs_length|].
    split; [now apply ordered_pairs_NoDup|]. split.
    + intros a b H. split; [now apply (ordered_pairs_distinct algorithms)|].
      now apply ordered_pairs_In.
    + intros a b Ha Hb Hab. now apply ordered_pairs_one_direction.
Qed.

(** The sample data with test routines that always answer [t = 0, p = 1]:
    two base algorithms, one comparison. *)
Lemma statistical_tests_witness :
  exists w',
    utils_statistics.perform_statistical_tests
      (fun _ _ => (Fin 0, Fin 1)) (fun _ => Ok (Fin 0, Fin 1))
      Sample.dataset Sample.loaded = (Ok tt, w') /\
    In (Line "greedy vs regret: t=0.000, p=1.000000 ns") (stdout w') /\
    ~ In (Line "regret vs greedy: t=0.000, p=1.000000 ns") (stdout w').
Proof.
  destruct (statistical_tests_compare_every_pair_once
              (fun _ _ => (Fin 0, Fin 1)) (fun _ => Ok (Fin 0, Fin 1))
              Sample.dataset Sample.loaded)
    as ((w' & Hrun & Ho & _) & _).
  - intros n inst [[= <- <-]|[]]. cbn. split; [lia|]. split; [discriminate|].
    eexists. reflexivity.
  - exists w'. split; [exact Hrun|]. rewrite Ho. split.
    + vm_compute. auto 10.
    + vm_compute. intros H.
      repeat (destruct H as [H|H]; [discriminate H|]). exact H.
Defined.


(** ** When [create_performance_ranking] returns *)

Section RankingReturns.

Import utils.

Variable argsort : list float64 -> list nat.

Lemma ranking_loop_ok data : forall w,
  (forall n inst, In (n, inst) data ->
     (df inst < List.length (store w))%nat /\
     records (nth (df inst) (store w) empty_frame) <> []) ->
  exists w',
    map_m (fun item : string * instance_data =>
        let (instance_name, instance_data) := item in
        df_analysis <- copy_with_base_algorithm (df instance_data) ;;
        frame <- df_read df_analysis ;;
        ret (ranking_rows instance_name frame)) data w
    = (Ok (map (fun item : string * instance_data =>
                  ranking_rows (fst item)
                    (with_base_algorithm (nth (df (snd item)) (store w) empty_frame)))
             data), w') /\
    stdout w' = stdout w /\ written w' = written w /\
    exists more, store w' = (store w ++ more)%list.
Proof.
  induction data as [|[n inst] r IH]; intros w Hok.
  - exists w. cbn. repeat split. exists []. now rewrite app_nil_r.
  - cbn [map_m map fst snd].
    destruct (Hok n inst (or_introl eq_refl)) as [Hlt Hne].
    unfold bind at 1. unfold bind at 1. rewrite copy_with_base_algorithm_run.
    destruct (records (nth (df inst) (store w) empty_frame)) as [|x xs] eqn:E;
      [congruence|].
    unfold bind at 1. unfold df_read at 1. cbn [store ret]. rewrite nth_middle.
    match goal with |- context [bind (map_m _ r) _ ?w1] =>
      destruct (IH w1) as (w' & Hrun & Ho & Hw & more & Hmore) end.
    { intros n' inst' Hin. destruct (Hok n' inst' (or_intror Hin)) as [H1 H2].
      cbn [store]. rewrite length_app, app_nth1 by exact H1. split; [lia | exact H2]. }
    unfold bind at 1. rewrite Hrun. cbn [ret store stdout written] in *.
    eexists. split; [|split; [exact Ho | split; [exact Hw|]]].
    + unfold ret. f_equal. f_equal. f_equal.
      * f_equal. unfold with_base_algorithm. now rewrite E.
      * apply map_ext_in. intros [n' inst'] Hin. cbn [fst snd].
        destruct (Hok n' inst' (or_intror Hin)) as [H1 _]. now rewrite app_nth1.
    + eexists. rewrite Hmore, <- app_assoc. reflexivity.
Qed.

Lemma index_in_range {A} (l : list A) i :
  (i < List.length l)%nat -> exists a, index l i = Ok a.
Proof.
  intros H. unfold index. destruct (nth_error l i) as [a|] eqn:E; [eauto|].
  apply nth_error_None in E. lia.
Qed.

(** The ranking of an instance that has rows is printed. *)
Lemma print_instance_ranking_ok ranking_df instance w :
  sorts (argsort (map Mean_Objective (rows_of ranking_df instance)))
    (map Mean_Objective (rows_of ranking_df instance)) = true ->
  In instance (map Instance ranking_df) ->
  exists e,
    print_instance_ranking argsort ranking_df instance w
    = (Ok tt, printed w [PerformanceRanking instance
                           (instance_ranking argsort ranking_df instance); e]).
Proof.
  intros Hs Hin. unfold print_instance_ranking.
  set (ranking := instance_ranking argsort ranking_df instance).
  assert (Hlen : (0 < List.length ranking)%nat).
  { unfold ranking, instance_ranking. unfold rows_of in Hs.
    destruct (sort_values_sorted argsort Mean_Objective _ Hs) as [Hp _].
    rewrite length_combine, length_seq, Nat.min_id, (Permutation_length Hp).
    apply in_map_iff in Hin as (r & Hr & Hin).
    assert (Hrow : In r (filter (fun r => String.eqb (Instance r) instance)
                           ranking_df)).
    { apply filter_In. split; [exact Hin|]. rewrite Hr. apply String.eqb_refl. }
    destruct (filter _ ranking_df); [destruct Hrow | cbn; lia]. }
  destruct (index_in_range ranking 0 Hlen) as [best Hbest].
  destruct (index_in_range ranking (List.length ranking - 1) ltac:(lia))
    as [worst Hworst].
  unfold bind, print, lift. cbn [store stdout written].
  rewrite Hbest, Hworst. eexists. unfold printed. cbn [store stdout written].
  rewrite <- app_assoc. reflexivity.
Qed.

Lemma rankings_loop ranking_df instances : forall w,
  (forall i, In i instances ->
     sorts (argsort (map Mean_Objective (rows_of ranking_df i)))
       (map Mean_Objective (rows_of ranking_df i)) = true /\
     In i (map Instance ranking_df)) ->
  exists es,
    for_each instances (print_instance_ranking argsort ranking_df) w
    = (Ok tt, printed w es) /\
    forall i, In i instances ->
      In (PerformanceRanking i (instance_ranking argsort ranking_df i)) es.
Proof.
  induction instances as [|x r IH]; intros w Hok.
  - exists []. cbn. rewrite printed_nil. split; [reflexivity | intros i []].
  - destruct (Hok x (or_introl eq_refl)) as [Hs Hin].
    destruct (print_instance_ranking_ok ranking_df x w Hs Hin) as [e He].
    cbn [for_each]. unfold bind. rewrite He.
    destruct (IH (printed w [PerformanceRanking x
                               (instance_ranking argsort ranking_df x); e]))
      as (es & Hrun & Hes).
    { intros i Hi. apply Hok. now right. }
    rewrite Hrun, printed_printed. eexists. split; [reflexivity|].
    intros i [<-|Hi]; [now left|]. apply in_or_app. right. now apply Hes.
Qed.

Lemma ranking_rows_nonempty n frame :
  records frame <> [] ->
  exists r, In r (ranking_rows n (with_base_algorithm frame)) /\ Instance r = n.
Proof.
  intros Hne. unfold ranking_rows, with_base_algorithm, base_algorithm_of.
  cbn [records base_algorithm_column].
  destruct (records frame) as [|x xs]; [congruence|]. cbn [map unique].
  eexists. split; [now left | reflexivity].
Qed.

End RankingReturns.

(** X17.  When [create_performance_ranking] returns and when it cannot.  On
    an empty mapping it raises [KeyError('Instance')].  On a mapping that is
    not empty, with frames that have rows and a sorting routine that sorts
    the means of each instance, it returns the rows of all instances, in the
    order of the mapping, writes no file, and has printed the ranking of
    every instance: the position lookups [iloc[0]] and [iloc[-1]] never
    fail. *)
Theorem create_performance_ranking_returns
    (argsort : list float64 -> list nat) (data : utils.data) (w : world) :
  utils.create_performance_ranking argsort [] w = (Raise (KeyError "Instance"), w) /\
  (data <> [] ->
   (forall n inst, In (n, inst) data ->
      (df inst < List.length (store w))%nat /\
      records (nth (df inst) (store w) empty_frame) <> []) ->
   let ranking_df := ranking_of data (store w) in
   (forall n inst, In (n, inst) data ->
      sorts (argsort (map Mean_Objective (rows_of ranking_df n)))
        (map Mean_Objective (rows_of ranking_df n)) = true) ->
   exists w',
     utils.create_performance_ranking argsort data w = (Ok ranking_df, w') /\
     written w' = written w /\
     forall n inst, In (n, inst) data ->
       In (PerformanceRanking n (utils.instance_ranking argsort ranking_df n))
          (stdout w')).
Proof.
  split; [reflexivity|]. intros Hne Hok ranking_df Hsorts.
  destruct (ranking_loop_ok data w Hok) as (w1 & Hloop & Ho & Hw & _).
  unfold utils.create_performance_ranking. rewrite (bind_run _ _ _ _ _ Hloop).
  fold (ranking_of data (store w)). fold ranking_df.
  assert (Hinst : forall n inst, In (n, inst) data ->
            In n (map Instance ranking_df)).
  { intros n inst Hin. destruct (Hok n inst Hin) as [_ Hrows].
    destruct (ranking_rows_nonempty n _ Hrows) as (r & Hr & Hn).
    rewrite <- Hn. apply in_map. unfold ranking_df, ranking_of. apply in_concat.
    eexists. split; [|exact Hr].
    apply in_map_iff. exists (n, inst). split; [reflexivity | exact Hin]. }
  destruct ranking_df as [|r0 rows] eqn:Hdf.
  { destruct data as [|[n inst] rest]; [congruence|].
    destruct (Hinst n inst (or_introl eq_refl)). }
  rewrite <- Hdf in *.
  destruct (rankings_loop argsort ranking_df (unique (map Instance ranking_df)) w1)
    as (es & Hrun & Hes).
  { intros i Hi. apply (proj1 (unique_In _ _)) in Hi. split; [|exact Hi].
    apply in_map_iff in Hi as (r & <- & Hr).
    unfold ranking_df, ranking_of in Hr. apply in_concat in Hr as (l & Hl & Hr).
    apply in_map_iff in Hl as ([n inst] & <- & Hin). cbn [fst snd] in Hr.
    pose proof (ranking_rows_instance n
                  (with_base_algorithm (nth (df inst) (store w) empty_frame)))
      as Hall.
    rewrite Forall_forall in Hall. rewrite (Hall r Hr). now apply (Hsorts n inst). }
  rewrite (bind_run _ _ _ _ _ Hrun). cbn [ret].
  eexists. split; [reflexivity|]. cbn [printed written stdout]. split; [exact Hw|].
  intros n inst Hin. apply in_or_app. right. apply Hes, unique_In.
  now apply (Hinst n inst).
Qed.

(** The sample data with the stable sorting routine. *)
Lemma create_performance_ranking_witness :
  exists w',
    utils.create_performance_ranking stable_argsort Sample.dataset Sample.loaded
    = (Ok (ranking_of Sample.dataset (store Sample.loaded)), w') /\
    In (PerformanceRanking "TSPA"
          (utils.instance_ranking stable_argsort
             (ranking_of Sample.dataset (store Sample.loaded)) "TSPA"))
       (stdout w').
Proof.
  destruct (proj2 (create_performance_ranking_returns stable_argsort
                     Sample.dataset Sample.loaded))
    as (w' & Hrun & _ & Hprinted).
  - discriminate.
  - intros n inst [[= <- <-]|[]]. cbn. split; [lia | discriminate].
  - intros n inst [[= <- <-]|[]]. vm_compute. reflexivity.
  - exists w'. split; [exact Hrun|].
    apply (Hprinted "TSPA"
             {| df := 0%nat; viz_data := Some Sample.viz; summary_data := None |}).
    now left.
Defined.


(** ** When a picture can be drawn *)

Lemma result_map_all {A B} (f : A -> result B) xs ys :
  result_map f xs = Ok ys -> forall x, In x xs -> exists b, f x = Ok b.
Proof.
  revert ys; induction xs as [|a r IH]; cbn [result_map]; intros ys H x [];
    destruct (f a) as [b|] eqn:Ha; try discriminate; cbn [result_bind] in H;
    destruct (result_map f r) as [bs|]; try discriminate.
  - subst. eauto.
  - eapply IH; eauto.
Qed.

Lemma lookup_inv {V} (val : Node.t -> V) nodes k v :
  utils.lookup (Dict.of_list Z.eqb Node.id val nodes) k = Ok v ->
  In k (map Node.id nodes).
Proof.
  unfold utils.lookup.
  destruct (Dict.get Z.eqb (Dict.of_list Z.eqb Node.id val nodes) k) eqn:E;
    [|discriminate].
  intros _. apply (dict_keys_of_list Z.eqb Z.eqb_spec Node.id val).
  apply (dict_get_keys Z.eqb Z.eqb_spec). congruence.
Qed.

(** X18.  The drawing routine shared by [plot_best_solutions] and
    [_create_solution_plot] returns exactly on the data it can draw: there
    are two nodes of different cost, every selected node and every node of
    the route is a node of the instance, and the route is not empty.  On
    anything else it raises. *)
Theorem draw_solution_returns_exactly_when_drawable
    (nodes : list Node.t) (solution_data : Sol.t) :
  (exists artists, utils.draw_solution nodes solution_data = Ok artists)
  <-> drawable nodes solution_data.
Proof.
  split.
  2:{ intros (H1 & H2 & H3 & H4). now apply draw_solution_returns. }
  intros [artists H]. unfold utils.draw_solution in H.
  destruct (py_max (map Node.cost nodes)) as [mx|] eqn:Hmx; [|discriminate].
  cbn [result_bind] in H.
  destruct (py_min (map Node.cost nodes)) as [mn|] eqn:Hmn; [|discriminate].
  cbn [result_bind] in H.
  assert (Hdiff : ~ mx == mn).
  { intros Heq. destruct nodes as [|n r]; [discriminate|].
    cbn [result_map result_bind] in H.
    rewrite (marker_size_equal_extremes _ _ _ Heq) in H. discriminate. }
  match type of H with result_bind ?g _ = _ =>
    destruct g as [gray|]; [|discriminate] end.
  cbn [result_bind] in H.
  match type of H with result_bind ?g _ = _ =>
    destruct g as [selected|] eqn:Hsel; [|discriminate] end.
  cbn [result_bind] in H.
  match type of H with result_bind ?g _ = _ =>
    destruct g as [route_coords|] eqn:Hroute; [|discriminate] end.
  apply closed_route_coords_inv in Hroute as (coords & first & Hco & Hfirst & _).
  split; [|split; [|split]].
  - destruct (py_max_bounds _ _ Hmx) as [Hinx Hallx].
    destruct (py_min_bounds _ _ Hmn) as [Hinn Halln].
    apply in_map_iff in Hinx as (b & Hb & Hinb).
    apply in_map_iff in Hinn as (a & Ha & Hina).
    exists a, b. split; [exact Hina|]. split; [exact Hinb|].
    rewrite Forall_forall in Hallx.
    pose proof (Hallx _ (in_map Node.cost _ _ Hina)) as Hle.
    rewrite Ha, Hb. destruct (Qlt_le_dec mn mx) as [Hlt|Hge]; [exact Hlt|].
    exfalso. apply Hdiff. rewrite Ha in Hle. now apply Qle_antisym.
  - apply Forall_forall. intros k Hk.
    destruct (result_map_all _ _ _ Hsel k Hk) as [b Hb].
    destruct (utils.lookup _ k) as [xy|] eqn:Hxy in Hb; [|discriminate].
    now apply lookup_inv in Hxy.
  - intros Hempty. rewrite Hempty in Hco. cbn in Hco. injection Hco as <-.
    discriminate.
  - apply Forall_forall. intros k Hk.
    destruct (result_map_all _ _ _ Hco k Hk) as [b Hb].
    now apply lookup_inv in Hb.
Qed.


(** ** The files of [export_statistics_summary] *)

Section StatisticsExport.

Import utils.
Import VisualizationExporter.

Variable self : t.
Variable timestamp suffix : string.

Lemma with_base_algorithm_idempotent frame :
  with_base_algorithm (with_base_algorithm frame) = with_base_algorithm frame.
Proof. reflexivity. Qed.

(** One entry per base algorithm, in order of first appearance. *)
Lemma stats_summary_keys frame :
  Dict.keys (stats_summary frame) = unique (base_algorithm_of frame).
Proof.
  unfold stats_summary.
  pose proof (unique_NoDup (base_algorithm_of frame)) as Hnd.
  set (val := fun algorithm => stats_entry
                (map Run.objective_value
                   (select (base_algorithm_of frame) algorithm (records frame)))).
  assert (H : forall l (d : Dict.t (K := string) (V := StatsEntry)),
            NoDup l -> (forall a, In a l -> ~ In a (Dict.keys d)) ->
            Dict.keys (fold_left (fun summary algorithm =>
                         Dict.set String.eqb summary algorithm (val algorithm)) l d)
            = (Dict.keys d ++ l)%list).
  { induction l as [|a l IH]; intros d Hl Hd; cbn [fold_left].
    - now rewrite app_nil_r.
    - inversion Hl as [|? ? Ha Hl']; subst. rewrite IH.
      + rewrite (dict_keys_set_new String.eqb String.eqb_spec)
          by (apply Hd; now left).
        now rewrite <- app_assoc.
      + exact Hl'.
      + intros b Hb Hin.
        apply (dict_keys_set String.eqb String.eqb_spec) in Hin as [->|Hin].
        * contradiction.
        * apply (Hd b); [now right | exact Hin]. }
  apply (H _ [] Hnd). intros a _ [].
Qed.

(** The pass over one instance: the column is put on the frame in the store,
    and the two files hold that frame. *)
Lemma export_statistics_step name inst w :
  (df inst < List.length (store w))%nat ->
  records (nth (df inst) (store w) empty_frame) <> [] ->
  (add_base_algorithm (df inst) ;;;
   frame <- df_read (df inst) ;;
   write_file
     (path_join (output_dir self)
        (name ++ "_statistics" ++ suffix ++ "_" ++ timestamp ++ ".json"))
     (StatisticsJson name (algorithm_folder self) timestamp (stats_summary frame)) ;;;
   write_file
     (path_join (output_dir self)
        (name ++ "_raw_data" ++ suffix ++ "_" ++ timestamp ++ ".csv"))
     (RawDataCsv frame) ;;;
   print (Line ("Exported statistics for " ++ name ++ " to:")) ;;;
   print (Line ("  JSON: " ++ path_join (output_dir self)
                  (name ++ "_statistics" ++ suffix ++ "_" ++ timestamp ++ ".json"))) ;;;
   print (Line ("  CSV: " ++ path_join (output_dir self)
                  (name ++ "_raw_data" ++ suffix ++ "_" ++ timestamp ++ ".csv")))) w
  = (Ok tt,
     {| store := list_update (store w) (df inst)
                   (with_base_algorithm (nth (df inst) (store w) empty_frame));
        stdout := (stdout w ++
          [Line ("Exported statistics for " ++ name ++ " to:");
           Line ("  JSON: " ++ path_join (output_dir self)
                   (name ++ "_statistics" ++ suffix ++ "_" ++ timestamp ++ ".json"));
           Line ("  CSV: " ++ path_join (output_dir self)
                   (name ++ "_raw_data" ++ suffix ++ "_" ++ timestamp ++ ".csv"))])%list;
        written := (written w ++
          statistics_files self timestamp suffix name
            (with_base_algorithm (nth (df inst) (store w) empty_frame)))%list |}).
Proof.
  intros Hlt Hne. unfold bind at 1. rewrite add_base_algorithm_run.
  destruct (records (nth (df inst) (store w) empty_frame)) as [|x xs] eqn:E;
    [congruence|].
  unfold bind, df_read, write_file, print. cbn [store stdout written].
  rewrite nth_list_update, Nat.eqb_refl.
  replace (df inst <? List.length (store w))%nat with true
    by (symmetry; now apply Nat.ltb_lt).
  cbn [andb]. unfold statistics_files, with_base_algorithm. rewrite E.
  rewrite <- !app_assoc. reflexivity.
Qed.

Variable s0 : list DataFrame.

(** The store during the export: the frames of the start, some of them with
    the column added. *)
Let touched (s : list DataFrame) : Prop :=
  List.length s = List.length s0 /\
  forall l, nth l s empty_frame = nth l s0 empty_frame \/
            nth l s empty_frame = with_base_algorithm (nth l s0 empty_frame).

Lemma export_statistics_loop data : forall w,
  touched (store w) ->
  (forall n inst, In (n, inst) data ->
     (df inst < List.length s0)%nat /\
     records (nth (df inst) s0 empty_frame) <> []) ->
  exists w',
    export_statistics_summary self timestamp data suffix w = (Ok tt, w') /\
    written w'
    = (written w ++
       flat_map (fun item : string * instance_data =>
                   statistics_files self timestamp suffix (fst item)
                     (with_base_algorithm (nth (df (snd item)) s0 empty_frame)))
         data)%list /\
    touched (store w') /\
    (forall l, nth l (store w) empty_frame
               = with_base_algorithm (nth l s0 empty_frame) ->
               nth l (store w') empty_frame
               = with_base_algorithm (nth l s0 empty_frame)) /\
    (forall n inst, In (n, inst) data ->
       nth (df inst) (store w') empty_frame
       = with_base_algorithm (nth (df inst) s0 empty_frame)).
Proof.
  unfold export_statistics_summary.
  induction data as [|[n inst] r IH]; intros w Ht Hok.
  - exists w. cbn. rewrite app_nil_r. repeat split; auto; try apply Ht.
    intros ? ? [].
  - destruct (Hok n inst (or_introl eq_refl)) as [Hlt Hne].
    destruct Ht as [Hlen Hframes].
    assert (Hrec : records (nth (df inst) (store w) empty_frame)
                   = records (nth (df inst) s0 empty_frame)).
    { destruct (Hframes (df inst)) as [-> | ->]; reflexivity. }
    assert (Hwb : with_base_algorithm (nth (df inst) (store w) empty_frame)
                  = with_base_algorithm (nth (df inst) s0 empty_frame)).
    { destruct (Hframes (df inst)) as [-> | ->]; reflexivity. }
    cbn [for_each]. unfold bind at 1. cbv beta iota zeta.
    rewrite export_statistics_step by (rewrite ?Hlen, ?Hrec; assumption).
    rewrite Hwb.
    set (s1 := list_update (store w) (df inst)
                 (with_base_algorithm (nth (df inst) s0 empty_frame))).
    assert (Hnth : forall l, nth l s1 empty_frame
                   = if (df inst =? l)%nat
                     then with_base_algorithm (nth (df inst) s0 empty_frame)
                     else nth l (store w) empty_frame).
    { intros l. unfold s1. rewrite nth_list_update.
      replace (df inst <? List.length (store w))%nat with true
        by (symmetry; apply Nat.ltb_lt; lia).
      now rewrite andb_true_r. }
    match goal with |- context [for_each r _ ?w1] =>
      destruct (IH w1) as (w' & Hrun & Hw & Ht' & Hstable & Hdone) end.
    { cbn [store]. split; [unfold s1; now rewrite list_update_length|].
      intros l. rewrite Hnth. destruct (Nat.eqb_spec (df inst) l) as [<-|_];
        [now right | apply Hframes]. }
    { intros n' inst' Hin. apply (Hok n'). now right. }
    exists w'. split; [exact Hrun|]. cbn [store stdout written] in *.
    split; [|split; [exact Ht'|split]].
    + rewrite Hw. cbn [flat_map fst snd]. now rewrite <- app_assoc.
    + intros l Hl. apply Hstable. rewrite Hnth.
      destruct (Nat.eqb_spec (df inst) l) as [<-|_]; [reflexivity | exact Hl].
    + intros n' inst' [[= <- <-]|Hin]; [|now apply (Hdone n' inst')].
      apply Hstable. now rewrite Hnth, Nat.eqb_refl.
Qed.

End StatisticsExport.


(** X19.  What [export_statistics_summary] leaves behind.  On frames that
    have rows the call returns; for every instance, in the order of the
    mapping, it writes the JSON summary and then the CSV of the frame with
    the column [base_algorithm]; the summary has one entry per base
    algorithm, in order of first appearance; the frames of the instances
    end with that column and no frame of the store loses or gains a row.
    The paths are the text the code builds; whether two of them name the
    same file is not concluded. *)
Theorem export_statistics_summary_files
    (self : utils.VisualizationExporter.t) (timestamp suffix : string)
    (data : utils.data) (w : world) :
  (forall n inst, In (n, inst) data ->
     (df inst < List.length (store w))%nat /\
     records (nth (df inst) (store w) empty_frame) <> []) ->
  exists w',
    utils.VisualizationExporter.export_statistics_summary self timestamp data
      suffix w = (Ok tt, w') /\
    written w'
    = (written w ++
       flat_map (fun item : string * instance_data =>
                   statistics_files self timestamp suffix (fst item)
                     (with_base_algorithm
                        (nth (df (snd item)) (store w) empty_frame)))
         data)%list /\
    (forall frame,
       Dict.keys (utils.VisualizationExporter.stats_summary frame)
       = unique (base_algorithm_of frame)) /\
    (forall n inst, In (n, inst) data ->
       nth (df inst) (store w') empty_frame
       = with_base_algorithm (nth (df inst) (store w) empty_frame)) /\
    List.length (store w') = List.length (store w) /\
    (forall l, records (nth l (store w') empty_frame)
               = records (nth l (store w) empty_frame)).
Proof.
  intros Hok.
  destruct (export_statistics_loop self timestamp suffix (store w) data w)
    as (w' & Hrun & Hw & [Hlen Hframes] & _ & Hdone).
  - split; [reflexivity | now left].
  - exact Hok.
  - exists w'. split; [exact Hrun|]. split; [exact Hw|].
    split; [apply stats_summary_keys|]. split; [exact Hdone|].
    split; [exact Hlen|].
    intros l. destruct (Hframes l) as [-> | ->]; reflexivity.
Qed.

(** The sample data: two files for [TSPA], with one entry for [greedy] and
    one for [regret]. *)
Lemma export_statistics_summary_files_witness :
  exists w' summary,
    utils.VisualizationExporter.export_statistics_summary Sample.exporter
      "20240101_000000" Sample.dataset "" Sample.loaded = (Ok tt, w') /\
    map fst (written w')
    = ["results/greedy/TSPA_statistics_20240101_000000.json";
       "results/greedy/TSPA_raw_data_20240101_000000.csv"] /\
    nth_error (map snd (written w')) 0
    = Some (StatisticsJson "TSPA" "greedy" "20240101_000000" summary) /\
    Dict.keys summary = ["greedy"; "regret"].
Proof.
  destruct (export_statistics_summary_files Sample.exporter "20240101_000000" ""
              Sample.dataset Sample.loaded)
    as (w' & Hrun & Hw & Hkeys & _).
  - intros n inst [[= <- <-]|[]]. cbn. split; [lia | discriminate].
  - exists w'. eexists. split; [exact Hrun|]. rewrite Hw.
    split; [reflexivity|]. split; [reflexivity|].
    rewrite Hkeys. reflexivity.
Defined.


(** ** What the loader prints *)

(** X20.  What [load_algorithm_results] prints for a results file that is
    there: the number of runs, and, unless there is none, the base
    algorithms of the runs: every base algorithm that occurs and no other,
    in strictly ascending order, so each once.  The frame it returns is new
    and nothing is written. *)
Theorem loader_lists_base_algorithms
    (fs : FileSystem) (instance_name algorithm_folder : string)
    (results_data : list Run.t) (w : world) :
  results_at fs (utils.results_path instance_name algorithm_folder)
  = Some results_data ->
  exists w' names,
    utils.load_algorithm_results fs instance_name algorithm_folder w
    = (Ok (Some (List.length (store w)),
           visualization_at fs (utils.viz_path instance_name algorithm_folder),
           summary_at fs (utils.summary_path instance_name algorithm_folder)), w') /\
    stdout w'
    = (stdout w ++
       Loaded (List.length results_data) instance_name algorithm_folder
       :: match results_data with
          | [] => []
          | _ => [Algorithms names]
          end)%list /\
    strictly_ascending names = true /\
    (forall a, In a names <->
               exists r, In r results_data /\ base_algorithm (Run.algorithm r) = a) /\
    written w' = written w.
Proof.
  intros Hfile.
  exists (snd (utils.load_algorithm_results fs instance_name algorithm_folder w)),
         (sorted (unique (map base_algorithm (map Run.algorithm results_data)))).
  unfold utils.load_algorithm_results. rewrite Hfile.
  unfold bind, DataFrame_new, alloc, print, ret. cbn [store stdout written].
  split; [destruct results_data; reflexivity|].
  split; [destruct results_data; cbn [snd stdout];
          [reflexivity | now rewrite <- app_assoc]|].
  split; [apply sorted_ascending, unique_NoDup|].
  split; [|destruct results_data; reflexivity].
  intros a. rewrite sorted_In, unique_In, map_map, in_map_iff. split.
  - intros (r & Hr & Hin). eauto.
  - intros (r & Hin & Hr). eauto.
Qed.

(** The sample results directory: three runs, two base algorithms. *)
Lemma loader_lists_witness :
  exists w',
    utils.load_algorithm_results Sample.fs "TSPA" "greedy" Sample.start
    = (Ok (Some 0%nat, Some Sample.viz, None), w') /\
    stdout w' = [Loaded 3 "TSPA" "greedy"; Algorithms ["greedy"; "regret"]].
Proof.
  destruct (loader_lists_base_algorithms Sample.fs "TSPA" "greedy" Sample.runs
              Sample.start eq_refl)
    as (w' & names & Hrun & _).
  exists w'. split; [exact Hrun|].
  assert (E : w' = snd (utils.load_algorithm_results Sample.fs "TSPA" "greedy"
                          Sample.start)) by now rewrite Hrun.
  rewrite E. reflexivity.
Defined.

(** ** The assembled report *)

Section Report.

Import generate_report.
Import TSPReportGenerator.

(** Growing the store leaves the frames of the loaded instances alone. *)
Lemma frames_of_app data s more :
  (forall name inst, In (name, inst) data -> (df inst < List.length s)%nat) ->
  frames_of data (s ++ more)%list = frames_of data s.
Proof.
  intros Hlt. unfold frames_of. apply map_ext_in. intros [name inst] Hin.
  cbn [fst snd]. f_equal. apply app_nth1. exact (Hlt name inst Hin).
Qed.

(** The report around the two tables, on frames that have rows. *)
Lemma generate_markdown_report_text self authors title w :
  NoDup (Dict.keys (algorithm_data self)) ->
  (forall name inst, In (name, inst) (algorithm_data self) ->
     (df inst < List.length (store w))%nat /\
     records (nth (df inst) (store w) empty_frame) <> []) ->
  exists w',
    generate_markdown_report self authors title w
    = (Ok (report_text self authors title
             (expected_table Run.objective_value 2 (instances self)
                (frames_of (algorithm_data self) (store w)))
             (expected_table Run.computation_time_ms 0 (instances self)
                (frames_of (algorithm_data self) (store w)))), w') /\
    stdout w' = stdout w /\ written w' = written w.
Proof.
  intros Hnd Hok.
  destruct (generate_table_ok Run.objective_value 2 self w Hok)
    as (c1 & w1 & Hr1 & Ho1 & Hw1 & more & Hmore).
  destruct (proj1 (comparison_table_cells Run.objective_value 2 self w Hnd Hok))
    as [w1' Hr1'].
  rewrite Hr1 in Hr1'. injection Hr1' as Hc1 _.
  assert (Hok1 : forall name inst, In (name, inst) (algorithm_data self) ->
            (df inst < List.length (store w1))%nat /\
            records (nth (df inst) (store w1) empty_frame) <> []).
  { intros name inst Hin. destruct (Hok name inst Hin) as [H1 H2].
    rewrite Hmore, length_app, app_nth1 by exact H1. split; [lia | exact H2]. }
  destruct (generate_table_ok Run.computation_time_ms 0 self w1 Hok1)
    as (c2 & w2 & Hr2 & Ho2 & Hw2 & _).
  destruct (proj1 (comparison_table_cells Run.computation_time_ms 0 self w1 Hnd Hok1))
    as [w2' Hr2'].
  rewrite Hr2 in Hr2'. injection Hr2' as Hc2 _.
  rewrite Hmore, frames_of_app in Hc2
    by (intros name inst Hin; exact (proj1 (Hok name inst Hin))).
  exists w2. split; [|split; congruence].
  unfold generate_markdown_report, _generate_objective_table, _generate_time_table.
  rewrite (bind_run _ _ _ _ _ Hr1), (bind_run _ _ _ _ _ Hr2).
  unfold ret, report_text, expected_table. rewrite Hc1, Hc2. reflexivity.
Qed.

(** The loop over [self.instances] passes over the instances without
    figures. *)
Lemma visualization_sections_skip self :
  visualization_sections self
  = visualization_sections
      (with_instances self (filter (has_figures self) (instances self))).
Proof.
  unfold visualization_sections, with_instances, has_figures, Dict.mem.
  cbn [instances visualizations].
  induction (instances self) as [|i r IH]; [reflexivity|].
  cbn [flat_map filter].
  destruct (Dict.get String.eqb (visualizations self) i) as [entries|] eqn:E.
  - cbn [flat_map]. rewrite E. now rewrite IH.
  - exact IH.
Qed.

(** An instance with figures has its heading. *)
Lemma visualization_sections_heading self i :
  In i (instances self) -> has_figures self i = true ->
  In (instance_heading i) (visualization_sections self).
Proof.
  unfold has_figures, Dict.mem, visualization_sections. intros Hin Hfig.
  apply in_flat_map. exists i. split; [exact Hin|].
  destruct (Dict.get String.eqb (visualizations self) i); [now left | discriminate].
Qed.

End Report.

(** C7 (as amended).  In the assembled report absence is explicit in the
    two comparison tables and nowhere else.  For a generator whose loaded
    instances hold at least one run each, [generate_markdown_report]
    returns, prints nothing and writes nothing, and the document is the
    fixed frame of headings around the table of objective values, the
    table of computation times and the section of the figures.  Each table
    has one column per requested instance and one row per algorithm
    received on some loaded instance; the cell of an algorithm under an
    instance is the text ["N/A"] exactly when no run of that pair was
    received, and the statistics of the pair's runs otherwise, so no cell
    shows a result for a pair without data.  The section of the figures is
    the one the requested instances with figure references give: each of
    them has its heading, and an instance without references is passed over
    without a line. *)
Theorem report_states_absence_in_tables_only
    (self : generate_report.TSPReportGenerator.t) (authors : list string)
    (title : string) (w : world) :
  NoDup (Dict.keys (generate_report.TSPReportGenerator.algorithm_data self)) ->
  (forall name inst,
      In (name, inst) (generate_report.TSPReportGenerator.algorithm_data self) ->
      (df inst < List.length (store w))%nat /\
      records (nth (df inst) (store w) empty_frame) <> []) ->
  let instances := generate_report.TSPReportGenerator.instances self in
  let frames :=
    frames_of (generate_report.TSPReportGenerator.algorithm_data self) (store w) in
  (exists w',
     generate_report.TSPReportGenerator.generate_markdown_report self authors title w
     = (Ok (report_text self authors title
              (expected_table Run.objective_value 2 instances frames)
              (expected_table Run.computation_time_ms 0 instances frames)), w') /\
     stdout w' = stdout w /\ written w' = written w) /\
  (forall field digits,
     (forall a, In a (Dict.keys (table_stats field digits frames))
                <-> exists i, received frames a i) /\
     (forall a i, expected_cell field digits frames a i = "N/A"
                  <-> ~ received frames a i) /\
     (forall a i, received frames a i ->
        exists frame,
          In (i, frame) frames /\
          expected_cell field digits frames a i
          = generate_report.stats_cell digits
              (map field (select (labels frame) a (records (clean_frame frame)))))) /\
  generate_report.TSPReportGenerator.visualization_sections self
  = generate_report.TSPReportGenerator.visualization_sections
      (with_instances self (filter (has_figures self) instances)) /\
  (forall i, In i instances -> has_figures self i = true ->
     In (instance_heading i)
        (generate_report.TSPReportGenerator.visualization_sections self)).
Proof.
  intros Hnd Hok instances frames.
  split; [exact (generate_markdown_report_text self authors title w Hnd Hok)|].
  split; [|split].
  - intros field digits.
    exact (proj2 (comparison_table_cells field digits self w Hnd Hok)).
  - apply visualization_sections_skip.
  - intros i. apply visualization_sections_heading.
Qed.

(** The sample of the specification after the figures were made: [TSPA] and
    [TSPB] requested, data and a figure for [TSPA] only.  Both tables have
    the two columns, and every [TSPB] cell is ["N/A"]. *)
Lemma report_states_absence_witness :
  exists w',
    generate_report.TSPReportGenerator.generate_markdown_report SampleReport.self
      [] "Report" SampleReport.after
    = (Ok (report_text SampleReport.self [] "Report"
             (join generate_report.nl
                ["| Algorithm | TSPA | TSPB |";
                 "|---|---|---|";
                 "| greedy | 95.00 (90.00 - 100.00) | N/A |";
                 "| regret | 110.00 (110.00 - 110.00) | N/A |"])
             (join generate_report.nl
                ["| Algorithm | TSPA | TSPB |";
                 "|---|---|---|";
                 "| greedy | 5.50 (5 - 6) | N/A |";
                 "| regret | 7.00 (7 - 7) | N/A |"])), w').
Proof.
  destruct (report_states_absence_in_tables_only SampleReport.self [] "Report"
              SampleReport.after) as [(w' & Hrun & _) _].
  - vm_compute. repeat constructor. intros [].
  - intros name inst Hin. vm_compute in Hin. destruct Hin as [[= <- <-]|[]].
    split; [vm_compute; lia | vm_compute; discriminate].
  - exists w'. rewrite Hrun. vm_compute. reflexivity.
Defined.

(** C7 fails as stated: something is dropped without a word.  In the sample
    of the specification [TSPB] is requested and the report is produced,
    but the section of the figures, which has a heading for [TSPA], has no
    line that mentions [TSPB]: no heading, no figure and no note that there
    is none. *)
Lemma report_skips_instance_without_figures :
  generate_report.TSPReportGenerator.generate_visualizations
    Sample.generator Sample.loaded = (Ok SampleReport.self, SampleReport.after) /\
  generate_report.TSPReportGenerator.instances SampleReport.self = ["TSPA"; "TSPB"] /\
  (exists content w',
     generate_report.TSPReportGenerator.generate_markdown_report
       SampleReport.self [] "Report" SampleReport.after = (Ok content, w')) /\
  In (instance_heading "TSPA")
     (generate_report.TSPReportGenerator.visualization_sections SampleReport.self) /\
  existsb (occurs "TSPB")
    (generate_report.TSPReportGenerator.visualization_sections SampleReport.self)
  = false.
Proof.
  split; [vm_compute; reflexivity|]. split; [vm_compute; reflexivity|].
  split; [|split; [vm_compute; now left | vm_compute; reflexivity]].
  eexists _, _. vm_compute. reflexivity.
Qed.
